(** * Sportsbook-Analysis: the arbitrage API (main.py) and its helpers

    A shallow embedding of the opportunity-detection code of [main.py]
    (filtering, grouping, best-price selection, margin computation, books
    summary, totals middles, sorting and pagination) and of
    [decimal_to_american] from [fetch_odds.py].

    Conventions of the embedding:
    - a Python [float] is a primitive binary64 [float]; its arithmetic is the
      kernel's IEEE 754 arithmetic, specified by the standard library's
      [SpecFloat];
    - a Python [str] is a [string] whose characters are the code points
      below 256;
    - a [dict] is an association list in insertion order (the order Python
      iterates it in);
    - a Python exception is a value of [exn] carried by the [result] monad;
    - the clock read by [_now_utc] is an explicit argument [now]. *)

From Stdlib Require Import ZArith NArith List String Ascii Bool Lia Floats.
From Stdlib Require Uint63.
From Stdlib Require Import DecimalString Permutation Sorted.
Import ListNotations.

Set Warnings "-inexact-float".

Local Open Scope Z_scope.

(** ** Exceptions *)

Inductive exn : Type :=
| ZeroDivisionError
| OverflowError
| ValueError
| KeyError
| IndexError
| TypeError.

Inductive result (A : Type) : Type :=
| Ok (a : A)
| Raise (e : exn).

Arguments Ok {A} a.
Arguments Raise {A} e.

Definition bind {A B : Type} (r : result A) (k : A -> result B) : result B :=
  match r with
  | Ok a => k a
  | Raise e => Raise e
  end.

Notation "x <- r ;; k" := (bind r (fun x => k))
  (at level 61, r at next level, right associativity).

(** ** Strings *)

Definition code (c : ascii) : N := N_of_ascii c.

(** [str.isspace] on one character (code points below 256). *)
Definition isspace (c : ascii) : bool :=
  let n := code c in
  ((9 <=? n) && (n <=? 13) || (28 <=? n) && (n <=? 32) || (n =? 133) || (n =? 160))%N.

(** The characters [float()] strips around a number. *)
Definition isspace_float (c : ascii) : bool :=
  let n := code c in
  ((9 <=? n) && (n <=? 13) || (n =? 32) || (n =? 133) || (n =? 160))%N.

Definition lower_char (c : ascii) : ascii :=
  let n := code c in
  if ((65 <=? n) && (n <=? 90) ||
      (192 <=? n) && (n <=? 222) && negb (n =? 215))%N
  then ascii_of_N (n + 32) else c.

Definition chars (s : string) : list ascii := list_ascii_of_string s.
Definition str (cs : list ascii) : string := string_of_list_ascii cs.

(** [s.lower()] *)
Definition lower (s : string) : string := str (map lower_char (chars s)).

Fixpoint lstrip_by (sp : ascii -> bool) (cs : list ascii) : list ascii :=
  match cs with
  | c :: rest => if sp c then lstrip_by sp rest else cs
  | [] => []
  end.

Definition strip_by (sp : ascii -> bool) (cs : list ascii) : list ascii :=
  rev (lstrip_by sp (rev (lstrip_by sp cs))).

(** [s.strip()] *)
Definition strip (s : string) : string := str (strip_by isspace (chars s)).

(** [s.startswith(p)] *)
Fixpoint startswith_chars (p s : list ascii) : bool :=
  match p, s with
  | [], _ => true
  | a :: p', b :: s' => Ascii.eqb a b && startswith_chars p' s'
  | _ :: _, [] => false
  end.

Definition startswith (s p : string) : bool := startswith_chars (chars p) (chars s).

(** [s.split(sep)] for a one-character separator. *)
Fixpoint split_chars (sep : ascii) (cs : list ascii) (cur : list ascii) : list string :=
  match cs with
  | [] => [str (rev cur)]
  | c :: rest =>
      if Ascii.eqb c sep then str (rev cur) :: split_chars sep rest []
      else split_chars sep rest (c :: cur)
  end.

Definition str_split (s : string) (sep : ascii) : list string :=
  split_chars sep (chars s) [].

(** Truthiness of a string and [x or ""] on an optional string. *)
Definition nonempty (s : string) : bool :=
  match s with EmptyString => false | _ => true end.

Definition or_empty (o : option string) : string :=
  match o with Some s => s | None => EmptyString end.

Definition option_string_eqb (a b : option string) : bool :=
  match a, b with
  | Some x, Some y => String.eqb x y
  | None, None => true
  | _, _ => false
  end.

(** ** Dictionaries and sets *)

Section Dict.
Context {K V : Type} (keq : K -> K -> bool).

Definition dict : Type := list (K * V).

(** [d.get(k)] *)
Fixpoint dict_get (k : K) (d : dict) : option V :=
  match d with
  | [] => None
  | (k', v) :: rest => if keq k' k then Some v else dict_get k rest
  end.

(** [d[k] = v]: an existing entry keeps its key and its position, a new
    one goes last. *)
Fixpoint dict_set (k : K) (v : V) (d : dict) : dict :=
  match d with
  | [] => [(k, v)]
  | (k', v') :: rest =>
      if keq k' k then (k', v) :: rest else (k', v') :: dict_set k v rest
  end.

Definition keys (d : dict) : list K := map fst d.
Definition values (d : dict) : list V := map snd d.
End Dict.

Arguments dict K V : clear implicits.

(** [d[k].append(x)] on a [defaultdict(list)]. *)
Definition dict_append {K A : Type} (keq : K -> K -> bool) (k : K) (x : A)
    (d : dict K (list A)) : dict K (list A) :=
  match dict_get keq k d with
  | Some l => dict_set keq k (l ++ [x]) d
  | None => dict_set keq k [x] d
  end.

(** A [set] of strings, used only through membership and truthiness. *)
Definition strset : Type := list string.

Definition mem (x : string) (s : strset) : bool := existsb (String.eqb x) s.

Definition set_truthy (o : option strset) : bool :=
  match o with
  | Some (_ :: _) => true
  | _ => false
  end.

(** ** Floats *)

Module PyFloat.

Local Open Scope float_scope.

(** Python's [x < y], [x <= y], [x > y], [x == y] on floats. *)
Definition lt (x y : float) : bool := x <? y.
Definition le (x y : float) : bool := x <=? y.
Definition gt (x y : float) : bool := y <? x.
Definition eq (x y : float) : bool := x =? y.

(** [x or 0.0] for a nullable float column: [None] and both zeros are
    falsy, NaN is truthy. *)
Definition or_zero (o : option float) : float :=
  match o with
  | Some x => if x =? 0 then 0 else x
  | None => 0
  end.

(** [x / y], which raises on a zero divisor. *)
Definition div (x y : float) : result float :=
  if y =? 0 then Raise ZeroDivisionError else Ok (x / y).

Local Open Scope Z_scope.

(** The binary64 nearest to [(-1)^s * n / d] (ties to even, overflow to
    infinity), through the IEEE 754 division of the standard library's
    specification, which is defined for mantissas of any size. *)
Definition of_ratio (s : bool) (n d : Z) : float :=
  match n, d with
  | Zpos pn, Zpos pd =>
      SF2Prim (SFdiv prec emax (S754_finite s pn 0) (S754_finite false pd 0))
  | _, _ => if s then neg_zero else zero
  end.

(** [float(n)] for an integer: the nearest binary64.  Below [2^63] this is
    the kernel's own conversion. *)
Definition of_Z (n : Z) : float :=
  if Z.abs n <? 9223372036854775808 then
    let f := of_uint63 (Uint63.of_Z (Z.abs n)) in
    if n <? 0 then (- f)%float else f
  else of_ratio (n <? 0) (Z.abs n) 1.

(** The value [m * 2^e] of a finite float as a fraction. *)
Definition ratio (m : positive) (e : Z) : Z * Z :=
  if 0 <=? e then (Zpos m * 2 ^ e, 1) else (Zpos m, 2 ^ (- e)).

(** [n / d] rounded to the nearest integer, ties to even ([0 <= n], [0 < d]). *)
Definition rhe_div (n d : Z) : Z :=
  let q := n / d in
  let r := n mod d in
  match 2 * r ?= d with
  | Lt => q
  | Gt => q + 1
  | Eq => if Z.even q then q else q + 1
  end.

(** [round(x, 3)]: the exact value is rounded to three decimals (ties to
    even) and the decimal is read back as a float. *)
Definition round3 (x : float) : float :=
  match Prim2SF x with
  | S754_finite s m e =>
      let '(n, d) := ratio m e in
      of_ratio s (rhe_div (n * 1000) d) 1000
  | _ => x
  end.

(** Decimal digits of a natural number, most significant first. *)
Definition digits_of (n : Z) : list ascii :=
  chars (NilZero.string_of_uint (N.to_uint (Z.to_N n))).

Fixpoint count_digits (fuel : nat) (z : Z) : Z :=
  match fuel with
  | O => 0
  | S f => if z <? 10 then 0 else 1 + count_digits f (z / 10)
  end.

Fixpoint count_scale (fuel : nat) (n d : Z) : Z :=
  match fuel with
  | O => 1
  | S f => if d <=? n * 10 then 1 else 1 + count_scale f (n * 10) d
  end.

(** The decimal exponent of [n / d > 0]: the [x] with
    [10^x <= n / d < 10^(x+1)]. *)
Definition dec_exp (n d : Z) : Z :=
  if d <=? n then count_digits (S (Z.to_nat (Z.log2 n))) (n / d)
  else - count_scale (S (Z.to_nat (Z.log2 d))) n d.

Fixpoint strip_zeros_rev (cs : list ascii) : list ascii :=
  match cs with
  | "0"%char :: rest => strip_zeros_rev rest
  | _ => cs
  end.

Definition strip_trailing_zeros (cs : list ascii) : list ascii :=
  rev (strip_zeros_rev (rev cs)).

Definition zeros (k : Z) : list ascii := repeat "0"%char (Z.to_nat k).

Definition with_point (int_part frac_part : list ascii) : list ascii :=
  match frac_part with
  | [] => int_part
  | _ => int_part ++ "."%char :: frac_part
  end.

(** ["%g" % x] for [x = n / d > 0]: six significant digits (ties to even),
    trailing zeros removed, exponent form when the decimal exponent is
    below -4 or at least 6. *)
Definition format_g_pos (n d : Z) : list ascii :=
  let x0 := dec_exp n d in
  let k := 5 - x0 in
  let D0 := if 0 <=? k then rhe_div (n * 10 ^ k) d else rhe_div n (d * 10 ^ (- k)) in
  let '(D, x) := if D0 =? 1000000 then (100000, x0 + 1) else (D0, x0) in
  let ds := strip_trailing_zeros (digits_of D) in
  if (x <? -4) || (6 <=? x) then
    let ex := digits_of (Z.abs x) in
    let ex2 := match ex with [_] => "0"%char :: ex | _ => ex end in
    with_point (firstn 1 ds) (skipn 1 ds)
      ++ "e"%char :: (if x <? 0 then "-"%char else "+"%char) :: ex2
  else if 0 <=? x then
    let w := Z.to_nat (x + 1) in
    with_point (firstn w ds ++ zeros (x + 1 - Z.of_nat (List.length ds))) (skipn w ds)
  else
    "0"%char :: "."%char :: zeros (- x - 1) ++ ds.

Definition sign_chars (s : bool) : list ascii := if s then ["-"%char] else [].

(** ["%g" % x] *)
Definition format_g (x : float) : string :=
  match Prim2SF x with
  | S754_nan => "nan"%string
  | S754_infinity s => str (sign_chars s ++ chars "inf")
  | S754_zero s => str (sign_chars s ++ chars "0")
  | S754_finite s m e =>
      let '(n, d) := ratio m e in str (sign_chars s ++ format_g_pos n d)
  end.

(** *** [float(s)] on a string *)

Definition is_digit (c : ascii) : bool := ((48 <=? code c) && (code c <=? 57))%N.
Definition digit_val (c : ascii) : Z := Z.of_N (code c) - 48.

(** The rest of a [digitpart] after one digit: digits, each optionally
    preceded by one underscore. *)
Fixpoint digits_after (cs : list ascii) : list Z * list ascii :=
  match cs with
  | c :: rest =>
      if is_digit c then
        let '(ds, r) := digits_after rest in (digit_val c :: ds, r)
      else if Ascii.eqb c "_" then
        match rest with
        | c2 :: rest2 =>
            if is_digit c2 then
              let '(ds, r) := digits_after rest2 in (digit_val c2 :: ds, r)
            else ([], cs)
        | [] => ([], cs)
        end
      else ([], cs)
  | [] => ([], [])
  end.

(** A possibly empty [digitpart]. *)
Definition digitpart (cs : list ascii) : list Z * list ascii :=
  match cs with
  | c :: rest =>
      if is_digit c then
        let '(ds, r) := digits_after rest in (digit_val c :: ds, r)
      else ([], cs)
  | [] => ([], [])
  end.

Definition take_sign (cs : list ascii) : bool * list ascii :=
  match cs with
  | "-"%char :: rest => (true, rest)
  | "+"%char :: rest => (false, rest)
  | _ => (false, cs)
  end.

Definition Z_of_digits (ds : list Z) : Z := fold_left (fun a d => 10 * a + d) ds 0.

(** The float nearest to [(-1)^s * N * 10^E]. *)
Definition of_decimal (s : bool) (N E : Z) : float :=
  if 0 <=? E then of_ratio s (N * 10 ^ E) 1 else of_ratio s N (10 ^ (- E)).

(** The optional exponent and the end of the string. *)
Definition parse_exponent (cs : list ascii) : option Z :=
  match cs with
  | [] => Some 0
  | c :: rest =>
      if Ascii.eqb (lower_char c) "e" then
        let '(neg, rest1) := take_sign rest in
        match digitpart rest1 with
        | ((_ :: _) as ds, []) => Some (if neg then - Z_of_digits ds else Z_of_digits ds)
        | _ => None
        end
      else None
  end.

Definition parse_number (s : bool) (cs : list ascii) : option float :=
  let '(ip, r1) := digitpart cs in
  let '(fp, r2) :=
    match r1 with
    | "."%char :: r => digitpart r
    | _ => ([], r1)
    end in
  match ip, fp with
  | [], [] => None
  | _, _ =>
      match parse_exponent r2 with
      | Some E =>
          Some (of_decimal s (Z_of_digits (ip ++ fp)) (E - Z.of_nat (List.length fp)))
      | None => None
      end
  end.

(** [float(s)]; [None] stands for the [ValueError] of a string that is
    not a number. *)
Definition of_string (s : string) : option float :=
  let '(neg, body) := take_sign (strip_by isspace_float (chars s)) in
  let word := str (map lower_char body) in
  if String.eqb word "inf" || String.eqb word "infinity" then
    Some (if neg then neg_infinity else infinity)
  else if String.eqb word "nan" then Some nan
  else parse_number neg body.

End PyFloat.

(** ** Dates and times *)

(** A [datetime]: the wall-clock reading in microseconds since
    0001-01-01T00:00:00 and, for an aware value, its UTC offset in
    microseconds. *)
Record datetime : Type := {
  wall : Z;
  utcoffset : option Z
}.

(** The instant of a datetime, a naive one being taken as UTC
    ([replace(tzinfo=timezone.utc)]). *)
Definition utc_instant (dt : datetime) : Z :=
  match utcoffset dt with
  | Some off => wall dt - off
  | None => wall dt
  end.

Definition us_per_hour : Z := 3600000000.
Definition us_per_day : Z := 86400000000.
Definition max_delta_days : Z := 999999999.
(** [datetime.max] is 9999-12-31T23:59:59.999999, day 3652059 of the calendar. *)
Definition max_datetime_us : Z := 3652059 * us_per_day - 1.

(** [timedelta(hours=h)] in microseconds: the value is converted to
    microseconds and rounded to the nearest one, ties to even; NaN raises
    [ValueError], an infinity or a magnitude beyond 999999999 days raises
    [OverflowError]. *)
Definition timedelta_hours (h : float) : result Z :=
  match Prim2SF h with
  | S754_nan => Raise ValueError
  | S754_infinity _ => Raise OverflowError
  | S754_zero _ => Ok 0
  | S754_finite s m e =>
      let '(n, d) := PyFloat.ratio m e in
      let us := PyFloat.rhe_div (n * us_per_hour) d in
      let v := if s then - us else us in
      if (v / us_per_day <? - max_delta_days) || (max_delta_days <? v / us_per_day)
      then Raise OverflowError else Ok v
  end.

(** [dt + delta] on a UTC instant; the result has to be a valid date. *)
Definition datetime_add (t delta : Z) : result Z :=
  let r := t + delta in
  if (r <? 0) || (max_datetime_us <? r) then Raise OverflowError else Ok r.

(** [_iso]: the ISO-8601 text of the UTC instant.  The text is a function
    of the instant and is ordered as the instant is, so the embedding keeps
    the instant. *)
Definition _iso (dt : option datetime) : option Z :=
  match dt with
  | None => None
  | Some t => Some (utc_instant t)
  end.

(** ** The [Odds] row (models.py)

    The columns [id] and [last_updated] are not read by the code below. *)
Record Odds : Type := {
  sportsbook : option string;
  league : option string;
  event : option string;
  market : option string;
  outcome : option string;
  line : option string;
  odds_decimal : option float;
  odds_american : option string;
  event_date : option Z;
  commence_time : option datetime
}.

(** [str(x)] on a nullable string column. *)
Definition pystr (o : option string) : string :=
  match o with Some s => s | None => "None"%string end.

(** Truthiness of a nullable string column. *)
Definition truthy_str (o : option string) : bool :=
  match o with Some s => nonempty s | None => false end.

(** [a or b] on two nullable values whose non-null values are all truthy
    (datetimes, dates). *)
Definition or_else {A : Type} (a b : option A) : option A :=
  match a with Some _ => a | None => b end.

(** ** main.py, helpers *)

Definition _coerce_line (line_val : option string) : option string :=
  match line_val with
  | None => None
  | Some v => let s := strip v in if nonempty s then Some s else None
  end.

(** [leagues and x not in leagues] *)
Definition filtered_out (allowed : option strset) (x : string) : bool :=
  match allowed with
  | Some ((_ :: _) as s) => negb (mem x s)
  | _ => false
  end.

(** The body of the loop of [_apply_row_level_filters]: [true] when the row
    is appended to [out]. *)
Definition row_passes (cutoff : Z) (leagues markets sportsbooks : option strset)
    (o : Odds) : bool :=
  match commence_time o with
  | None => false
  | Some t =>
      let ct := utc_instant t in
      if ct <=? cutoff then false
      else if filtered_out leagues (lower (or_empty (league o))) then false
      else if filtered_out markets (lower (or_empty (market o))) then false
      else if filtered_out sportsbooks (or_empty (sportsbook o)) then false
      else true
  end.

Definition _apply_row_level_filters (now : Z) (rows : list Odds)
    (leagues markets sportsbooks : option strset) (min_hours_ahead : float)
    : result (list Odds) :=
  delta <- timedelta_hours min_hours_ahead ;;
  cutoff <- datetime_add now delta ;;
  Ok (filter (row_passes cutoff leagues markets sportsbooks) rows).

(** *** Grouping *)

Definition norm_abs_spread (line_val : option string) : option string :=
  match line_val with
  | None => None
  | Some v =>
      match PyFloat.of_string (strip v) with
      | Some x => Some (PyFloat.format_g (PyFloat.round3 (abs x)))
      | None => _coerce_line line_val
      end
  end.

Definition group_key : Type := string * string * option string.

Definition group_key_eqb (a b : group_key) : bool :=
  let '(e1, m1, l1) := a in
  let '(e2, m2, l2) := b in
  String.eqb e1 e2 && String.eqb m1 m2 && option_string_eqb l1 l2.

Definition line_key (o : Odds) : option string :=
  let mkt := lower (or_empty (market o)) in
  if String.eqb mkt "spreads" then norm_abs_spread (line o)
  else if String.eqb mkt "totals" then _coerce_line (line o)
  else None.

Definition bucket_key (o : Odds) : group_key :=
  (or_empty (event o), lower (or_empty (market o)), line_key o).

Definition _group_by_event_market_line (rows : list Odds)
    : dict group_key (list Odds) :=
  fold_left (fun buckets o => dict_append group_key_eqb (bucket_key o) o buckets)
            rows [].

(** *** Best price per outcome *)

Definition price (o : Odds) : float := PyFloat.or_zero (odds_decimal o).

Definition spread_side (o : Odds) : string :=
  match PyFloat.of_string (pystr (line o)) with
  | Some ln => if PyFloat.le 0 ln then "plus"%string else "minus"%string
  | None => or_empty (outcome o)
  end.

Definition best_step (spreads : bool) (best : dict string Odds) (o : Odds)
    : dict string Odds :=
  let outcome_key := if spreads then spread_side o else or_empty (outcome o) in
  match dict_get String.eqb outcome_key best with
  | None => dict_set String.eqb outcome_key o best
  | Some prev =>
      if PyFloat.gt (price o) (price prev)
      then dict_set String.eqb outcome_key o best
      else best
  end.

Definition _best_price_by_outcome (group_rows : list Odds) : dict string Odds :=
  match group_rows with
  | [] => []
  | first :: _ =>
      let spreads := String.eqb (lower (or_empty (market first))) "spreads" in
      fold_left (best_step spreads) group_rows []
  end.

(** *** Margin *)

Fixpoint calc_arb_margin_loop (vals : list Odds) (inv_sum : float) : result float :=
  match vals with
  | [] =>
      Ok (if PyFloat.lt inv_sum 1 then ((1 - inv_sum) * 100)%float else 0%float)
  | o :: rest =>
      let odd := price o in
      if PyFloat.le odd 0 then Ok 0%float
      else
        r <- PyFloat.div 1 odd ;;
        calc_arb_margin_loop rest (inv_sum + r)%float
  end.

Definition _calc_arb_margin (best_by_outcome : dict string Odds) : result float :=
  calc_arb_margin_loop (values best_by_outcome) 0%float.

(** *** Books summary *)

Definition emo_key : Type := string * string * option string * string.

Definition emo_key_eqb (a b : emo_key) : bool :=
  let '(e1, m1, l1, o1) := a in
  let '(e2, m2, l2, o2) := b in
  String.eqb e1 e2 && String.eqb m1 m2 && option_string_eqb l1 l2 && String.eqb o1 o2.

Definition emo_key_of (o : Odds) : emo_key :=
  (or_empty (event o), lower (or_empty (market o)), _coerce_line (line o),
   or_empty (outcome o)).

(** The first row of the highest price of a list. *)
Definition pick_best (best : option Odds) (o : Odds) : option Odds :=
  match best with
  | None => Some o
  | Some b => if PyFloat.gt (price o) (price b) then Some o else best
  end.

(** [d.get(k, default)] *)
Definition get_or {V : Type} (k : string) (default : V) (d : dict string V) : V :=
  match dict_get String.eqb k d with Some v => v | None => default end.

Record summary_acc : Type := {
  best_counts : dict string Z;
  avg_odds_sum : dict string float;
  avg_odds_n : dict string Z
}.

Definition count_best (lst : list Odds) (acc : summary_acc) : summary_acc :=
  match fold_left pick_best lst None with
  | Some best =>
      match sportsbook best with
      | Some b =>
          if nonempty b then
            {| best_counts := dict_set String.eqb b (get_or b 0 (best_counts acc) + 1)
                                (best_counts acc);
               avg_odds_sum := avg_odds_sum acc;
               avg_odds_n := avg_odds_n acc |}
          else acc
      | None => acc
      end
  | None => acc
  end.

Definition add_offer (acc : summary_acc) (o : Odds) : summary_acc :=
  match sportsbook o with
  | Some b =>
      if nonempty b then
        {| best_counts := best_counts acc;
           avg_odds_sum :=
             dict_set String.eqb b (get_or b 0%float (avg_odds_sum acc) + price o)%float
               (avg_odds_sum acc);
           avg_odds_n := dict_set String.eqb b (get_or b 0 (avg_odds_n acc) + 1)
                           (avg_odds_n acc) |}
      else acc
  | None => acc
  end.

(** One pass of the loop over [by_emo.items()]. *)
Definition summary_step (acc : summary_acc) (lst : list Odds) : summary_acc :=
  fold_left add_offer lst (count_best lst acc).

Definition by_emo (rows : list Odds) : dict emo_key (list Odds) :=
  fold_left (fun d o => dict_append emo_key_eqb (emo_key_of o) o d) rows [].

Definition summary_totals (rows : list Odds) : summary_acc :=
  fold_left summary_step (values (by_emo rows))
    {| best_counts := []; avg_odds_sum := []; avg_odds_n := [] |}.

Record book_stats : Type := {
  best_price_count : Z;
  avg_offered_decimal : option float
}.

(** The distinct elements of a list, first occurrences kept. *)
Fixpoint dedup (seen l : list string) : list string :=
  match l with
  | [] => []
  | x :: rest => if mem x seen then dedup seen rest else x :: dedup (x :: seen) rest
  end.

Definition book_entry (acc : summary_acc) (b : string) : result (string * book_stats) :=
  avg <- match dict_get String.eqb b (avg_odds_n acc) with
         | Some n =>
             if n =? 0 then Ok None
             else
               match dict_get String.eqb b (avg_odds_sum acc) with
               | Some total => q <- PyFloat.div total (PyFloat.of_Z n) ;; Ok (Some q)
               | None => Raise KeyError
               end
         | None => Ok None
         end ;;
  Ok (b, {| best_price_count := get_or b 0 (best_counts acc);
            avg_offered_decimal := avg |}).

Fixpoint map_result {A B : Type} (f : A -> result B) (l : list A) : result (list B) :=
  match l with
  | [] => Ok []
  | x :: rest => y <- f x ;; ys <- map_result f rest ;; Ok (y :: ys)
  end.

(** The summary, one entry per book.  Python iterates the set [books] in an
    order it does not specify; the entries are listed here by first
    appearance. *)
Definition _collect_books_summary (rows : list Odds) : result (dict string book_stats) :=
  let acc := summary_totals rows in
  let books := dedup [] (keys (best_counts acc) ++ keys (avg_odds_sum acc)) in
  map_result (book_entry acc) books.

(** *** Sorting *)

Section Sorting.
Context {A : Type}.

Section Total.
Variable lt : A -> A -> bool.

(** [x] goes before the first element it is smaller than. *)
Fixpoint insert_sorted (x : A) (l : list A) : list A :=
  match l with
  | [] => [x]
  | y :: rest => if lt x y then x :: l else y :: insert_sorted x rest
  end.

(** A stable sort by [<], as [sorted] and [list.sort] are. *)
Definition sort_by (l : list A) : list A :=
  fold_left (fun sorted x => insert_sorted x sorted) l [].

(** [list.sort(reverse=...)]: a reversed sort keeps the order of equal
    elements. *)
Definition sort_dir_by (reverse : bool) (l : list A) : list A :=
  if reverse then rev (sort_by (rev l)) else sort_by l.
End Total.

Section Partial.
(** The same sort for a comparison that can raise. *)
Variable lt : A -> A -> result bool.

Fixpoint insert_sorted_m (x : A) (l : list A) : result (list A) :=
  match l with
  | [] => Ok [x]
  | y :: rest =>
      b <- lt x y ;;
      if b then Ok (x :: l) else (r <- insert_sorted_m x rest ;; Ok (y :: r))
  end.

Definition sort_by_m (l : list A) : result (list A) :=
  fold_left (fun acc x => sorted <- acc ;; insert_sorted_m x sorted) l (Ok []).

Definition sort_dir_by_m (reverse : bool) (l : list A) : result (list A) :=
  if reverse then r <- sort_by_m (rev l) ;; Ok (rev r) else sort_by_m l.
End Partial.
End Sorting.

(** [<] on strings: by code points. *)
Fixpoint chars_ltb (a b : list ascii) : bool :=
  match a, b with
  | [], [] => false
  | [], _ :: _ => true
  | _ :: _, [] => false
  | x :: a', y :: b' =>
      if (code x <? code y)%N then true
      else if (code y <? code x)%N then false
      else chars_ltb a' b'
  end.

Definition string_ltb (a b : string) : bool := chars_ltb (chars a) (chars b).

(** *** Totals middles *)

Record leg : Type := {
  leg_sportsbook : option string;
  leg_line : float;
  leg_odds_decimal : option float;
  leg_odds_american : option string
}.

(** A middle candidate.  The legs keep the float line that the source
    renders with [str]. *)
Record middle : Type := {
  mid_event : string;
  mid_market : string;
  mid_over : leg;
  mid_under : leg;
  middle_width : float;
  mid_commence_time : option Z;
  mid_event_date : option Z;
  mid_note : string
}.

Definition read_line (x : Odds) : option float := PyFloat.of_string (pystr (line x)).

(** Best (highest-price, first seen) quote per distinct numeric line. *)
Definition best_by_line_step (best : dict float Odds) (o : Odds) : dict float Odds :=
  match read_line o with
  | None => best
  | Some l =>
      match dict_get PyFloat.eq l best with
      | None => dict_set PyFloat.eq l o best
      | Some prev =>
          if PyFloat.gt (price o) (price prev) then dict_set PyFloat.eq l o best
          else best
      end
  end.

Definition best_by_line (quotes : list Odds) : dict float Odds :=
  fold_left best_by_line_step quotes [].

Definition entry_lt (a b : float * Odds) : bool := PyFloat.lt (fst a) (fst b).

(** The entries of a per-line dictionary in the order of [sorted(d.keys())];
    each key is looked up again as the very object it was stored under. *)
Definition sorted_entries (d : dict float Odds) : list (float * Odds) :=
  sort_by entry_lt d.

Definition make_leg (row : Odds) (l : float) : leg :=
  {| leg_sportsbook := sportsbook row;
     leg_line := l;
     leg_odds_decimal := odds_decimal row;
     leg_odds_american := odds_american row |}.

Definition make_middle (ev : string) (lo : float) (over_row : Odds)
    (lu : float) (under_row : Odds) : middle :=
  {| mid_event := ev;
     mid_market := "totals";
     mid_over := make_leg over_row lo;
     mid_under := make_leg under_row lu;
     middle_width := (lu - lo)%float;
     mid_commence_time := _iso (or_else (commence_time over_row) (commence_time under_row));
     mid_event_date := or_else (event_date over_row) (event_date under_row);
     mid_note := "Totals middle candidate (not guaranteed profit)." |}.

(** The inner loop over [under_lines] for one Over line. *)
Definition under_candidates (ev : string) (min_width min_price : float)
    (lo : float) (over_row : Odds) (unders : list (float * Odds)) : list middle :=
  flat_map (fun '(lu, under_row) =>
    if PyFloat.le lu lo then []
    else if PyFloat.lt (price under_row) min_price then []
    else if PyFloat.lt (lu - lo)%float min_width then []
    else [make_middle ev lo over_row lu under_row]) unders.

(** The loop over [over_lines]. *)
Definition pair_candidates (ev : string) (min_width min_price : float)
    (overs unders : list (float * Odds)) : list middle :=
  flat_map (fun '(lo, over_row) =>
    if PyFloat.lt (price over_row) min_price then []
    else under_candidates ev min_width min_price lo over_row unders) overs.

Definition is_over (o : Odds) : bool := startswith (lower (or_empty (outcome o))) "over".
Definition is_under (o : Odds) : bool := startswith (lower (or_empty (outcome o))) "under".

(** The candidates of one event. *)
Definition event_middles (min_width min_price : float) (ev : string)
    (lst : list Odds) : list middle :=
  let overs := filter is_over lst in
  let unders := filter is_under lst in
  match overs, unders with
  | [], _ | _, [] => []
  | _, _ =>
      let best_over_by_line := best_by_line overs in
      let best_under_by_line := best_by_line unders in
      match best_over_by_line, best_under_by_line with
      | [], _ | _, [] => []
      | _, _ =>
          pair_candidates ev min_width min_price
            (sorted_entries best_over_by_line) (sorted_entries best_under_by_line)
      end
  end.

Definition totals_by_event (rows : list Odds) : dict string (list Odds) :=
  fold_left (fun d o =>
    if String.eqb (lower (or_empty (market o))) "totals"
    then dict_append String.eqb (or_empty (event o)) o d
    else d) rows [].

Definition _detect_middles_totals (rows : list Odds) (min_width min_price : float)
    : list middle :=
  flat_map (fun '(ev, lst) => event_middles min_width min_price ev lst)
           (totals_by_event rows).

(** ** main.py, the [/arbitrage] endpoint *)

Record best_odd : Type := {
  bo_sportsbook : option string;
  bo_outcome : string;
  bo_odds_decimal : float;
  bo_odds_american : option string;
  bo_line : option string
}.

Record opportunity : Type := {
  opp_event : string;
  opp_league : string;
  opp_market : string;
  opp_line : option string;
  opp_commence_time : option Z;
  opp_event_date : option Z;
  profit_margin : float;
  best_odds : list best_odd
}.

Definition best_list (best_by_outcome : dict string Odds) : list best_odd :=
  map (fun '(outc, row) =>
         {| bo_sportsbook := sportsbook row;
            bo_outcome := outc;
            bo_odds_decimal := price row;
            bo_odds_american := odds_american row;
            bo_line := _coerce_line (line row) |}) best_by_outcome.

(** The body of the loop over [groups.items()]: the opportunity appended for
    one bucket, or [None] when the bucket is skipped. *)
Definition score_group (min_margin : float) (key : group_key) (group_rows : list Odds)
    : result (option opportunity) :=
  let '(ev, mkt, line_norm) := key in
  let best_by_outcome := _best_price_by_outcome group_rows in
  if (List.length best_by_outcome <? 2)%nat then Ok None
  else
    margin <- _calc_arb_margin best_by_outcome ;;
    if PyFloat.le margin 0 || PyFloat.lt margin min_margin then Ok None
    else
      match group_rows with
      | [] => Raise IndexError
      | sample :: _ =>
          Ok (Some {| opp_event := ev;
                      opp_league := lower (or_empty (league sample));
                      opp_market := mkt;
                      opp_line := line_norm;
                      opp_commence_time := _iso (commence_time sample);
                      opp_event_date := event_date sample;
                      profit_margin := PyFloat.round3 margin;
                      best_odds := best_list best_by_outcome |})
      end.

Fixpoint score_groups (min_margin : float) (groups : dict group_key (list Odds))
    : result (list opportunity) :=
  match groups with
  | [] => Ok []
  | (key, group_rows) :: rest =>
      o <- score_group min_margin key group_rows ;;
      os <- score_groups min_margin rest ;;
      Ok (match o with Some opp => opp :: os | None => os end)
  end.

(** [<] on the texts of two optional instants, [None] standing for [""]. *)
Definition date_key_ltb (a b : option Z) : bool :=
  match a, b with
  | None, Some _ => true
  | Some x, Some y => x <? y
  | _, None => false
  end.

(** [sort_key(a) < sort_key(b)] *)
Definition opportunity_lt (sort_by : string) (a b : opportunity) : bool :=
  if String.eqb sort_by "date" then date_key_ltb (opp_commence_time a) (opp_commence_time b)
  else if String.eqb sort_by "league" then string_ltb (opp_league a) (opp_league b)
  else if String.eqb sort_by "event" then string_ltb (opp_event a) (opp_event b)
  else PyFloat.lt (profit_margin a) (profit_margin b).

(** [<] on the keys [(middle_width, commence_time)] of two candidates;
    [None < str] is a [TypeError]. *)
Definition middle_lt (a b : middle) : result bool :=
  if negb (PyFloat.eq (middle_width a) (middle_width b))
  then Ok (PyFloat.lt (middle_width a) (middle_width b))
  else
    match mid_commence_time a, mid_commence_time b with
    | None, None => Ok false
    | Some x, Some y => Ok (x <? y)
    | _, _ => Raise TypeError
    end.

(** [l[start:stop]] *)
Definition clamp_index (len i : Z) : Z :=
  if i <? 0 then Z.max (i + len) 0 else Z.min i len.

Definition slice {A : Type} (l : list A) (start stop : Z) : list A :=
  let len := Z.of_nat (List.length l) in
  let a := clamp_index len start in
  let b := clamp_index len stop in
  firstn (Z.to_nat (b - a)) (skipn (Z.to_nat a) l).

(** [{f(s.strip()) for s in q.split(",")} if q else None] *)
Definition parse_set (f : string -> string) (q : option string) : option strset :=
  match q with
  | Some s => if nonempty s then Some (map (fun x => f (strip x)) (str_split s ",")) else None
  | None => None
  end.

(** The response, without the echo of the request ([filters], [sort]) and
    the time stamp [generated_at]. *)
Record response : Type := {
  resp_page : Z;
  resp_limit : Z;
  total : Z;
  opportunities : list opportunity;
  middles : list middle;
  books_summary : dict string book_stats
}.

(** [get_arbitrage], given the clock reading [now] and the rows
    [db.query(models.Odds).all()] returns. *)
Definition get_arbitrage (now : Z) (db_rows : list Odds)
    (leagues markets sportsbooks : option string)
    (min_margin min_hours_ahead : float) (show_middles : bool)
    (middle_min_width middle_min_price : float)
    (sort_by sort_dir : string) (page limit : Z) : result response :=
  let leagues_set := parse_set lower leagues in
  let markets_set := parse_set lower markets in
  let books_set := parse_set (fun x => x) sportsbooks in
  rows <- _apply_row_level_filters now db_rows leagues_set markets_set books_set
            min_hours_ahead ;;
  summary <- _collect_books_summary rows ;;
  let groups := _group_by_event_market_line rows in
  found <- score_groups min_margin groups ;;
  let reverse := String.eqb (lower sort_dir) "desc" in
  let sorted := sort_dir_by (opportunity_lt sort_by) reverse found in
  let start := (page - 1) * limit in
  let stop := start + limit in
  mids <- (if show_middles
           then sort_dir_by_m middle_lt true
                  (_detect_middles_totals rows middle_min_width middle_min_price)
           else Ok []) ;;
  Ok {| resp_page := page;
        resp_limit := limit;
        total := Z.of_nat (List.length sorted);
        opportunities := slice sorted start stop;
        middles := mids;
        books_summary := summary |}.

(** ** fetch_odds.py *)

(** [int(x)]: truncation toward zero. *)
Definition int_of_float (x : float) : result Z :=
  match Prim2SF x with
  | S754_nan => Raise ValueError
  | S754_infinity _ => Raise OverflowError
  | S754_zero _ => Ok 0
  | S754_finite s m e =>
      let '(n, d) := PyFloat.ratio m e in
      Ok (if s then - (n / d) else n / d)
  end.

(** [str(n)] for an integer. *)
Definition str_of_Z (n : Z) : string :=
  str ((if n <? 0 then ["-"%char] else []) ++ PyFloat.digits_of (Z.abs n)).

Definition decimal_to_american (decimal : float) : result string :=
  if PyFloat.le 2 decimal then
    n <- int_of_float ((decimal - 1) * 100)%float ;;
    Ok (String "+" (str_of_Z n))
  else
    q <- PyFloat.div (-100)%float (decimal - 1)%float ;;
    n <- int_of_float q ;;
    Ok (str_of_Z n).

(** ** Auxiliary definitions for the proofs *)

(** A strictly positive value of the IEEE specification. *)
Definition SFpos (x : spec_float) : bool :=
  match x with
  | S754_finite false _ _ | S754_infinity false => true
  | _ => false
  end.

Definition SF_is_nan (x : spec_float) : bool :=
  match x with S754_nan => true | _ => false end.

(** [1.0] and [100.0] in the IEEE specification. *)
Definition SF_one : spec_float := S754_finite false 4503599627370496 (-52).
Definition SF_hundred : spec_float := S754_finite false 7036874417766400 (-46).

(** One step of a grouping loop: [d[kf(o)].append(o)]. *)
Definition group_step {K A : Type} (keq : K -> K -> bool) (kf : A -> K)
    (d : dict K (list A)) (o : A) : dict K (list A) :=
  dict_append keq (kf o) o d.

(** The invariant of a grouping dictionary: distinct keys, and every
    bucket is non-empty and holds rows of its own key only. *)
Definition grouped {K A : Type} (kf : A -> K) (d : dict K (list A)) : Prop :=
  NoDup (keys d) /\
  forall k l, In (k, l) d -> l <> [] /\ forall x, In x l -> kf x = k.

(** ** The margin formula of the specification

    [max(0, (1 - sum 1/p_i) * 100)] over the selected prices, with Python's
    [max] and the sum taken in the order of the mapping. *)
Definition inverse_sum (prices : list float) : float :=
  fold_left (fun s p => (s + 1 / p)%float) prices 0%float.

(** [max(0, x)] *)
Definition max0 (x : float) : float := if PyFloat.gt x 0 then x else 0%float.

Definition margin_formula (prices : list float) : float :=
  max0 ((1 - inverse_sum prices) * 100)%float.

(** ** Sample rows *)

Definition sample_now : Z := 63900000000000000.

Definition at_hours (h : Z) : datetime :=
  {| wall := sample_now + h * us_per_hour; utcoffset := None |}.

(** A quote of an event that commences [h] hours after [sample_now]. *)
Definition quote_at (h : Z) (book ev mkt out : string) (ln : option string)
    (p : float) : Odds :=
  {| sportsbook := Some book; league := Some "NBA"%string; event := Some ev;
     market := Some mkt; outcome := Some out; line := ln;
     odds_decimal := Some p; odds_american := None; event_date := None;
     commence_time := Some (at_hours h) |}.

Definition quote : string -> string -> string -> string -> option string -> float -> Odds :=
  quote_at 2.

(** ** The claims the code does not meet, as the specification words them *)

Definition emitted (min_margin : float) (key : group_key) (group_rows : list Odds) : Prop :=
  exists opp, score_group min_margin key group_rows = Ok (Some opp).

(** "Emitted if and only if the mapping has at least 2 outcome keys and the
    margin exceeds both 0 and the threshold." *)
Definition C2_as_stated (min_margin : float) (key : group_key)
    (group_rows : list Odds) : Prop :=
  emitted min_margin key group_rows <->
  (2 <= List.length (_best_price_by_outcome group_rows))%nat /\
  exists margin,
    _calc_arb_margin (_best_price_by_outcome group_rows) = Ok margin /\
    PyFloat.gt margin 0 = true /\ PyFloat.gt margin min_margin = true.

(** "A quote that commences one hour before now is excluded", for a given
    minimum lead. *)
Definition C5_at (min_hours_ahead : float) : Prop :=
  forall now rows leagues markets sportsbooks out o t,
    _apply_row_level_filters now rows leagues markets sportsbooks min_hours_ahead = Ok out ->
    commence_time o = Some t ->
    utc_instant t = now - us_per_hour ->
    ~ In o out.

(** A quote that the filter keeps when no sportsbook filter is given. *)
Definition kept_without_books (now : Z) (rows : list Odds)
    (leagues markets : option strset) (min_hours_ahead : float) (o : Odds) : Prop :=
  exists out0,
    _apply_row_level_filters now rows leagues markets None min_hours_ahead = Ok out0 /\
    In o out0.

(** "Rejected exactly when the lower-cased sportsbook is not in the set." *)
Definition C6_as_stated (now : Z) (rows : list Odds) (leagues markets : option strset)
    (books : strset) (min_hours_ahead : float) (o : Odds) : Prop :=
  forall out,
    books <> [] ->
    kept_without_books now rows leagues markets min_hours_ahead o ->
    _apply_row_level_filters now rows leagues markets (Some books) min_hours_ahead = Ok out ->
    (~ In o out <-> mem (lower (or_empty (sportsbook o))) books = false).

(** The scored opportunities of a request, before sorting and pagination:
    the first half of [get_arbitrage]. *)
Definition scored_opportunities (now : Z) (db_rows : list Odds)
    (leagues markets sportsbooks : option string)
    (min_margin min_hours_ahead : float) : result (list opportunity) :=
  rows <- _apply_row_level_filters now db_rows (parse_set lower leagues)
            (parse_set lower markets) (parse_set (fun x => x) sportsbooks)
            min_hours_ahead ;;
  score_groups min_margin (_group_by_event_market_line rows).

(** The quotes of one sportsbook. *)
Definition is_book (b : string) (o : Odds) : bool :=
  option_string_eqb (sportsbook o) (Some b).

(** The quotes of a sportsbook in the order the summary visits them: group
    after group of [by_emo]. *)
Definition offers_of (b : string) (rows : list Odds) : list Odds :=
  filter (is_book b) (List.concat (values (by_emo rows))).

Definition price_sum (offers : list Odds) (start : float) : float :=
  fold_left (fun s o => (s + price o)%float) offers start.

(** The count and the sum the summary holds for book [b] once it has seen
    the offers [seen] of that book. *)
Definition tally (b : string) (acc : summary_acc) (seen : list Odds) : Prop :=
  match seen with
  | [] =>
      dict_get String.eqb b (avg_odds_n acc) = None /\
      dict_get String.eqb b (avg_odds_sum acc) = None
  | _ :: _ =>
      dict_get String.eqb b (avg_odds_n acc) = Some (Z.of_nat (List.length seen)) /\
      dict_get String.eqb b (avg_odds_sum acc) = Some (price_sum seen 0%float)
  end.

(** "The absolute value of the numeric line rounded to 3 decimal places and
    rendered without trailing zeros", read as the plain decimal: the digits
    before the point, then up to three decimals. *)
Definition render_decimal3 (x : float) : string :=
  match Prim2SF x with
  | S754_nan => "nan"%string
  | S754_infinity s => str (PyFloat.sign_chars s ++ chars "inf")
  | S754_zero s => str (PyFloat.sign_chars s ++ chars "0")
  | S754_finite s m e =>
      let '(n, d) := PyFloat.ratio m e in
      let k := PyFloat.rhe_div (n * 1000) d in
      str (PyFloat.sign_chars s ++
           PyFloat.with_point (PyFloat.digits_of (k / 1000))
             (PyFloat.strip_trailing_zeros
                (skipn 1 (PyFloat.digits_of (1000 + k mod 1000)))))
  end.

(** The spreads line key as the specification words it, with the fallback
    "to the trimmed raw string". *)
Definition spread_key_as_stated (s : string) : option string :=
  match PyFloat.of_string (strip s) with
  | Some x => Some (render_decimal3 (PyFloat.round3 (abs x)))
  | None => Some (strip s)
  end.

Definition C3_as_stated (s : string) : Prop :=
  norm_abs_spread (Some s) = spread_key_as_stated s.

(** Two rows share a bucket of the grouping of [rows]. *)
Definition same_bucket (rows : list Odds) (o1 o2 : Odds) : Prop :=
  exists key members,
    In (key, members) (_group_by_event_market_line rows) /\
    In o1 members /\ In o2 members.

Definition is_spreads (o : Odds) : Prop :=
  lower (or_empty (market o)) = "spreads"%string.

(** ** The middle condition of the specification

    A pair (Over entry, Under entry) is a candidate when the Under line is
    above the Over line, both prices are at least [min_price] and the gap is
    at least [min_width]. *)
Definition is_candidate (min_width min_price : float)
    (pair : (float * Odds) * (float * Odds)) : bool :=
  let '((lo, over_row), (lu, under_row)) := pair in
  PyFloat.gt lu lo &&
  PyFloat.le min_price (price over_row) &&
  PyFloat.le min_price (price under_row) &&
  PyFloat.le min_width (lu - lo)%float.

Definition middle_of (ev : string) (pair : (float * Odds) * (float * Odds)) : middle :=
  let '((lo, over_row), (lu, under_row)) := pair in
  make_middle ev lo over_row lu under_row.

(** Lines and prices that are numbers (not NaN). *)
Definition numeric_entries (entries : list (float * Odds)) : Prop :=
  forall l o, In (l, o) entries -> is_nan l = false /\ is_nan (price o) = false.

Definition numeric_rows (rows : list Odds) : Prop :=
  forall o, In o rows ->
    is_nan (price o) = false /\ forall l, read_line o = Some l -> is_nan l = false.

Definition is_totals (o : Odds) : Prop :=
  lower (or_empty (market o)) = "totals"%string.

(** The key a row is filed under by [_best_price_by_outcome]. *)
Definition outcome_key (spreads : bool) (o : Odds) : string :=
  if spreads then spread_side o else or_empty (outcome o).

(** The bucket is a spreads bucket: the market of its first row. *)
Definition spreads_bucket (group_rows : list Odds) : bool :=
  match group_rows with
  | [] => false
  | first :: _ => String.eqb (lower (or_empty (market first))) "spreads"
  end.

(** * Properties *)

(** ** Binary64 arithmetic *)

Lemma iter_xO_Z (d m : positive) : Zpos (Pos.iter xO m d) = Zpos m * 2 ^ Zpos d.
Proof.
  revert m. induction d using Pos.peano_ind; intro m.
  - simpl. lia.
  - rewrite Pos.iter_succ. rewrite Pos2Z.inj_xO, IHd, Pos2Z.inj_succ, Z.pow_succ_r by lia. lia.
Qed.

Lemma shl_align_Z (mx : positive) (ex ez : Z) :
  ez <= ex -> Zpos (fst (shl_align mx ex ez)) = Zpos mx * 2 ^ (ex - ez).
Proof.
  intro H. unfold shl_align.
  destruct (ez - ex) eqn:E; simpl.
  - replace (ex - ez) with 0 by lia. rewrite Z.pow_0_r. lia.
  - lia.
  - rewrite iter_xO_Z. replace (ex - ez) with (Zpos p) by lia. reflexivity.
Qed.

Lemma digits2_pos_bounds (m : positive) :
  2 ^ (Zpos (digits2_pos m) - 1) <= Zpos m < 2 ^ Zpos (digits2_pos m).
Proof.
  induction m; simpl digits2_pos.
  - rewrite Pos2Z.inj_succ. replace (Z.succ (Zpos (digits2_pos m)) - 1) with (Z.succ (Zpos (digits2_pos m) - 1)) by lia.
    rewrite !Z.pow_succ_r by lia. lia.
  - rewrite Pos2Z.inj_succ. replace (Z.succ (Zpos (digits2_pos m)) - 1) with (Z.succ (Zpos (digits2_pos m) - 1)) by lia.
    rewrite !Z.pow_succ_r by lia. lia.
  - simpl. lia.
Qed.

Lemma iter_pos_nat {A} (f : A -> A) (p : positive) (x : A) :
  iter_pos f p x = Nat.iter (Pos.to_nat p) f x.
Proof.
  revert x. induction p; intro x; simpl iter_pos.
  - rewrite !IHp. rewrite Pos2Nat.inj_xI.
    replace (S (2 * Pos.to_nat p))%nat with (Pos.to_nat p + S (Pos.to_nat p))%nat by lia.
    rewrite Nat.iter_add. f_equal. rewrite Nat.iter_succ_r. reflexivity.
  - rewrite !IHp. rewrite Pos2Nat.inj_xO.
    replace (2 * Pos.to_nat p)%nat with (Pos.to_nat p + Pos.to_nat p)%nat by lia.
    rewrite Nat.iter_add. reflexivity.
  - reflexivity.
Qed.

Lemma shr_1_m (mrs : shr_record) :
  0 <= shr_m mrs -> shr_m (shr_1 mrs) = shr_m mrs / 2.
Proof.
  destruct mrs as [m r s]. simpl. intro H.
  destruct m as [|p|p]; try lia.
  - reflexivity.
  - destruct p; simpl shr_m.
    + rewrite Pos2Z.inj_xI. apply Z.div_unique with (r := 1); lia.
    + rewrite Pos2Z.inj_xO. apply Z.div_unique with (r := 0); lia.
    + reflexivity.
Qed.

Lemma shr_iter_m (n : nat) (mrs : shr_record) :
  0 <= shr_m mrs -> shr_m (Nat.iter n shr_1 mrs) = shr_m mrs / 2 ^ Z.of_nat n.
Proof.
  intro H. induction n.
  - simpl. now rewrite Z.div_1_r.
  - rewrite Nat2Z.inj_succ, Z.pow_succ_r by lia. simpl Nat.iter.
    rewrite shr_1_m.
    + rewrite IHn. rewrite Z.div_div by lia. f_equal. lia.
    + rewrite IHn. apply Z.div_pos; lia.
Qed.

Lemma shr_m_spec (mrs : shr_record) (e n : Z) :
  0 <= shr_m mrs ->
  shr_m (fst (shr mrs e n)) = shr_m mrs / 2 ^ Z.max 0 n /\
  snd (shr mrs e n) = e + Z.max 0 n.
Proof.
  intro H. unfold shr. destruct n; simpl fst; simpl snd.
  - simpl. rewrite Z.div_1_r. lia.
  - rewrite iter_pos_nat, shr_iter_m by assumption.
    rewrite positive_nat_Z. replace (Z.max 0 (Zpos p)) with (Zpos p) by lia. lia.
  - replace (Z.max 0 (Zneg p)) with 0 by lia. simpl. rewrite Z.div_1_r. lia.
Qed.

Lemma shr_record_of_loc_m (m : Z) (l : location) : shr_m (shr_record_of_loc m l) = m.
Proof. destruct l as [|[]]; reflexivity. Qed.

Lemma round_nearest_even_ge (m : Z) (l : location) : m <= round_nearest_even m l.
Proof. destruct l as [|[]]; simpl; try lia. destruct (Z.even m); lia. Qed.

Lemma div_pow2_pos (m : positive) (k : Z) :
  0 <= k <= Zpos (digits2_pos m) - 1 -> 1 <= Zpos m / 2 ^ k.
Proof.
  intros [H0 H1]. pose proof (digits2_pos_bounds m) as [Hlo _].
  assert (2 ^ k <= 2 ^ (Zpos (digits2_pos m) - 1)) by (apply Z.pow_le_mono_r; lia).
  assert (0 < 2 ^ k) by (apply Z.pow_pos_nonneg; lia).
  apply Z.div_le_lower_bound; lia.
Qed.

Lemma shr_fexp_pos (m : positive) (e : Z) (l : location) :
  emin < Zpos (digits2_pos m) + e ->
  1 <= shr_m (fst (shr_fexp prec emax (Zpos m) e l)) /\
  emin <= snd (shr_fexp prec emax (Zpos m) e l).
Proof.
  intro H. unfold shr_fexp. simpl Zdigits2.
  set (n := fexp prec emax (Zpos (digits2_pos m) + e) - e).
  destruct (shr_m_spec (shr_record_of_loc (Zpos m) l) e n) as [Hm He].
  { rewrite shr_record_of_loc_m. lia. }
  rewrite Hm, He, shr_record_of_loc_m. split.
  - apply div_pow2_pos. subst n. unfold fexp, SpecFloat.emin, prec, emax in *. lia.
  - subst n. unfold fexp, SpecFloat.emin, prec, emax in *. lia.
Qed.

Lemma binary_round_aux_pos (m : positive) (e : Z) (l : location) :
  emin < Zpos (digits2_pos m) + e ->
  SFpos (binary_round_aux prec emax false (Zpos m) e l) = true.
Proof.
  intro H. unfold binary_round_aux.
  pose proof (shr_fexp_pos m e l H) as [H1 H2].
  destruct (shr_fexp prec emax (Zpos m) e l) as [mrs' e'].
  simpl fst in H1; simpl snd in H2.
  pose proof (round_nearest_even_ge (shr_m mrs') (loc_of_shr_record mrs')) as Hr.
  destruct (round_nearest_even (shr_m mrs') (loc_of_shr_record mrs')) as [|p2|p2]; try lia.
  pose proof (shr_fexp_pos p2 e' loc_Exact) as H3.
  destruct (shr_fexp prec emax (Zpos p2) e' loc_Exact) as [mrs'' e''].
  simpl fst in H3; simpl snd in H3.
  destruct H3 as [H3 _].
  { pose proof (digits2_pos_bounds p2). lia. }
  destruct (shr_m mrs'') as [|p3|p3]; try lia.
  destruct (e'' <=? emax - prec); reflexivity.
Qed.

Lemma binary_round_aux_neg_sign (mx : Z) (e : Z) (l : location) :
  SFpos (binary_round_aux prec emax true mx e l) = false.
Proof.
  unfold binary_round_aux.
  destruct (shr_fexp prec emax mx e l) as [mrs' e'].
  destruct (shr_fexp prec emax _ e' loc_Exact) as [mrs'' e''].
  destruct (shr_m mrs''); try reflexivity.
  destruct (e'' <=? emax - prec); reflexivity.
Qed.

Lemma digits2_pos_iter_xO (d m : positive) :
  Zpos (digits2_pos (Pos.iter xO m d)) = Zpos (digits2_pos m) + Zpos d.
Proof.
  revert m. induction d using Pos.peano_ind; intro m.
  - simpl. lia.
  - rewrite Pos.iter_succ. simpl digits2_pos. rewrite Pos2Z.inj_succ, IHd. lia.
Qed.

Lemma binary_round_pos (m : positive) (e : Z) :
  emin < Zpos (digits2_pos m) + e ->
  SFpos (binary_round prec emax false m e) = true.
Proof.
  intro H. unfold binary_round, shl_align.
  destruct (fexp prec emax (Zpos (digits2_pos m) + e) - e) eqn:E.
  - now apply binary_round_aux_pos.
  - now apply binary_round_aux_pos.
  - apply binary_round_aux_pos. rewrite digits2_pos_iter_xO. lia.
Qed.

Lemma binary_round_neg_sign (m : positive) (e : Z) :
  SFpos (binary_round prec emax true m e) = false.
Proof.
  unfold binary_round. destruct (shl_align _ _ _) as [mz ez].
  apply binary_round_aux_neg_sign.
Qed.

Lemma valid_finite (s : bool) (m : positive) (e : Z) :
  valid_binary (S754_finite s m e) = true ->
  emin <= e /\ Zpos (digits2_pos m) <= 53 /\ (emin < e -> Zpos (digits2_pos m) = 53).
Proof.
  simpl. unfold bounded, canonical_mantissa, fexp, SpecFloat.emin, prec, emax.
  intro H. apply andb_prop in H as [H _]. apply Z.eqb_eq in H. lia.
Qed.

Lemma pow2_ge_1 (k : Z) : 0 <= k -> 1 <= 2 ^ k.
Proof. intro H. assert (0 < 2 ^ k) by (apply Z.pow_pos_nonneg; lia). lia. Qed.

Lemma binary_normalize_pos (v e : Z) :
  0 < v -> emin <= e -> SFpos (binary_normalize prec emax v e false) = true.
Proof.
  intros Hv He. destruct v as [|p|p]; try lia. simpl.
  apply binary_round_pos. pose proof (digits2_pos_bounds p). lia.
Qed.

Lemma binary_normalize_nonpos (v e : Z) :
  v <= 0 -> SFpos (binary_normalize prec emax v e false) = false.
Proof.
  intros Hv. destruct v as [|p|p]; try lia; simpl.
  - reflexivity.
  - apply binary_round_neg_sign.
Qed.

Lemma SFsub_one_pos (x : spec_float) :
  valid_binary x = true -> SFltb x SF_one = true -> SFpos (SF64sub SF_one x) = true.
Proof.
  intros Hv Hlt. destruct x as [s|s| |s m e].
  - destruct s; reflexivity.
  - destruct s; [reflexivity | discriminate].
  - discriminate.
  - apply valid_finite in Hv as (He & Hd & _).
    pose proof (digits2_pos_bounds m) as [_ Hm].
    assert (Hm53 : Zpos m < 9007199254740992).
    { eapply Z.lt_le_trans; [exact Hm|]. apply (Z.pow_le_mono_r 2 _ 53); lia. }
    clear Hm.
    unfold SF64sub, SF_one, SFsub.
    apply binary_normalize_pos; [|unfold SpecFloat.emin, prec, emax in *; lia].
    rewrite !shl_align_Z by lia.
    destruct s; unfold cond_Zopp.
    + assert (0 < 2 ^ (-52 - Z.min (-52) e)) by (apply Z.pow_pos_nonneg; lia).
      assert (0 < 2 ^ (e - Z.min (-52) e)) by (apply Z.pow_pos_nonneg; lia).
      assert (0 < 4503599627370496 * 2 ^ (-52 - Z.min (-52) e)) by (apply Z.mul_pos_pos; lia).
      assert (0 < Zpos m * 2 ^ (e - Z.min (-52) e)) by (apply Z.mul_pos_pos; lia).
      lia.
    + unfold SFltb, SF_one, SFcompare in Hlt.
      destruct (e ?= -52) eqn:Ec; try discriminate.
      * apply Z.compare_eq in Ec.
        destruct (Pos.compare_cont Eq m 4503599627370496) eqn:Em; try discriminate.
        apply (proj1 (Pos.compare_lt_iff m 4503599627370496)) in Em.
        assert (Em' : Zpos m < 4503599627370496) by exact Em. clear Em.
        replace (Z.min (-52) e) with e by lia.
        replace (-52 - e) with 0 by lia. replace (e - e) with 0 by lia.
        rewrite Z.pow_0_r. lia.
      * rewrite Z.compare_lt_iff in Ec.
        replace (Z.min (-52) e) with e by lia. replace (e - e) with 0 by lia. rewrite Z.pow_0_r.
        assert (2 <= 2 ^ (-52 - e)) by (apply (Z.pow_le_mono_r 2 1); lia).
        lia.
Qed.

Lemma SFsub_one_nonpos (x : spec_float) :
  valid_binary x = true -> SFltb x SF_one = false -> SFpos (SF64sub SF_one x) = false.
Proof.
  intros Hv Hlt. destruct x as [s|s| |s m e].
  - destruct s; discriminate.
  - destruct s; [discriminate | reflexivity].
  - reflexivity.
  - apply valid_finite in Hv as (He & Hd & Hn).
    pose proof (digits2_pos_bounds m) as [Hm _].
    unfold SF64sub, SF_one, SFsub.
    apply binary_normalize_nonpos.
    destruct s; [discriminate|].
    unfold SFltb, SF_one, SFcompare in Hlt.
    destruct (e ?= -52) eqn:Ec; try discriminate.
    + apply Z.compare_eq in Ec.
      rewrite !shl_align_Z by lia. unfold cond_Zopp.
      replace (Z.min (-52) e) with e by lia.
      replace (-52 - e) with 0 by lia. replace (e - e) with 0 by lia.
      rewrite Z.pow_0_r.
      destruct (Pos.compare_cont Eq m 4503599627370496) eqn:Em; try discriminate.
      * apply (Pos.compare_eq m 4503599627370496) in Em.
        assert (Em' : Zpos m = 4503599627370496) by (f_equal; exact Em). clear Em. lia.
      * apply (proj1 (Pos.compare_gt_iff m 4503599627370496)) in Em.
        assert (Em' : 4503599627370496 < Zpos m) by exact Em. clear Em. lia.
    + rewrite Z.compare_gt_iff in Ec.
      rewrite !shl_align_Z by lia. unfold cond_Zopp.
      replace (Z.min (-52) e) with (-52) by lia.
      set (k := e - -52) in *.
      rewrite Hn in Hm by (unfold SpecFloat.emin, prec, emax; lia).
      assert (Hm' : 4503599627370496 <= Zpos m) by exact Hm. clear Hm.
      assert (Hk : 1 <= 2 ^ k) by (apply pow2_ge_1; subst k; lia).
      assert (H0 : 2 ^ (-52 - -52) = 1) by reflexivity. rewrite H0.
      nia.
Qed.

Lemma SFmul_hundred_pos (x : spec_float) :
  valid_binary x = true -> SFpos x = true -> SFpos (SF64mul x SF_hundred) = true.
Proof.
  intros Hv Hp. destruct x as [s|s| |s m e]; try discriminate.
  - destruct s; [discriminate | reflexivity].
  - destruct s; [discriminate|].
    apply valid_finite in Hv as (He & _).
    unfold SF64mul, SF_hundred, SFmul. simpl xorb.
    apply binary_round_aux_pos.
    pose proof (digits2_pos_bounds (m * 7036874417766400)) as [_ Hhi].
    assert (Hd : 52 < Zpos (digits2_pos (m * 7036874417766400))).
    { apply (Z.pow_lt_mono_r_iff 2); [lia | lia |].
      rewrite Pos2Z.inj_mul in Hhi.
      assert (E52 : 2 ^ 52 = 4503599627370496) by reflexivity. rewrite E52. lia. }
    unfold SpecFloat.emin, prec, emax in *. lia.
Qed.

Lemma SFmul_hundred_nonpos (x : spec_float) :
  SFpos x = false -> SFpos (SF64mul x SF_hundred) = false.
Proof.
  intros Hp. destruct x as [s|s| |s m e]; try reflexivity.
  - destruct s; [reflexivity | discriminate].
  - destruct s; [|discriminate].
    unfold SF64mul, SF_hundred, SFmul. simpl xorb. apply binary_round_aux_neg_sign.
Qed.

Lemma SFltb_zero_pos (y : spec_float) : SFltb (S754_zero false) y = SFpos y.
Proof. destruct y as [s|s| |s m e]; try reflexivity; destruct s; reflexivity. Qed.

Lemma margin_pos (s : float) : (s <? 1)%float = true -> (0 <? (1 - s) * 100)%float = true.
Proof.
  intro H. rewrite ltb_spec in H. rewrite ltb_spec, mul_spec.
  pose proof (Prim2SF_valid (1 - s)%float) as Hv. rewrite sub_spec in Hv |- *.
  change (Prim2SF 0%float) with (S754_zero false).
  change (Prim2SF 1%float) with SF_one in *. change (Prim2SF 100%float) with SF_hundred.
  rewrite SFltb_zero_pos. apply SFmul_hundred_pos; [exact Hv|].
  apply SFsub_one_pos; [apply Prim2SF_valid | assumption].
Qed.

Lemma margin_nonpos (s : float) : (s <? 1)%float = false -> (0 <? (1 - s) * 100)%float = false.
Proof.
  intro H. rewrite ltb_spec in H. rewrite ltb_spec, mul_spec, sub_spec.
  change (Prim2SF 0%float) with (S754_zero false).
  change (Prim2SF 1%float) with SF_one in *. change (Prim2SF 100%float) with SF_hundred.
  rewrite SFltb_zero_pos. apply SFmul_hundred_nonpos.
  apply SFsub_one_nonpos; [apply Prim2SF_valid | assumption].
Qed.

(** *** Comparisons and NaN *)

Lemma SFeqb_refl (x : spec_float) : SFeqb x x = negb (SF_is_nan x).
Proof.
  destruct x as [s|s| |s m e]; try reflexivity.
  - destruct s; reflexivity.
  - unfold SFeqb, SFcompare.
    rewrite Z.compare_refl. change (Pos.compare_cont Eq m m) with (Pos.compare m m).
    rewrite Pos.compare_refl. destruct s; reflexivity.
Qed.

Lemma is_nan_spec (x : float) : is_nan x = SF_is_nan (Prim2SF x).
Proof.
  unfold is_nan. rewrite eqb_spec, SFeqb_refl. apply negb_involutive.
Qed.

Lemma SFcompare_antisym (x y : spec_float) :
  SFcompare y x = option_map CompOpp (SFcompare x y).
Proof.
  destruct x as [s1|s1| |s1 m1 e1], y as [s2|s2| |s2 m2 e2]; simpl;
    try reflexivity;
    try (destruct s1; reflexivity); try (destruct s2; reflexivity);
    try (destruct s1, s2; reflexivity).
  rewrite (Z.compare_antisym e1 e2).
  change (Pos.compare_cont Eq m2 m1) with (Pos.compare m2 m1).
  change (Pos.compare_cont Eq m1 m2) with (Pos.compare m1 m2).
  rewrite (Pos.compare_antisym m1 m2).
  destruct s1, s2; try reflexivity;
    destruct (e1 ?= e2); simpl; try reflexivity;
    destruct (m1 ?= m2)%positive; reflexivity.
Qed.

Lemma SFcompare_nan (x y : spec_float) :
  SFcompare x y = None <-> SF_is_nan x = true \/ SF_is_nan y = true.
Proof.
  destruct x as [s1|s1| |s1 m1 e1], y as [s2|s2| |s2 m2 e2]; simpl;
    split; intro H; try discriminate; try (destruct H; discriminate); auto.
Qed.

Lemma ltb_negb_leb (x y : float) :
  is_nan x = false -> is_nan y = false -> (x <? y)%float = negb (y <=? x)%float.
Proof.
  rewrite !is_nan_spec, ltb_spec, leb_spec. intros Hx Hy.
  unfold SFltb, SFleb. rewrite (SFcompare_antisym (Prim2SF x) (Prim2SF y)).
  destruct (SFcompare (Prim2SF x) (Prim2SF y)) as [[]|] eqn:E; try reflexivity.
  apply SFcompare_nan in E. destruct E; congruence.
Qed.

Lemma ltb_not_nan (x y : float) :
  (x <? y)%float = true -> is_nan x = false /\ is_nan y = false.
Proof.
  rewrite !is_nan_spec, ltb_spec. unfold SFltb. intro H.
  destruct (SF_is_nan (Prim2SF x)) eqn:Ex, (SF_is_nan (Prim2SF y)) eqn:Ey; auto;
    assert (E : SFcompare (Prim2SF x) (Prim2SF y) = None)
      by (apply SFcompare_nan; auto);
    rewrite E in H; discriminate.
Qed.

Lemma leb_not_nan (x y : float) :
  (x <=? y)%float = true -> is_nan x = false /\ is_nan y = false.
Proof.
  rewrite !is_nan_spec, leb_spec. unfold SFleb. intro H.
  destruct (SF_is_nan (Prim2SF x)) eqn:Ex, (SF_is_nan (Prim2SF y)) eqn:Ey; auto;
    assert (E : SFcompare (Prim2SF x) (Prim2SF y) = None)
      by (apply SFcompare_nan; auto);
    rewrite E in H; discriminate.
Qed.

Lemma ltb_leb_false (x y : float) : (x <? y)%float = true -> (y <=? x)%float = false.
Proof.
  intro H. destruct (ltb_not_nan _ _ H) as [Hx Hy].
  rewrite (ltb_negb_leb x y Hx Hy) in H. now apply negb_true_iff in H.
Qed.

Lemma eqb_leb (x y : float) : (x =? y)%float = true -> (x <=? y)%float = true.
Proof.
  rewrite eqb_spec, leb_spec. unfold SFeqb, SFleb.
  destruct (SFcompare (Prim2SF x) (Prim2SF y)) as [[]|]; auto.
Qed.

Lemma ltb_leb (x y : float) : (x <? y)%float = true -> (x <=? y)%float = true.
Proof.
  rewrite ltb_spec, leb_spec. unfold SFltb, SFleb.
  destruct (SFcompare (Prim2SF x) (Prim2SF y)) as [[]|]; auto.
Qed.

Lemma leb_false_eqb_false (x y : float) :
  (x <=? y)%float = false -> (x =? y)%float = false.
Proof.
  intro H. destruct (x =? y)%float eqn:E; [|reflexivity].
  apply eqb_leb in E. congruence.
Qed.

(** *** Rounding never invents a NaN *)

Lemma shr_fexp_nonneg (m e : Z) (l : location) :
  0 <= m -> 0 <= shr_m (fst (shr_fexp prec emax m e l)).
Proof.
  intro H. unfold shr_fexp.
  destruct (shr_m_spec (shr_record_of_loc m l) e
              (fexp prec emax (Zdigits2 m + e) - e)) as [Hm _].
  { rewrite shr_record_of_loc_m. exact H. }
  rewrite Hm, shr_record_of_loc_m.
  apply Z.div_pos; [exact H|]. apply Z.pow_pos_nonneg; lia.
Qed.

Lemma binary_round_aux_not_nan (sx : bool) (m e : Z) (l : location) :
  0 <= m -> SF_is_nan (binary_round_aux prec emax sx m e l) = false.
Proof.
  intro H. unfold binary_round_aux.
  pose proof (shr_fexp_nonneg m e l H) as H1.
  destruct (shr_fexp prec emax m e l) as [mrs' e']. simpl fst in H1.
  pose proof (round_nearest_even_ge (shr_m mrs') (loc_of_shr_record mrs')) as Hr.
  pose proof (shr_fexp_nonneg (round_nearest_even (shr_m mrs') (loc_of_shr_record mrs'))
                e' loc_Exact ltac:(lia)) as H2.
  destruct (shr_fexp prec emax _ e' loc_Exact) as [mrs'' e'']. simpl fst in H2.
  destruct (shr_m mrs'') as [|p|p]; try reflexivity; try lia.
  destruct (e'' <=? emax - prec); reflexivity.
Qed.

Lemma binary_normalize_not_nan (v e : Z) (sz : bool) :
  SF_is_nan (binary_normalize prec emax v e sz) = false.
Proof.
  destruct v as [|p|p]; simpl; try reflexivity;
    unfold binary_round; destruct (shl_align _ _ _) as [mz ez];
    apply binary_round_aux_not_nan; lia.
Qed.

Lemma SFsub_not_nan (x y : spec_float) :
  SF_is_nan x = false -> SF_is_nan y = false -> SFltb y x = true ->
  SF_is_nan (SF64sub x y) = false.
Proof.
  intros Hx Hy Hlt.
  destruct x as [s1|s1| |s1 m1 e1], y as [s2|s2| |s2 m2 e2]; try discriminate;
    try reflexivity;
    try (destruct s1, s2; try reflexivity; discriminate).
  unfold SF64sub, SFsub. apply binary_normalize_not_nan.
Qed.

Lemma sub_not_nan (x y : float) :
  (y <? x)%float = true -> is_nan (x - y)%float = false.
Proof.
  intro H. destruct (ltb_not_nan _ _ H) as [Hy Hx].
  rewrite is_nan_spec in *. rewrite ltb_spec in H. rewrite sub_spec.
  now apply SFsub_not_nan.
Qed.

(** ** Dictionaries *)

Section DictFacts.
Context {K V : Type} (keq : K -> K -> bool).

(** What [d[k] = v] can put into a dictionary, whatever the key test. *)
Lemma dict_set_In (k : K) (v : V) (d : dict K V) (k' : K) (v' : V) :
  In (k', v') (dict_set keq k v d) ->
  In (k', v') d \/ (v' = v /\ (k' = k \/ In k' (keys d))).
Proof.
  induction d as [|[k0 v0] d IH]; simpl.
  - intros [H|[]]. inversion H. auto.
  - destruct (keq k0 k).
    + intros [H|H]; [inversion H; subst; auto | auto].
    + intros [H|H]; [auto|].
      destruct (IH H) as [H1|[H1 [H2|H2]]]; auto.
Qed.

Lemma dict_set_length_ge (k : K) (v : V) (d : dict K V) :
  (List.length d <= List.length (dict_set keq k v d))%nat.
Proof.
  induction d as [|[k0 v0] d IH]; simpl; [lia|].
  destruct (keq k0 k); simpl; lia.
Qed.

Lemma dict_get_None_set (k : K) (v : V) (d : dict K V) :
  dict_get keq k d = None -> dict_set keq k v d = d ++ [(k, v)].
Proof.
  induction d as [|[k0 v0] d IH]; simpl; [reflexivity|].
  destruct (keq k0 k); [discriminate|]. intro H. now rewrite IH.
Qed.

Lemma dict_get_Some_split (k : K) (v0 : V) (d : dict K V) :
  dict_get keq k d = Some v0 ->
  exists k0 d1 d2, d = d1 ++ (k0, v0) :: d2 /\ keq k0 k = true /\
    forall v, dict_set keq k v d = d1 ++ (k0, v) :: d2.
Proof.
  induction d as [|[k1 v1] d IH]; simpl; [discriminate|].
  destruct (keq k1 k) eqn:E.
  - intro H. inversion H; subst. exists k1, [], d. auto.
  - intro H. destruct (IH H) as (k0 & d1 & d2 & Hd & Hk & Hs).
    exists k0, ((k1, v1) :: d1), d2. subst d. repeat split; auto.
    intro v. simpl. now rewrite Hs.
Qed.

Hypothesis keq_eq : forall a b, keq a b = true <-> a = b.

Lemma keq_refl (a : K) : keq a a = true.
Proof. now apply keq_eq. Qed.

Lemma dict_get_In (k : K) (v : V) (d : dict K V) :
  dict_get keq k d = Some v -> In (k, v) d.
Proof.
  induction d as [|[k0 v0] d IH]; simpl; [discriminate|].
  destruct (keq k0 k) eqn:E.
  - intro H. inversion H; subst. apply keq_eq in E. subst. auto.
  - auto.
Qed.

Lemma dict_get_None_keys (k : K) (d : dict K V) :
  dict_get keq k d = None <-> ~ In k (keys d).
Proof.
  induction d as [|[k0 v0] d IH]; simpl.
  - split; auto.
  - destruct (keq k0 k) eqn:E.
    + apply keq_eq in E. subst. split; [discriminate | intro H; exfalso; auto].
    + rewrite IH. split.
      * intros H [H1|H1]; [|auto]. subst. rewrite keq_refl in E. discriminate.
      * intros H H1. auto.
Qed.

Lemma In_dict_get (k : K) (v : V) (d : dict K V) :
  NoDup (keys d) -> In (k, v) d -> dict_get keq k d = Some v.
Proof.
  induction d as [|[k0 v0] d IH]; simpl; [intros _ []|].
  intros Hnd [H|H].
  - inversion H; subst. now rewrite keq_refl.
  - inversion Hnd; subst. destruct (keq k0 k) eqn:E.
    + apply keq_eq in E. subst. exfalso. apply H2.
      change k with (fst (k, v)). now apply in_map.
    + auto.
Qed.

Lemma dict_get_set_same (k : K) (v : V) (d : dict K V) :
  dict_get keq k (dict_set keq k v d) = Some v.
Proof.
  induction d as [|[k0 v0] d IH]; simpl.
  - now rewrite keq_refl.
  - destruct (keq k0 k) eqn:E; simpl; rewrite E; auto.
Qed.

Lemma dict_get_set_other (k k' : K) (v : V) (d : dict K V) :
  k <> k' -> dict_get keq k' (dict_set keq k v d) = dict_get keq k' d.
Proof.
  intro Hne. induction d as [|[k0 v0] d IH]; simpl.
  - destruct (keq k k') eqn:E; [apply keq_eq in E; contradiction | reflexivity].
  - destruct (keq k0 k) eqn:E; simpl.
    + apply keq_eq in E. subst k0.
      destruct (keq k k') eqn:E'; [apply keq_eq in E'; contradiction | reflexivity].
    + now rewrite IH.
Qed.

Lemma dict_set_keys_NoDup (k : K) (v : V) (d : dict K V) :
  NoDup (keys d) -> NoDup (keys (dict_set keq k v d)).
Proof.
  intro Hnd. destruct (dict_get keq k d) as [v0|] eqn:E.
  - destruct (dict_get_Some_split k v0 d E) as (k0 & d1 & d2 & Hd & _ & Hs).
    rewrite Hs. subst d. unfold keys in *. rewrite map_app in *. exact Hnd.
  - rewrite dict_get_None_set by exact E.
    apply dict_get_None_keys in E.
    unfold keys in *. rewrite map_app. simpl.
    apply NoDup_app_remove_l with (l := []). simpl.
    rewrite <- (app_nil_r (map fst d ++ [k])).
    apply Permutation_NoDup with (l := k :: map fst d).
    + rewrite app_nil_r. apply Permutation_cons_append.
    + now constructor.
Qed.
End DictFacts.

(** ** Grouping with [defaultdict(list)] *)

Section Grouping.
Context {K A : Type} (keq : K -> K -> bool) (kf : A -> K).

(** Appending a row keeps every row and adds that one. *)
Lemma dict_append_perm (d : dict K (list A)) (o : A) :
  Permutation (List.concat (values (group_step keq kf d o))) (List.concat (values d) ++ [o]).
Proof.
  unfold group_step, dict_append.
  destruct (dict_get keq (kf o) d) as [l|] eqn:E.
  - destruct (dict_get_Some_split keq _ _ _ E) as (k0 & d1 & d2 & Hd & _ & Hs).
    rewrite Hs. subst d. unfold values. rewrite !map_app. simpl.
    rewrite !concat_app. simpl. rewrite <- !List.app_assoc.
    apply Permutation_app_head. apply Permutation_app_head.
    apply Permutation_app_comm.
  - rewrite dict_get_None_set by exact E.
    unfold values. rewrite map_app, concat_app. simpl. reflexivity.
Qed.

Lemma group_fold_perm (rows : list A) (d : dict K (list A)) :
  Permutation (List.concat (values (fold_left (group_step keq kf) rows d)))
              (List.concat (values d) ++ rows).
Proof.
  revert d. induction rows as [|o rows IH]; intro d; simpl.
  - now rewrite List.app_nil_r.
  - rewrite IH. rewrite dict_append_perm. rewrite <- List.app_assoc. reflexivity.
Qed.

Hypothesis keq_eq : forall a b, keq a b = true <-> a = b.

Lemma group_step_grouped (d : dict K (list A)) (o : A) :
  grouped kf d -> grouped kf (group_step keq kf d o).
Proof.
  intros [Hnd Hin]. unfold group_step, dict_append.
  destruct (dict_get keq (kf o) d) as [l|] eqn:E.
  - split; [now apply dict_set_keys_NoDup|].
    destruct (dict_get_Some_split keq _ _ _ E) as (k0 & d1 & d2 & Hd & Hk & Hs).
    apply keq_eq in Hk. subst k0.
    rewrite Hs. intros k l' H. subst d.
    apply in_app_or in H. destruct H as [H|[H|H]].
    + apply Hin. apply in_or_app. auto.
    + inversion H; subst. split; [now destruct l|].
      intros x Hx. apply in_app_or in Hx. destruct Hx as [Hx|[Hx|[]]].
      * apply (Hin (kf o) l); [apply in_or_app; simpl; auto | exact Hx].
      * now subst.
    + apply Hin. apply in_or_app. simpl. auto.
  - split; [now apply dict_set_keys_NoDup|].
    rewrite dict_get_None_set by exact E.
    intros k l' H. apply in_app_or in H. destruct H as [H|[H|[]]].
    + now apply Hin.
    + inversion H; subst. split; [discriminate|].
      intros x [Hx|[]]. now subst.
Qed.

Lemma group_fold_grouped (rows : list A) (d : dict K (list A)) :
  grouped kf d -> grouped kf (fold_left (group_step keq kf) rows d).
Proof.
  revert d. induction rows as [|o rows IH]; intros d H; simpl; auto.
  apply IH. now apply group_step_grouped.
Qed.

Lemma grouped_nil : grouped kf [].
Proof. split; [constructor | intros k l []]. Qed.

(** Every row is in the bucket of its key. *)
Lemma group_fold_member (rows : list A) (o : A) :
  In o rows ->
  exists l, dict_get keq (kf o) (fold_left (group_step keq kf) rows []) = Some l /\ In o l.
Proof.
  intro Ho.
  pose proof (group_fold_grouped rows [] grouped_nil) as [Hnd Hin].
  pose proof (group_fold_perm rows []) as Hp. simpl in Hp.
  assert (Hc : In o (List.concat (values (fold_left (group_step keq kf) rows [])))).
  { eapply Permutation_in; [symmetry; exact Hp | exact Ho]. }
  apply in_concat in Hc. destruct Hc as (l & Hl & Hol).
  unfold values in Hl. apply in_map_iff in Hl. destruct Hl as ([k l'] & Heq & Hkl).
  simpl in Heq. subst l'.
  destruct (Hin k l Hkl) as [_ Hk]. rewrite <- (Hk o Hol) in Hkl.
  exists l. split; [|exact Hol]. now apply In_dict_get.
Qed.
End Grouping.

(** ** The margin calculator *)

Lemma div_guarded (x odd : float) :
  PyFloat.le odd 0 = false -> PyFloat.div x odd = Ok (x / odd)%float.
Proof.
  unfold PyFloat.le, PyFloat.div. intro H.
  now rewrite (leb_false_eqb_false _ _ H).
Qed.

(** [_calc_arb_margin] never raises: the reciprocal is taken of a price the
    guard has let through only. *)
Lemma calc_arb_margin_loop_total (vals : list Odds) (inv_sum : float) :
  exists m, calc_arb_margin_loop vals inv_sum = Ok m.
Proof.
  revert inv_sum. induction vals as [|o vals IH]; intro inv_sum; simpl.
  - eauto.
  - destruct (PyFloat.le (price o) 0) eqn:E; [eauto|].
    rewrite (div_guarded _ _ E). simpl. apply IH.
Qed.

Lemma calc_arb_margin_loop_nonpos (vals : list Odds) (inv_sum : float) :
  (exists o, In o vals /\ PyFloat.le (price o) 0 = true) ->
  calc_arb_margin_loop vals inv_sum = Ok 0%float.
Proof.
  revert inv_sum. induction vals as [|o vals IH]; intros inv_sum (q & Hq & Hle).
  - destruct Hq.
  - simpl. destruct (PyFloat.le (price o) 0) eqn:E; [reflexivity|].
    rewrite (div_guarded _ _ E). simpl. apply IH.
    destruct Hq as [Hq|Hq]; [subst; congruence | eauto].
Qed.

Lemma calc_arb_margin_loop_pos (vals : list Odds) (inv_sum : float) :
  (forall o, In o vals -> PyFloat.lt 0 (price o) = true) ->
  calc_arb_margin_loop vals inv_sum =
  Ok (let s := fold_left (fun s p => (s + 1 / p)%float) (map price vals) inv_sum in
      if PyFloat.lt s 1 then ((1 - s) * 100)%float else 0%float).
Proof.
  revert inv_sum. induction vals as [|o vals IH]; intros inv_sum H; simpl.
  - reflexivity.
  - assert (E : PyFloat.le (price o) 0 = false).
    { apply ltb_leb_false. apply H. simpl. auto. }
    rewrite E, (div_guarded _ _ E). simpl. apply IH.
    intros q Hq. apply H. simpl. auto.
Qed.

(** The two ways of writing the margin agree on every float. *)
Lemma margin_branch_max0 (s : float) :
  (if PyFloat.lt s 1 then ((1 - s) * 100)%float else 0%float) =
  max0 ((1 - s) * 100)%float.
Proof.
  unfold max0, PyFloat.gt, PyFloat.lt.
  destruct (s <? 1)%float eqn:E.
  - now rewrite (margin_pos s E).
  - now rewrite (margin_nonpos s E).
Qed.

(** The margin is [0.0] or strictly positive, never NaN. *)
Lemma calc_arb_margin_loop_cases (vals : list Odds) (inv_sum m : float) :
  calc_arb_margin_loop vals inv_sum = Ok m ->
  m = 0%float \/ PyFloat.lt 0 m = true.
Proof.
  revert inv_sum. induction vals as [|o vals IH]; intro inv_sum; simpl.
  - intro H. inversion H. unfold PyFloat.lt.
    destruct (inv_sum <? 1)%float eqn:E; [right; now apply margin_pos | now left].
  - destruct (PyFloat.le (price o) 0) eqn:E.
    + intro H. inversion H. now left.
    + rewrite (div_guarded _ _ E). simpl. apply IH.
Qed.

(** C7: when some selected quote has a price [<= 0], [_calc_arb_margin]
    returns exactly [0.0]; it returns, it does not raise, and no reciprocal
    of a price [<= 0] is taken. *)
Theorem C7_nonpositive_price_margin_zero (best_by_outcome : dict string Odds) :
  (exists o, In o (values best_by_outcome) /\ PyFloat.le (price o) 0 = true) ->
  _calc_arb_margin best_by_outcome = Ok 0%float.
Proof.
  intro H. unfold _calc_arb_margin. now apply calc_arb_margin_loop_nonpos.
Qed.

Lemma C7_witness :
  _calc_arb_margin [("A"%string, quote "B1" "E" "h2h" "A" None 2.5);
                    ("B"%string, quote "B2" "E" "h2h" "B" None (-1))] = Ok 0%float.
Proof.
  apply C7_nonpositive_price_margin_zero.
  exists (quote "B2" "E" "h2h" "B" None (-1)). split.
  - simpl. auto.
  - vm_compute. reflexivity.
Defined.



(** ** Emission of a bucket *)

Lemma best_price_nil_length (group_rows : list Odds) :
  (2 <= List.length (_best_price_by_outcome group_rows))%nat -> group_rows <> [].
Proof. destruct group_rows; simpl; [lia | discriminate]. Qed.

Lemma margin_le_zero_iff (vals : list Odds) (m : float) :
  calc_arb_margin_loop vals 0%float = Ok m ->
  PyFloat.le m 0 = negb (PyFloat.gt m 0) /\ is_nan m = false.
Proof.
  intro H. destruct (calc_arb_margin_loop_cases _ _ _ H) as [Hz|Hp].
  - subst m. split; reflexivity.
  - unfold PyFloat.gt. unfold PyFloat.lt in Hp. rewrite Hp.
    split; [now apply ltb_leb_false | now apply (ltb_not_nan _ _ Hp)].
Qed.

(** C2, the claim as worded, fails on a bucket whose margin equals the
    threshold: two outcomes at 4.0 give a margin of exactly 50%, and with
    [min_margin = 50] the bucket is emitted. *)
Lemma C2_counterexample :
  ~ C2_as_stated 50%float ("E", "h2h", None)%string
      [quote "B1" "E" "h2h" "A" None 4; quote "B2" "E" "h2h" "B" None 4].
Proof.
  unfold C2_as_stated. intros [H _].
  destruct H as (_ & m & Hm & _ & Hgt).
  - unfold emitted.
    destruct (score_group _ _ _) as [[opp|]|e] eqn:E;
      [eauto | vm_compute in E; discriminate ..].
  - vm_compute in Hm. inversion Hm. subst m. vm_compute in Hgt. discriminate.
Qed.

(** C2, amended: a bucket is emitted if and only if its best-price mapping
    has at least 2 outcome keys and its margin exceeds 0 and is at least the
    minimum-margin threshold; a mapping with one key emits nothing. *)
Theorem C2_emitted_iff (min_margin : float) (key : group_key) (group_rows : list Odds) :
  is_nan min_margin = false ->
  (emitted min_margin key group_rows <->
   (2 <= List.length (_best_price_by_outcome group_rows))%nat /\
   exists margin,
     _calc_arb_margin (_best_price_by_outcome group_rows) = Ok margin /\
     PyFloat.gt margin 0 = true /\ PyFloat.le min_margin margin = true) /\
  (List.length (_best_price_by_outcome group_rows) = 1%nat ->
   score_group min_margin key group_rows = Ok None).
Proof.
  intro Hnan. destruct key as [[ev mkt] line_norm].
  unfold emitted, score_group, _calc_arb_margin.
  set (best := _best_price_by_outcome group_rows).
  destruct (calc_arb_margin_loop_total (values best) 0%float) as [m Hm].
  destruct (margin_le_zero_iff _ _ Hm) as [Hle Hmn].
  rewrite Hm. simpl bind. rewrite Hle.
  assert (Hlt : PyFloat.lt m min_margin = negb (PyFloat.le min_margin m)).
  { apply ltb_negb_leb; assumption. }
  rewrite Hlt. split; [split|].
  - intros [opp H].
    destruct (List.length best <? 2)%nat eqn:El; [discriminate|].
    apply Nat.ltb_ge in El. split; [exact El|].
    exists m. split; [reflexivity|].
    destruct (PyFloat.gt m 0); [|discriminate].
    destruct (PyFloat.le min_margin m); [auto | discriminate].
  - intros (Hlen & m' & Hm' & Hgt & Hge). inversion Hm'. subst m'.
    rewrite Hgt, Hge. simpl.
    destruct (List.length best <? 2)%nat eqn:El; [apply Nat.ltb_lt in El; lia|].
    pose proof (best_price_nil_length group_rows Hlen) as Hne.
    destruct group_rows as [|sample rest]; [contradiction|]. eauto.
  - intro H1. rewrite H1. reflexivity.
Qed.

Lemma C2_witness :
  emitted 50%float ("E", "h2h", None)%string
    [quote "B1" "E" "h2h" "A" None 4; quote "B2" "E" "h2h" "B" None 4].
Proof.
  apply (proj1 (C2_emitted_iff 50%float ("E", "h2h", None)%string
                  [quote "B1" "E" "h2h" "A" None 4; quote "B2" "E" "h2h" "B" None 4]
                  eq_refl)).
  split; [vm_compute; lia|].
  exists 50%float. repeat split; vm_compute; reflexivity.
Defined.

(** ** The quote filter *)

Lemma ratio_pos (m : positive) (e : Z) :
  0 < fst (PyFloat.ratio m e) /\ 0 < snd (PyFloat.ratio m e).
Proof.
  unfold PyFloat.ratio. destruct (0 <=? e) eqn:E; unfold fst, snd.
  - apply Z.leb_le in E. split; [|lia].
    apply Z.mul_pos_pos; [lia | apply Z.pow_pos_nonneg; lia].
  - apply Z.leb_gt in E. split; [lia | apply Z.pow_pos_nonneg; lia].
Qed.

Lemma rhe_div_nonneg (n d : Z) : 0 <= n -> 0 < d -> 0 <= PyFloat.rhe_div n d.
Proof.
  intros Hn Hd. unfold PyFloat.rhe_div.
  assert (0 <= n / d) by (apply Z.div_pos; lia).
  destruct (2 * (n mod d) ?= d); [destruct (Z.even (n / d))| |]; lia.
Qed.

(** A lead that is not negative moves the cutoff to [now] or later. *)
Lemma timedelta_hours_nonneg (h : float) (delta : Z) :
  PyFloat.le 0 h = true -> timedelta_hours h = Ok delta -> 0 <= delta.
Proof.
  unfold PyFloat.le, timedelta_hours. rewrite leb_spec.
  change (Prim2SF 0%float) with (S754_zero false).
  destruct (Prim2SF h) as [s|s| |s m e]; try discriminate.
  - intros _ H. inversion H. lia.
  - intro Hs. destruct s; [discriminate|].
    pose proof (ratio_pos m e) as [Hn Hd].
    destruct (PyFloat.ratio m e) as [n d]. simpl in Hn, Hd.
    destruct (_ || _); [discriminate|]. intro H. inversion H.
    apply rhe_div_nonneg; [|exact Hd].
    unfold us_per_hour. lia.
Qed.

Lemma apply_row_level_filters_Ok (now : Z) (rows : list Odds)
    (leagues markets sportsbooks : option strset) (h : float) (out : list Odds) :
  _apply_row_level_filters now rows leagues markets sportsbooks h = Ok out ->
  exists delta,
    timedelta_hours h = Ok delta /\
    datetime_add now delta = Ok (now + delta) /\
    out = filter (row_passes (now + delta) leagues markets sportsbooks) rows.
Proof.
  unfold _apply_row_level_filters.
  destruct (timedelta_hours h) as [delta|e]; [|discriminate]. simpl bind.
  destruct (datetime_add now delta) as [cutoff|e] eqn:Ec; [|discriminate].
  simpl bind. intro H. inversion H.
  assert (cutoff = now + delta).
  { unfold datetime_add in Ec. cbv zeta in Ec.
    destruct (_ || _) in Ec; [discriminate | now inversion Ec]. }
  subst cutoff. exists delta. auto.
Qed.




Lemma row_passes_books (cutoff : Z) (leagues markets : option strset)
    (books : strset) (o : Odds) :
  books <> [] ->
  row_passes cutoff leagues markets (Some books) o =
  row_passes cutoff leagues markets None o && mem (or_empty (sportsbook o)) books.
Proof.
  intro Hne. unfold row_passes.
  destruct (commence_time o) as [t|]; [|reflexivity]. cbv zeta.
  destruct (utc_instant t <=? cutoff); [reflexivity|].
  destruct (filtered_out leagues _); [reflexivity|].
  destruct (filtered_out markets _); [reflexivity|].
  destruct books as [|b books]; [contradiction|].
  unfold filtered_out. destruct (mem _ (b :: books)); reflexivity.
Qed.

(** C6, the claim as worded, fails: the sportsbook is compared as stored,
    so with the filter set {"draftkings"} a quote of "DraftKings" is
    rejected although its lower-cased name is in the set. *)
Lemma C6_counterexample :
  ~ C6_as_stated sample_now [quote "DraftKings" "E" "h2h" "A" None 2] None None
      ["draftkings"%string] 0%float (quote "DraftKings" "E" "h2h" "A" None 2).
Proof.
  intro H. specialize (H [] ltac:(discriminate)).
  assert (Hk : kept_without_books sample_now [quote "DraftKings" "E" "h2h" "A" None 2]
                 None None 0%float (quote "DraftKings" "E" "h2h" "A" None 2)).
  { eexists. split; [vm_compute; reflexivity | simpl; auto]. }
  specialize (H Hk ltac:(vm_compute; reflexivity)).
  assert (E : mem (lower (or_empty (sportsbook (quote "DraftKings" "E" "h2h" "A" None 2))))
                ["draftkings"%string] = false) by (apply H; intros []).
  vm_compute in E. discriminate.
Qed.

(** C6, amended: when a non-empty sportsbook filter set is supplied, the
    filter rejects a quote that it would otherwise keep exactly when the
    quote's sportsbook value, as stored and without lower-casing, is not a
    member of the set. *)
Theorem C6_sportsbook_filter (now : Z) (rows : list Odds)
    (leagues markets : option strset) (books : strset) (min_hours_ahead : float)
    (o : Odds) (out : list Odds) :
  books <> [] ->
  kept_without_books now rows leagues markets min_hours_ahead o ->
  _apply_row_level_filters now rows leagues markets (Some books) min_hours_ahead = Ok out ->
  (~ In o out <-> mem (or_empty (sportsbook o)) books = false).
Proof.
  intros Hne (out0 & H0 & Hin0) Hf.
  destruct (apply_row_level_filters_Ok _ _ _ _ _ _ _ H0) as (d0 & Hd0 & _ & Hout0).
  destruct (apply_row_level_filters_Ok _ _ _ _ _ _ _ Hf) as (d & Hd & _ & Hout).
  rewrite Hd0 in Hd. inversion Hd. subst d0 out0 out.
  apply filter_In in Hin0. destruct Hin0 as [Hrows Hp0].
  rewrite filter_In, (row_passes_books _ _ _ _ _ Hne), Hp0. simpl.
  destruct (mem (or_empty (sportsbook o)) books); split; intro H;
    try reflexivity; try discriminate.
  - exfalso. apply H. auto.
  - intros [_ H1]. discriminate.
Qed.

Lemma C6_witness :
  ~ In (quote "DraftKings" "E" "h2h" "A" None 2) [] <->
  mem (or_empty (sportsbook (quote "DraftKings" "E" "h2h" "A" None 2)))
      ["draftkings"%string] = false.
Proof.
  apply (C6_sportsbook_filter sample_now [quote "DraftKings" "E" "h2h" "A" None 2]
           None None ["draftkings"%string] 0%float).
  - discriminate.
  - eexists. split; [vm_compute; reflexivity | simpl; auto].
  - vm_compute. reflexivity.
Defined.

(** ** Sorting and slicing *)

Section SortingFacts.
Context {A : Type}.

Lemma insert_sorted_perm (lt : A -> A -> bool) (x : A) (l : list A) :
  Permutation (insert_sorted lt x l) (x :: l).
Proof.
  induction l as [|y l IH]; simpl; [reflexivity|].
  destruct (lt x y); [reflexivity|].
  rewrite IH. apply perm_swap.
Qed.

Lemma sort_fold_perm (lt : A -> A -> bool) (l acc : list A) :
  Permutation (fold_left (fun sorted x => insert_sorted lt x sorted) l acc) (acc ++ l).
Proof.
  revert acc. induction l as [|x l IH]; intro acc; simpl.
  - now rewrite List.app_nil_r.
  - rewrite IH, insert_sorted_perm. simpl. apply Permutation_middle.
Qed.

(** The sort keeps every element, once. *)
Lemma sort_by_perm (lt : A -> A -> bool) (l : list A) : Permutation (sort_by lt l) l.
Proof. unfold sort_by. apply (sort_fold_perm lt l []). Qed.

Lemma sort_dir_by_perm (lt : A -> A -> bool) (reverse : bool) (l : list A) :
  Permutation (sort_dir_by lt reverse l) l.
Proof.
  unfold sort_dir_by. destruct reverse; [|apply sort_by_perm].
  rewrite <- Permutation_rev, sort_by_perm. apply Permutation_sym, Permutation_rev.
Qed.

Lemma insert_sorted_m_perm (lt : A -> A -> result bool) (x : A) (l r : list A) :
  insert_sorted_m lt x l = Ok r -> Permutation r (x :: l).
Proof.
  revert r. induction l as [|y l IH]; intro r; simpl.
  - intro H. inversion H. reflexivity.
  - destruct (lt x y) as [[|]|e]; simpl; try discriminate.
    + intro H. inversion H. reflexivity.
    + destruct (insert_sorted_m lt x l) as [r'|e]; simpl; [|discriminate].
      intro H. inversion H. rewrite (IH r' eq_refl). apply perm_swap.
Qed.

Lemma sort_fold_m_perm (lt : A -> A -> result bool) (l : list A) (acc : result (list A))
    (r : list A) :
  fold_left (fun acc x => sorted <- acc ;; insert_sorted_m lt x sorted) l acc = Ok r ->
  exists a, acc = Ok a /\ Permutation r (a ++ l).
Proof.
  revert acc. induction l as [|x l IH]; intro acc; simpl.
  - intro H. exists r. now rewrite List.app_nil_r.
  - intro H. destruct (IH _ H) as (a' & Ha' & Hp).
    destruct acc as [a|e]; [|discriminate]. simpl in Ha'.
    exists a. split; [reflexivity|].
    rewrite Hp, (insert_sorted_m_perm _ _ _ _ Ha').
    simpl. apply Permutation_middle.
Qed.

Lemma sort_dir_by_m_perm (lt : A -> A -> result bool) (reverse : bool) (l r : list A) :
  sort_dir_by_m lt reverse l = Ok r -> Permutation r l.
Proof.
  unfold sort_dir_by_m, sort_by_m. destruct reverse.
  - destruct (fold_left _ (rev l) (Ok [])) as [r'|e] eqn:E; [|discriminate].
    simpl. intro H. inversion H.
    destruct (sort_fold_m_perm _ _ _ _ E) as (a & Ha & Hp). inversion Ha. subst a.
    simpl in Hp. rewrite <- Permutation_rev, Hp. apply Permutation_sym, Permutation_rev.
  - intro E. destruct (sort_fold_m_perm _ _ _ _ E) as (a & Ha & Hp).
    inversion Ha. subst a. exact Hp.
Qed.

(** A slice that starts at or past the end is empty. *)
Lemma slice_beyond (l : list A) (start stop : Z) :
  Z.of_nat (List.length l) <= start -> slice l start stop = [].
Proof.
  intro H. unfold slice, clamp_index.
  destruct (start <? 0) eqn:E; [apply Z.ltb_lt in E; lia|].
  rewrite (Z.min_r start (Z.of_nat (List.length l)) H).
  rewrite Nat2Z.id, skipn_all. apply firstn_nil.
Qed.

Lemma slice_length (l : list A) (start stop : Z) :
  0 <= start -> start <= stop ->
  Z.of_nat (List.length (slice l start stop)) =
  Z.max 0 (Z.min stop (Z.of_nat (List.length l)) - start).
Proof.
  intros H0 H1. unfold slice, clamp_index.
  destruct (start <? 0) eqn:E; [apply Z.ltb_lt in E; lia|].
  destruct (stop <? 0) eqn:E'; [apply Z.ltb_lt in E'; lia|].
  rewrite length_firstn, length_skipn. lia.
Qed.
End SortingFacts.

(** ** Pagination *)

(** C8: two invocations that differ only in [page] and [limit] (same
    snapshot, configuration and clock reading) return the same [total],
    which is the count of scored opportunities before pagination; when
    [(page - 1) * limit] is at or beyond that count the page is empty. *)
Theorem C8_pagination_total (now : Z) (db_rows : list Odds)
    (leagues markets sportsbooks : option string)
    (min_margin min_hours_ahead : float) (show_middles : bool)
    (middle_min_width middle_min_price : float) (sort_by sort_dir : string)
    (page1 limit1 page2 limit2 : Z) (r1 : response) :
  get_arbitrage now db_rows leagues markets sportsbooks min_margin min_hours_ahead
    show_middles middle_min_width middle_min_price sort_by sort_dir page1 limit1 = Ok r1 ->
  (exists found,
     scored_opportunities now db_rows leagues markets sportsbooks min_margin
       min_hours_ahead = Ok found /\
     total r1 = Z.of_nat (List.length found)) /\
  (exists r2,
     get_arbitrage now db_rows leagues markets sportsbooks min_margin min_hours_ahead
       show_middles middle_min_width middle_min_price sort_by sort_dir page2 limit2 = Ok r2 /\
     total r2 = total r1) /\
  (total r1 <= (page1 - 1) * limit1 -> opportunities r1 = []).
Proof.
  unfold get_arbitrage, scored_opportunities. cbv zeta.
  destruct (_apply_row_level_filters _ _ _ _ _ _) as [rows|e]; [|discriminate].
  simpl bind.
  destruct (_collect_books_summary rows) as [summary|e]; [|discriminate].
  simpl bind.
  destruct (score_groups min_margin _) as [found|e]; [|discriminate].
  simpl bind.
  destruct (if show_middles then _ else _) as [mids|e]; [|discriminate].
  simpl bind. intro H. inversion H. subst r1. clear H. simpl.
  assert (Hlen : List.length (sort_dir_by (opportunity_lt sort_by)
                                (String.eqb (lower sort_dir) "desc") found) =
                 List.length found).
  { apply Permutation_length, sort_dir_by_perm. }
  rewrite Hlen. split; [eauto|]. split; [eauto|].
  intro Hge. apply slice_beyond. rewrite Hlen. exact Hge.
Qed.

Lemma C8_witness :
  exists r2,
    get_arbitrage sample_now
      [quote "B1" "E" "h2h" "A" None 4; quote "B2" "E" "h2h" "B" None 4]
      None None None 0%float 0%float false 0.5%float 1.87%float "profit" "desc" 1 50
      = Ok r2 /\ total r2 = 1.
Proof.
  refine (proj1 (proj2 (C8_pagination_total sample_now
            [quote "B1" "E" "h2h" "A" None 4; quote "B2" "E" "h2h" "B" None 4]
            None None None 0%float 0%float false 0.5%float 1.87%float "profit" "desc"
            7 10 1 50
            {| resp_page := 7; resp_limit := 10; total := 1; opportunities := [];
               middles := []; books_summary := _ |} _))).
  vm_compute. reflexivity.
Defined.

(** ** The books summary *)

Lemma string_eqb_eq (a b : string) : String.eqb a b = true <-> a = b.
Proof. apply String.eqb_eq. Qed.

Lemma is_book_true (b : string) (o : Odds) :
  is_book b o = true <-> sportsbook o = Some b.
Proof.
  unfold is_book, option_string_eqb. destruct (sportsbook o) as [c|].
  - rewrite String.eqb_eq. split; congruence.
  - split; discriminate.
Qed.

Lemma get_or_set_same {V : Type} (b : string) (v dflt : V) (d : dict string V) :
  get_or b dflt (dict_set String.eqb b v d) = v.
Proof. unfold get_or. now rewrite (dict_get_set_same String.eqb string_eqb_eq). Qed.

Lemma add_offer_book (b : string) (acc : summary_acc) (o : Odds) :
  nonempty b = true -> is_book b o = true ->
  dict_get String.eqb b (avg_odds_n (add_offer acc o)) =
    Some (get_or b 0 (avg_odds_n acc) + 1) /\
  dict_get String.eqb b (avg_odds_sum (add_offer acc o)) =
    Some (get_or b 0%float (avg_odds_sum acc) + price o)%float.
Proof.
  intros Hb Ho. apply is_book_true in Ho. unfold add_offer. rewrite Ho, Hb. simpl.
  split; apply (dict_get_set_same String.eqb string_eqb_eq).
Qed.

Lemma add_offer_other (b : string) (acc : summary_acc) (o : Odds) :
  is_book b o = false ->
  dict_get String.eqb b (avg_odds_n (add_offer acc o)) =
    dict_get String.eqb b (avg_odds_n acc) /\
  dict_get String.eqb b (avg_odds_sum (add_offer acc o)) =
    dict_get String.eqb b (avg_odds_sum acc).
Proof.
  intro Ho. unfold add_offer.
  destruct (sportsbook o) as [c|] eqn:Ec; [|auto].
  destruct (nonempty c); [|auto]. simpl.
  assert (c <> b).
  { intro. subst c. unfold is_book in Ho. rewrite Ec in Ho. simpl in Ho.
    rewrite String.eqb_refl in Ho. discriminate. }
  split; apply (dict_get_set_other String.eqb string_eqb_eq); assumption.
Qed.

Lemma tally_add_offer (b : string) (acc : summary_acc) (seen : list Odds) (o : Odds) :
  nonempty b = true -> tally b acc seen ->
  tally b (add_offer acc o) (seen ++ filter (is_book b) [o]).
Proof.
  intros Hb Ht. simpl. destruct (is_book b o) eqn:Eo.
  - destruct (add_offer_book b acc o Hb Eo) as [Hn Hs].
    destruct seen as [|x seen]; simpl in Ht |- *; destruct Ht as [Tn Ts].
    + unfold get_or in Hn, Hs. rewrite Tn in Hn. rewrite Ts in Hs. auto.
    + unfold get_or in Hn, Hs. rewrite Tn in Hn. rewrite Ts in Hs.
      rewrite Hn, Hs. split.
      * f_equal. rewrite List.length_app. simpl. lia.
      * unfold price_sum. simpl. rewrite fold_left_app. reflexivity.
  - destruct (add_offer_other b acc o Eo) as [Hn Hs].
    rewrite List.app_nil_r. destruct seen; simpl in *; rewrite Hn, Hs; exact Ht.
Qed.

Lemma tally_add_offers (b : string) (lst : list Odds) (acc : summary_acc)
    (seen : list Odds) :
  nonempty b = true -> tally b acc seen ->
  tally b (fold_left add_offer lst acc) (seen ++ filter (is_book b) lst).
Proof.
  intro Hb. revert acc seen. induction lst as [|o lst IH]; intros acc seen Ht.
  - simpl. now rewrite List.app_nil_r.
  - simpl fold_left.
    replace (seen ++ filter (is_book b) (o :: lst))
      with ((seen ++ filter (is_book b) [o]) ++ filter (is_book b) lst).
    + apply IH. now apply tally_add_offer.
    + rewrite <- List.app_assoc. f_equal. simpl. destruct (is_book b o); reflexivity.
Qed.

Lemma count_best_offers (lst : list Odds) (acc : summary_acc) :
  avg_odds_n (count_best lst acc) = avg_odds_n acc /\
  avg_odds_sum (count_best lst acc) = avg_odds_sum acc.
Proof.
  unfold count_best. destruct (fold_left pick_best lst None) as [best|]; [|auto].
  destruct (sportsbook best) as [c|]; [|auto]. destruct (nonempty c); auto.
Qed.

Lemma tally_count_best (b : string) (lst : list Odds) (acc : summary_acc)
    (seen : list Odds) :
  tally b acc seen -> tally b (count_best lst acc) seen.
Proof.
  destruct (count_best_offers lst acc) as [Hn Hs].
  unfold tally. rewrite Hn, Hs. auto.
Qed.

Lemma tally_groups (b : string) (groups : list (list Odds)) (acc : summary_acc)
    (seen : list Odds) :
  nonempty b = true -> tally b acc seen ->
  tally b (fold_left summary_step groups acc)
        (seen ++ filter (is_book b) (List.concat groups)).
Proof.
  intro Hb. revert acc seen. induction groups as [|lst groups IH]; intros acc seen Ht.
  - simpl. now rewrite List.app_nil_r.
  - simpl. rewrite filter_app, List.app_assoc. apply IH.
    unfold summary_step. apply tally_add_offers; [exact Hb|].
    now apply tally_count_best.
Qed.

Lemma summary_totals_tally (b : string) (rows : list Odds) :
  nonempty b = true -> tally b (summary_totals rows) (offers_of b rows).
Proof.
  intro Hb. unfold summary_totals, offers_of.
  apply (tally_groups b (values (by_emo rows)) _ [] Hb). simpl. auto.
Qed.

Lemma by_emo_perm (rows : list Odds) :
  Permutation (List.concat (values (by_emo rows))) rows.
Proof. exact (group_fold_perm emo_key_eqb emo_key_of rows []). Qed.

Lemma dedup_In (x : string) (l seen : list string) :
  In x (dedup seen l) <-> In x l /\ mem x seen = false.
Proof.
  revert seen. induction l as [|y l IH]; intro seen; simpl.
  - tauto.
  - destruct (mem y seen) eqn:Ey.
    + rewrite IH. split; [tauto|]. intros [[H|H] Hm]; [subst; congruence | tauto].
    + simpl. rewrite IH. simpl.
      destruct (String.eqb x y) eqn:Exy.
      * apply String.eqb_eq in Exy. subst y. split; [intros _ | auto].
        split; [auto|]. exact Ey.
      * apply String.eqb_neq in Exy. split.
        -- intros [H|[H Hm]]; [congruence | tauto].
        -- intros [[H|H] Hm]; [congruence | auto].
Qed.

Lemma map_result_In {A B : Type} (f : A -> result B) (l : list A) (r : list B) (x : A) :
  map_result f l = Ok r -> In x l -> exists y, f x = Ok y /\ In y r.
Proof.
  revert r. induction l as [|a l IH]; intros r; simpl; [intros _ []|].
  destruct (f a) as [y|e] eqn:Ea; [|discriminate]. simpl.
  destruct (map_result f l) as [ys|e]; [|discriminate]. simpl.
  intros H [Hx|Hx]; inversion H; subst.
  - exists y. simpl. auto.
  - destruct (IH ys eq_refl Hx) as (y' & Hy' & Hin). exists y'. simpl. auto.
Qed.

Lemma book_entry_average (acc : summary_acc) (b : string) (n : Z) (sum : float)
    (entry : string * book_stats) :
  dict_get String.eqb b (avg_odds_n acc) = Some n -> n <> 0 ->
  dict_get String.eqb b (avg_odds_sum acc) = Some sum ->
  book_entry acc b = Ok entry ->
  fst entry = b /\ avg_offered_decimal (snd entry) = Some (sum / PyFloat.of_Z n)%float.
Proof.
  intros Hn Hz Hs. unfold book_entry. rewrite Hn, Hs.
  destruct (n =? 0) eqn:Ez; [apply Z.eqb_eq in Ez; contradiction|].
  unfold PyFloat.div. destruct (PyFloat.of_Z n =? 0)%float; [discriminate|].
  unfold bind. intro H. inversion H. split; reflexivity.
Qed.

Lemma filter_perm_length {A : Type} (f : A -> bool) (l l' : list A) :
  Permutation l l' -> List.length (filter f l) = List.length (filter f l').
Proof.
  intro H. induction H; simpl.
  - reflexivity.
  - destruct (f x); simpl; congruence.
  - destruct (f x), (f y); reflexivity.
  - congruence.
Qed.

Lemma summary_books_In (rows : list Odds) (b : string) (v : float) :
  dict_get String.eqb b (avg_odds_sum (summary_totals rows)) = Some v ->
  In b (dedup [] (keys (best_counts (summary_totals rows)) ++
                  keys (avg_odds_sum (summary_totals rows)))).
Proof.
  intro H. apply dedup_In. split; [|reflexivity]. apply in_or_app. right.
  destruct (in_dec string_dec b (keys (avg_odds_sum (summary_totals rows)))) as [Hi|Hi];
    [exact Hi|].
  apply (dict_get_None_keys String.eqb string_eqb_eq) in Hi. congruence.
Qed.

(** C9: every filtered quote with a non-empty sportsbook is among the offers
    of its book, whatever its price (also a price [<= 0]); the count the
    summary holds for the book is the number of these offers, the sum is the
    sum of their prices, and the average it reports is the one divided by
    the other. *)
Theorem C9_every_offer_counts (rows : list Odds) (b : string) :
  nonempty b = true ->
  (forall o, In o rows -> sportsbook o = Some b -> In o (offers_of b rows)) /\
  List.length (offers_of b rows) = List.length (filter (is_book b) rows) /\
  (offers_of b rows <> [] ->
   dict_get String.eqb b (avg_odds_n (summary_totals rows)) =
     Some (Z.of_nat (List.length (offers_of b rows))) /\
   dict_get String.eqb b (avg_odds_sum (summary_totals rows)) =
     Some (price_sum (offers_of b rows) 0%float) /\
   forall summary,
     _collect_books_summary rows = Ok summary ->
     exists stats,
       In (b, stats) summary /\
       avg_offered_decimal stats =
         Some (price_sum (offers_of b rows) 0 /
               PyFloat.of_Z (Z.of_nat (List.length (offers_of b rows))))%float).
Proof.
  intros Hb.
  pose proof (by_emo_perm rows) as Hperm.
  pose proof (summary_totals_tally b rows Hb) as Ht.
  split; [|split].
  - intros o Ho Hs. unfold offers_of. apply filter_In. split.
    + eapply Permutation_in; [symmetry; exact Hperm | exact Ho].
    + now apply is_book_true.
  - unfold offers_of. now apply filter_perm_length.
  - intro Hne. revert Ht Hne.
    generalize (offers_of b rows) as offers. intros offers Ht Hne.
    destruct offers as [|o1 offers']; [contradiction|].
    destruct Ht as [Tn Ts]. split; [exact Tn|]. split; [exact Ts|].
    intros summary Hsum. unfold _collect_books_summary in Hsum.
    destruct (map_result_In _ _ _ _ Hsum (summary_books_In rows b _ Ts))
      as (entry & He & Hres).
    destruct (book_entry_average _ _ _ _ _ Tn ltac:(discriminate) Ts He) as [H1 H2].
    destruct entry as [b' stats]. unfold fst, snd in H1, H2. subst b'.
    exists stats. split; assumption.
Qed.

Lemma C9_witness :
  In (quote "B1" "E" "h2h" "A" None (-1))
     (offers_of "B1" [quote "B1" "E" "h2h" "A" None 2; quote "B1" "E" "h2h" "A" None (-1)]).
Proof.
  apply (proj1 (C9_every_offer_counts
                  [quote "B1" "E" "h2h" "A" None 2; quote "B1" "E" "h2h" "A" None (-1)]
                  "B1" eq_refl)).
  - simpl. auto.
  - reflexivity.
Defined.

(** ** Buckets *)

Lemma option_string_eqb_eq (a b : option string) :
  option_string_eqb a b = true <-> a = b.
Proof.
  destruct a as [x|], b as [y|]; simpl; try (split; congruence).
  rewrite String.eqb_eq. split; congruence.
Qed.

Lemma group_key_eqb_eq (a b : group_key) : group_key_eqb a b = true <-> a = b.
Proof.
  destruct a as [[e1 m1] l1], b as [[e2 m2] l2]. unfold group_key_eqb.
  rewrite !andb_true_iff, !String.eqb_eq, option_string_eqb_eq.
  split; [intros [[-> ->] ->]; reflexivity | intro H; inversion H; auto].
Qed.

Lemma emo_key_eqb_eq (a b : emo_key) : emo_key_eqb a b = true <-> a = b.
Proof.
  destruct a as [[[e1 m1] l1] o1], b as [[[e2 m2] l2] o2]. unfold emo_key_eqb.
  rewrite !andb_true_iff, !String.eqb_eq, option_string_eqb_eq.
  split; [intros [[[-> ->] ->] ->]; reflexivity | intro H; inversion H; auto].
Qed.

Lemma group_by_grouped (rows : list Odds) :
  grouped bucket_key (_group_by_event_market_line rows).
Proof.
  exact (group_fold_grouped group_key_eqb bucket_key group_key_eqb_eq rows []
           (grouped_nil bucket_key)).
Qed.

(** Every row is in the bucket of its key. *)
Lemma group_by_member (rows : list Odds) (o : Odds) :
  In o rows ->
  exists members,
    dict_get group_key_eqb (bucket_key o) (_group_by_event_market_line rows) = Some members /\
    In o members.
Proof. exact (group_fold_member group_key_eqb bucket_key group_key_eqb_eq rows o). Qed.

(** Two rows of the input share a bucket exactly when their keys agree. *)
Lemma same_bucket_iff (rows : list Odds) (o1 o2 : Odds) :
  In o1 rows -> In o2 rows ->
  (same_bucket rows o1 o2 <-> bucket_key o1 = bucket_key o2).
Proof.
  intros H1 H2. split.
  - intros (key & members & Hin & Hm1 & Hm2).
    destruct (group_by_grouped rows) as [_ Hg].
    destruct (Hg key members Hin) as [_ Hk].
    rewrite (Hk o1 Hm1), (Hk o2 Hm2). reflexivity.
  - intro Heq.
    destruct (group_by_member rows o1 H1) as (l1 & Hg1 & Hm1).
    destruct (group_by_member rows o2 H2) as (l2 & Hg2 & Hm2).
    rewrite Heq in Hg1. rewrite Hg1 in Hg2. inversion Hg2. subst l2.
    exists (bucket_key o2), l1. repeat split; try assumption.
    now apply (dict_get_In group_key_eqb group_key_eqb_eq).
Qed.

Lemma spreads_bucket_key (o : Odds) :
  is_spreads o ->
  bucket_key o = (or_empty (event o), "spreads"%string, norm_abs_spread (line o)).
Proof.
  unfold is_spreads, bucket_key, line_key. intro H. rewrite H. reflexivity.
Qed.




(** ** Totals middles *)

Lemma not_lt_le (x y : float) :
  is_nan x = false -> is_nan y = false -> PyFloat.le y x = negb (PyFloat.lt x y).
Proof.
  intros Hx Hy. unfold PyFloat.le, PyFloat.lt.
  rewrite (ltb_negb_leb x y Hx Hy). now rewrite negb_involutive.
Qed.

Lemma under_candidates_spec (ev : string) (min_width min_price lo : float)
    (over_row : Odds) (unders : list (float * Odds)) :
  is_nan min_width = false -> is_nan min_price = false ->
  is_nan lo = false -> is_nan (price over_row) = false ->
  numeric_entries unders ->
  PyFloat.lt (price over_row) min_price = false ->
  under_candidates ev min_width min_price lo over_row unders =
  map (middle_of ev)
    (filter (is_candidate min_width min_price)
       (map (fun under => ((lo, over_row), under)) unders)).
Proof.
  intros Hw Hp Hlo Hpo Hu Eo.
  unfold under_candidates.
  induction unders as [|[lu under_row] unders IH]; [reflexivity|].
  destruct (Hu lu under_row (or_introl eq_refl)) as [Hlu Hpu].
  assert (Hu' : numeric_entries unders).
  { intros l o H. apply Hu. now right. }
  simpl. rewrite (IH Hu'). clear IH.
  unfold PyFloat.gt. fold (PyFloat.lt lo lu).
  rewrite (not_lt_le (price over_row) min_price Hpo Hp), Eo.
  rewrite (not_lt_le (price under_row) min_price Hpu Hp).
  assert (Hgt : PyFloat.lt lo lu = negb (PyFloat.le lu lo)).
  { unfold PyFloat.lt, PyFloat.le. now apply ltb_negb_leb. }
  rewrite Hgt.
  destruct (PyFloat.le lu lo) eqn:El; simpl; [reflexivity|].
  destruct (PyFloat.lt (price under_row) min_price); simpl; [reflexivity|].
  assert (Hn : is_nan (lu - lo)%float = false).
  { apply sub_not_nan. unfold PyFloat.lt in Hgt. rewrite Hgt. reflexivity. }
  rewrite (not_lt_le (lu - lo)%float min_width Hn Hw).
  destruct (PyFloat.lt (lu - lo)%float min_width); reflexivity.
Qed.

Lemma no_candidate_low_over (min_width min_price lo : float) (over_row : Odds)
    (unders : list (float * Odds)) :
  PyFloat.le min_price (price over_row) = false ->
  filter (is_candidate min_width min_price)
    (map (fun under => ((lo, over_row), under)) unders) = [].
Proof.
  intro H. induction unders as [|[lu under_row] unders IH]; [reflexivity|].
  simpl. rewrite H, andb_false_r. simpl. exact IH.
Qed.

(** The loops of the detector emit, in order, the pairs that meet the
    condition. *)
Lemma pair_candidates_spec (ev : string) (min_width min_price : float)
    (overs unders : list (float * Odds)) :
  is_nan min_width = false -> is_nan min_price = false ->
  numeric_entries overs -> numeric_entries unders ->
  pair_candidates ev min_width min_price overs unders =
  map (middle_of ev)
    (filter (is_candidate min_width min_price) (list_prod overs unders)).
Proof.
  intros Hw Hp Ho Hu. unfold pair_candidates.
  induction overs as [|[lo over_row] overs IH]; [reflexivity|].
  destruct (Ho lo over_row (or_introl eq_refl)) as [Hlo Hpo].
  assert (Ho' : numeric_entries overs).
  { intros l o H. apply Ho. now right. }
  simpl. rewrite (IH Ho'), filter_app, map_app. f_equal.
  destruct (PyFloat.lt (price over_row) min_price) eqn:Eo.
  - rewrite no_candidate_low_over; [reflexivity|].
    rewrite (not_lt_le (price over_row) min_price Hpo Hp), Eo. reflexivity.
  - now apply under_candidates_spec.
Qed.

(** The per-line dictionary holds rows of the input under lines read from
    rows of the input. *)
Lemma best_by_line_fold_In (quotes all : list Odds) (acc : dict float Odds) :
  (forall q, In q quotes -> In q all) ->
  (forall l o, In (l, o) acc ->
     In o all /\ exists q, In q all /\ read_line q = Some l) ->
  forall l o, In (l, o) (fold_left best_by_line_step quotes acc) ->
    In o all /\ exists q, In q all /\ read_line q = Some l.
Proof.
  revert acc. induction quotes as [|q quotes IH]; intros acc Hsub Hacc; [exact Hacc|].
  simpl. apply IH; [intros x Hx; apply Hsub; now right|].
  assert (Hq : In q all) by (apply Hsub; now left).
  unfold best_by_line_step. destruct (read_line q) as [lq|] eqn:Eq; [|exact Hacc].
  assert (Hset : forall l o, In (l, o) (dict_set PyFloat.eq lq q acc) ->
                   In o all /\ exists q', In q' all /\ read_line q' = Some l).
  { intros l o H. apply dict_set_In in H. destruct H as [H|[Hv [Hk|Hk]]].
    - now apply Hacc.
    - subst. eauto.
    - subst o. split; [exact Hq|].
      unfold keys in Hk. apply in_map_iff in Hk. destruct Hk as ([l' o'] & Hl & Hin).
      simpl in Hl. subst l'. exact (proj2 (Hacc l o' Hin)). }
  destruct (dict_get PyFloat.eq lq acc) as [prev|]; [|exact Hset].
  destruct (PyFloat.gt (price q) (price prev)); [exact Hset | exact Hacc].
Qed.

Lemma best_by_line_In (quotes : list Odds) (l : float) (o : Odds) :
  In (l, o) (best_by_line quotes) ->
  In o quotes /\ exists q, In q quotes /\ read_line q = Some l.
Proof.
  apply (best_by_line_fold_In quotes quotes []); [auto | intros ? ? []].
Qed.

Lemma sorted_entries_numeric (quotes rows : list Odds) :
  (forall q, In q quotes -> In q rows) -> numeric_rows rows ->
  numeric_entries (sorted_entries (best_by_line quotes)).
Proof.
  intros Hsub Hnum l o Hin.
  unfold sorted_entries in Hin.
  apply (Permutation_in _ (sort_by_perm entry_lt (best_by_line quotes))) in Hin.
  apply best_by_line_In in Hin. destruct Hin as (Ho & q & Hq & Hl).
  split.
  - exact (proj2 (Hnum q (Hsub q Hq)) l Hl).
  - exact (proj1 (Hnum o (Hsub o Ho))).
Qed.

Lemma sort_by_nil {A : Type} (lt : A -> A -> bool) (l : list A) :
  sort_by lt l = [] -> l = [].
Proof.
  intro H. pose proof (sort_by_perm lt l) as Hp. rewrite H in Hp.
  now apply Permutation_nil.
Qed.

Lemma best_by_line_nil : best_by_line [] = [].
Proof. reflexivity. Qed.

Lemma flat_map_all_nil {A B : Type} (f : A -> list B) (l : list A) :
  (forall x, f x = []) -> flat_map f l = [].
Proof.
  intro H. induction l as [|x l IH]; [reflexivity|].
  simpl. now rewrite H, IH.
Qed.

Lemma pair_candidates_nil_r (ev : string) (min_width min_price : float)
    (overs : list (float * Odds)) :
  pair_candidates ev min_width min_price overs [] = [].
Proof.
  unfold pair_candidates. apply flat_map_all_nil.
  intros [lo r]. destruct (PyFloat.lt (price r) min_price); reflexivity.
Qed.

(** The candidates of one event are the pairs of per-line best quotes that
    meet the condition. *)
Lemma event_middles_spec (min_width min_price : float) (ev : string) (lst : list Odds) :
  is_nan min_width = false -> is_nan min_price = false -> numeric_rows lst ->
  event_middles min_width min_price ev lst =
  map (middle_of ev)
    (filter (is_candidate min_width min_price)
       (list_prod (sorted_entries (best_by_line (filter is_over lst)))
                  (sorted_entries (best_by_line (filter is_under lst))))).
Proof.
  intros Hw Hp Hnum.
  assert (Ho : numeric_entries (sorted_entries (best_by_line (filter is_over lst)))).
  { apply (sorted_entries_numeric _ lst); [|exact Hnum].
    intros q Hq. apply filter_In in Hq. tauto. }
  assert (Hu : numeric_entries (sorted_entries (best_by_line (filter is_under lst)))).
  { apply (sorted_entries_numeric _ lst); [|exact Hnum].
    intros q Hq. apply filter_In in Hq. tauto. }
  rewrite <- (pair_candidates_spec ev min_width min_price _ _ Hw Hp Ho Hu).
  unfold event_middles.
  destruct (filter is_over lst) as [|o1 overs]; [reflexivity|].
  destruct (filter is_under lst) as [|u1 unders].
  { rewrite best_by_line_nil. change (sorted_entries []) with (@nil (float * Odds)).
    now rewrite pair_candidates_nil_r. }
  destruct (best_by_line (o1 :: overs)) as [|e1 es]; [reflexivity|].
  destruct (best_by_line (u1 :: unders)) as [|f1 fs]; [|reflexivity].
  change (sorted_entries []) with (@nil (float * Odds)).
  now rewrite pair_candidates_nil_r.
Qed.

Lemma totals_by_event_fold (ev : string) (lst pre : list Odds) :
  (forall o, In o lst ->
     lower (or_empty (market o)) = "totals"%string /\ or_empty (event o) = ev) ->
  fold_left (fun d o =>
    if String.eqb (lower (or_empty (market o))) "totals"
    then dict_append String.eqb (or_empty (event o)) o d
    else d) lst [(ev, pre)] = [(ev, pre ++ lst)].
Proof.
  revert pre. induction lst as [|o lst IH]; intros pre H.
  - simpl. now rewrite List.app_nil_r.
  - destruct (H o (or_introl eq_refl)) as [Hm He].
    cbn [fold_left]. rewrite Hm, He.
    change (String.eqb "totals" "totals") with true. cbv iota.
    unfold dict_append. cbn [dict_get]. rewrite String.eqb_refl.
    cbn [dict_set]. rewrite String.eqb_refl.
    rewrite IH by (intros x Hx; apply H; now right).
    now rewrite <- List.app_assoc.
Qed.

(** The totals quotes of a single event form one group. *)
Lemma totals_by_event_single (ev : string) (o : Odds) (lst : list Odds) :
  (forall x, In x (o :: lst) ->
     lower (or_empty (market x)) = "totals"%string /\ or_empty (event x) = ev) ->
  totals_by_event (o :: lst) = [(ev, o :: lst)].
Proof.
  intro H. destruct (H o (or_introl eq_refl)) as [Hm He].
  unfold totals_by_event. cbn [fold_left]. rewrite Hm, He.
  change (String.eqb "totals" "totals") with true. cbv iota.
  unfold dict_append at 1. cbn [dict_get dict_set].
  apply (totals_by_event_fold ev lst [o]). intros x Hx. apply H. now right.
Qed.

Lemma over_under_rows_totals (b1 b2 ev : string) (p : float) :
  forall x,
    In x [quote b1 ev "totals" "Over" (Some "47.5"%string) p;
          quote b2 ev "totals" "Under" (Some "49.5"%string) p] ->
    lower (or_empty (market x)) = "totals"%string /\ or_empty (event x) = ev.
Proof. intros x [H|[H|[]]]; subst x; split; reflexivity. Qed.

Lemma detect_over_under (b1 b2 ev : string) (p min_width min_price : float) :
  _detect_middles_totals
    [quote b1 ev "totals" "Over" (Some "47.5"%string) p;
     quote b2 ev "totals" "Under" (Some "49.5"%string) p] min_width min_price =
  event_middles min_width min_price ev
    [quote b1 ev "totals" "Over" (Some "47.5"%string) p;
     quote b2 ev "totals" "Under" (Some "49.5"%string) p].
Proof.
  unfold _detect_middles_totals.
  rewrite (totals_by_event_single ev _ _ (over_under_rows_totals b1 b2 ev p)).
  simpl. apply List.app_nil_r.
Qed.



(** C10: nothing asks the two legs of a candidate to come from different
    sportsbooks: when one book quotes Over 47.5 and Under 49.5, the detector
    emits a candidate whose two legs are both that book's. *)
Theorem C10_same_book_middle (b ev : string) :
  exists m,
    In m (_detect_middles_totals
            [quote b ev "totals" "Over" (Some "47.5"%string) 1.91;
             quote b ev "totals" "Under" (Some "49.5"%string) 1.91]
            0.5%float 1.87%float) /\
    leg_sportsbook (mid_over m) = Some b /\
    leg_sportsbook (mid_under m) = Some b.
Proof.
  rewrite detect_over_under.
  eexists. split; [vm_compute; left; reflexivity|]. split; reflexivity.
Qed.

(** * Further properties of the code *)

(** ** The margin calculator *)

(** X1: [_calc_arb_margin] always returns, and what it returns is [0.0] or a
    strictly positive number: never a NaN, never a negative margin. *)
Theorem X1_margin_returns_nonnegative (best_by_outcome : dict string Odds) :
  exists m,
    _calc_arb_margin best_by_outcome = Ok m /\
    (m = 0%float \/ PyFloat.lt 0 m = true) /\
    is_nan m = false.
Proof.
  unfold _calc_arb_margin.
  destruct (calc_arb_margin_loop_total (values best_by_outcome) 0%float) as [m Hm].
  exists m. split; [exact Hm|]. split.
  - exact (calc_arb_margin_loop_cases _ _ _ Hm).
  - exact (proj2 (margin_le_zero_iff _ _ Hm)).
Qed.

Lemma calc_arb_margin_loop_guarded (vals : list Odds) (inv_sum : float) :
  (forall o, In o vals -> PyFloat.le (price o) 0 = false) ->
  calc_arb_margin_loop vals inv_sum =
  Ok (let s := fold_left (fun s p => (s + 1 / p)%float) (map price vals) inv_sum in
      if PyFloat.lt s 1 then ((1 - s) * 100)%float else 0%float).
Proof.
  revert inv_sum. induction vals as [|o vals IH]; intros inv_sum H; simpl.
  - reflexivity.
  - assert (E : PyFloat.le (price o) 0 = false) by (apply H; simpl; auto).
    rewrite E, (div_guarded _ _ E). simpl. apply IH.
    intros q Hq. apply H. simpl. auto.
Qed.

Lemma guard_dec (vals : list Odds) :
  (forall o, In o vals -> PyFloat.le (price o) 0 = false) \/
  (exists o, In o vals /\ PyFloat.le (price o) 0 = true).
Proof.
  induction vals as [|o vals [IH|(q & Hq & Hle)]].
  - left. intros o [].
  - destruct (PyFloat.le (price o) 0) eqn:E.
    + right. exists o. simpl. auto.
    + left. intros q [Hq|Hq]; [now subst | auto].
  - right. exists q. simpl. auto.
Qed.

(** X2: "Arbitrage when inverse-sum < 1": the margin is strictly positive
    exactly when no selected price is [<= 0] and the sum of the reciprocals
    is below 1. *)
Theorem X2_margin_positive_iff (best_by_outcome : dict string Odds) (m : float) :
  _calc_arb_margin best_by_outcome = Ok m ->
  (PyFloat.lt 0 m = true <->
   (forall o, In o (values best_by_outcome) -> PyFloat.le (price o) 0 = false) /\
   PyFloat.lt (inverse_sum (map price (values best_by_outcome))) 1 = true).
Proof.
  unfold _calc_arb_margin. intro Hm.
  destruct (guard_dec (values best_by_outcome)) as [Hg|Hb].
  - rewrite (calc_arb_margin_loop_guarded _ _ Hg) in Hm. cbv zeta in Hm.
    fold (inverse_sum (map price (values best_by_outcome))) in Hm.
    inversion Hm as [Hm']. clear Hm.
    destruct (PyFloat.lt (inverse_sum _) 1) eqn:E.
    + split; [auto|]. intros _. now apply margin_pos.
    + split; [discriminate | intros [_ H]; discriminate].
  - rewrite (calc_arb_margin_loop_nonpos _ _ Hb) in Hm. inversion Hm.
    split; [discriminate|]. intros [Hg _].
    destruct Hb as (o & Ho & Hle). rewrite (Hg o Ho) in Hle. discriminate.
Qed.

Lemma X2_witness :
  PyFloat.lt 0 50%float = true <->
  (forall o, In o (values [("A"%string, quote "B1" "E" "h2h" "A" None 4);
                           ("B"%string, quote "B2" "E" "h2h" "B" None 4)]) ->
             PyFloat.le (price o) 0 = false) /\
  PyFloat.lt (inverse_sum (map price
     (values [("A"%string, quote "B1" "E" "h2h" "A" None 4);
              ("B"%string, quote "B2" "E" "h2h" "B" None 4)]))) 1 = true.
Proof.
  apply (X2_margin_positive_iff
           [("A"%string, quote "B1" "E" "h2h" "A" None 4);
            ("B"%string, quote "B2" "E" "h2h" "B" None 4)] 50%float).
  vm_compute. reflexivity.
Defined.

(** ** Grouping *)

(** X3: The buckets partition the rows: together they hold every row once, the
    keys are distinct, no bucket is empty and a bucket holds rows of its own
    key only. *)
Theorem X3_grouping_partitions_rows (rows : list Odds) :
  Permutation (List.concat (values (_group_by_event_market_line rows))) rows /\
  NoDup (keys (_group_by_event_market_line rows)) /\
  forall key members,
    In (key, members) (_group_by_event_market_line rows) ->
    members <> [] /\ forall o, In o members -> bucket_key o = key.
Proof.
  split.
  - exact (group_fold_perm group_key_eqb bucket_key rows []).
  - exact (group_by_grouped rows).
Qed.

Lemma totals_bucket_key (o : Odds) :
  is_totals o ->
  bucket_key o = (or_empty (event o), "totals"%string, _coerce_line (line o)).
Proof.
  unfold is_totals, bucket_key, line_key. intro H. rewrite H. reflexivity.
Qed.

(** X4: Totals quotes of one event share a bucket exactly when their lines agree
    once trimmed: "48.5" and "48.5 " do, "48.5" and "48" do not. *)
Theorem X4_totals_grouped_by_trimmed_line (rows : list Odds) (o1 o2 : Odds) :
  In o1 rows -> In o2 rows -> is_totals o1 -> is_totals o2 ->
  or_empty (event o1) = or_empty (event o2) ->
  (same_bucket rows o1 o2 <-> _coerce_line (line o1) = _coerce_line (line o2)) /\
  _coerce_line (Some "48.5 "%string) = _coerce_line (Some "48.5"%string) /\
  _coerce_line (Some "48"%string) <> _coerce_line (Some "48.5"%string).
Proof.
  intros H1 H2 T1 T2 He. split; [|split].
  - rewrite (same_bucket_iff rows o1 o2 H1 H2).
    rewrite (totals_bucket_key o1 T1), (totals_bucket_key o2 T2), He.
    split; [intro H; now inversion H | intro H; now rewrite H].
  - vm_compute. reflexivity.
  - vm_compute. discriminate.
Qed.

Lemma X4_witness :
  same_bucket [quote "B1" "E" "totals" "Over" (Some "48.5"%string) 2;
               quote "B2" "E" "totals" "Under" (Some "48.5 "%string) 2]
    (quote "B1" "E" "totals" "Over" (Some "48.5"%string) 2)
    (quote "B2" "E" "totals" "Under" (Some "48.5 "%string) 2).
Proof.
  apply (proj1 (X4_totals_grouped_by_trimmed_line
           [quote "B1" "E" "totals" "Over" (Some "48.5"%string) 2;
            quote "B2" "E" "totals" "Under" (Some "48.5 "%string) 2]
           (quote "B1" "E" "totals" "Over" (Some "48.5"%string) 2)
           (quote "B2" "E" "totals" "Under" (Some "48.5 "%string) 2)
           ltac:(simpl; auto) ltac:(simpl; auto) eq_refl eq_refl eq_refl)).
  vm_compute. reflexivity.
Defined.

(** X5: In any other market (h2h and whatever is neither spreads nor totals) the
    line plays no part: two quotes of the same event and market share a
    bucket whatever their lines are. *)
Theorem X5_other_markets_ignore_line (rows : list Odds) (o1 o2 : Odds) :
  In o1 rows -> In o2 rows ->
  lower (or_empty (market o1)) = lower (or_empty (market o2)) ->
  lower (or_empty (market o1)) <> "spreads"%string ->
  lower (or_empty (market o1)) <> "totals"%string ->
  or_empty (event o1) = or_empty (event o2) ->
  same_bucket rows o1 o2.
Proof.
  intros H1 H2 Hm Hs Ht He.
  apply (same_bucket_iff rows o1 o2 H1 H2).
  unfold bucket_key, line_key. rewrite <- Hm, He.
  destruct (String.eqb_spec (lower (or_empty (market o1))) "spreads"); [contradiction|].
  destruct (String.eqb_spec (lower (or_empty (market o1))) "totals"); [contradiction|].
  reflexivity.
Qed.

Lemma X5_witness :
  same_bucket [quote "B1" "E" "h2h" "A" (Some "1"%string) 2;
               quote "B2" "E" "H2H" "B" None 2]
    (quote "B1" "E" "h2h" "A" (Some "1"%string) 2)
    (quote "B2" "E" "H2H" "B" None 2).
Proof.
  apply X5_other_markets_ignore_line.
  - simpl. auto.
  - simpl. auto.
  - vm_compute. reflexivity.
  - vm_compute. discriminate.
  - vm_compute. discriminate.
  - reflexivity.
Defined.

(** ** The quote filter *)

Lemma filter_idem {A : Type} (f : A -> bool) (l : list A) :
  filter f (filter f l) = filter f l.
Proof.
  induction l as [|x l IH]; [reflexivity|].
  simpl. destruct (f x) eqn:E; [|exact IH]. simpl. now rewrite E, IH.
Qed.



(** ** Best price per outcome *)

Lemma dict_set_In_eq {K V : Type} (keq : K -> K -> bool)
    (keq_eq : forall a b, keq a b = true <-> a = b)
    (k : K) (v : V) (d : dict K V) (k' : K) (v' : V) :
  In (k', v') (dict_set keq k v d) -> In (k', v') d \/ (k' = k /\ v' = v).
Proof.
  induction d as [|[k0 v0] d IH]; simpl.
  - intros [H|[]]. inversion H. auto.
  - destruct (keq k0 k) eqn:E.
    + apply keq_eq in E. subst k0.
      intros [H|H]; [inversion H; auto | auto].
    + intros [H|H]; [auto|]. destruct (IH H); auto.
Qed.

Lemma dict_set_length_le {K V : Type} (keq : K -> K -> bool) (k : K) (v : V)
    (d : dict K V) :
  (List.length (dict_set keq k v d) <= S (List.length d))%nat.
Proof.
  induction d as [|[k0 v0] d IH]; simpl; [lia|].
  destruct (keq k0 k); simpl; lia.
Qed.

(** What the selection keeps while it scans a bucket. *)
Lemma best_fold_inv (spreads : bool) (rows all : list Odds) (acc : dict string Odds) :
  (forall o, In o rows -> In o all) ->
  (NoDup (keys acc) /\
   forall k o, In (k, o) acc -> In o all /\ k = outcome_key spreads o) ->
  NoDup (keys (fold_left (best_step spreads) rows acc)) /\
  (forall k o, In (k, o) (fold_left (best_step spreads) rows acc) ->
     In o all /\ k = outcome_key spreads o) /\
  (List.length (fold_left (best_step spreads) rows acc) <=
   List.length acc + List.length rows)%nat.
Proof.
  revert acc. induction rows as [|r rows IH]; intros acc Hsub [Hnd Hacc].
  - simpl. split; [exact Hnd | split; [exact Hacc | lia]].
  - simpl.
    assert (Hr : In r all) by (apply Hsub; now left).
    assert (Hset : NoDup (keys (dict_set String.eqb (outcome_key spreads r) r acc)) /\
                   forall k o, In (k, o) (dict_set String.eqb (outcome_key spreads r) r acc) ->
                     In o all /\ k = outcome_key spreads o).
    { split; [now apply (dict_set_keys_NoDup String.eqb string_eqb_eq)|].
      intros k o H. apply (dict_set_In_eq String.eqb string_eqb_eq) in H.
      destruct H as [H|[Hk Hv]]; [now apply Hacc | subst; auto]. }
    assert (Hstep : NoDup (keys (best_step spreads acc r)) /\
                    (forall k o, In (k, o) (best_step spreads acc r) ->
                       In o all /\ k = outcome_key spreads o) /\
                    (List.length (best_step spreads acc r) <= S (List.length acc))%nat).
    { unfold best_step. fold (outcome_key spreads r).
      destruct (dict_get String.eqb (outcome_key spreads r) acc) as [prev|].
      - destruct (PyFloat.gt (price r) (price prev)).
        + destruct Hset as [Q1 Q2].
          split; [exact Q1 | split; [exact Q2 | apply dict_set_length_le]].
        + split; [exact Hnd | split; [exact Hacc | lia]].
      - destruct Hset as [Q1 Q2].
        split; [exact Q1 | split; [exact Q2 | apply dict_set_length_le]]. }
    destruct Hstep as (S1 & S2 & S3).
    destruct (IH (best_step spreads acc r)
                (fun o Ho => Hsub o (or_intror Ho)) (conj S1 S2)) as (I1 & I2 & I3).
    split; [exact I1 | split; [exact I2 | simpl; lia]].
Qed.

Lemma best_price_unfold (group_rows : list Odds) :
  _best_price_by_outcome group_rows =
  fold_left (best_step (spreads_bucket group_rows)) group_rows [].
Proof. destruct group_rows; reflexivity. Qed.

Lemma best_price_inv (group_rows : list Odds) :
  NoDup (keys (_best_price_by_outcome group_rows)) /\
  (forall k o, In (k, o) (_best_price_by_outcome group_rows) ->
     In o group_rows /\ k = outcome_key (spreads_bucket group_rows) o) /\
  (List.length (_best_price_by_outcome group_rows) <= List.length group_rows)%nat.
Proof.
  rewrite best_price_unfold.
  apply (best_fold_inv (spreads_bucket group_rows) group_rows group_rows []).
  - auto.
  - split; [constructor | intros k o []].
Qed.

(** X7: The best-price mapping has distinct keys, holds rows of the bucket only,
    each under its own outcome key, and has no more entries than the bucket
    has rows. *)
Theorem X7_best_price_structure (group_rows : list Odds) :
  NoDup (keys (_best_price_by_outcome group_rows)) /\
  (forall k o, In (k, o) (_best_price_by_outcome group_rows) ->
     In o group_rows /\ k = outcome_key (spreads_bucket group_rows) o) /\
  (List.length (_best_price_by_outcome group_rows) <= List.length group_rows)%nat.
Proof. exact (best_price_inv group_rows). Qed.

(** X8: A spreads bucket whose lines all parse as numbers has two sides at most:
    every key of its mapping is "plus" or "minus". *)
Theorem X8_spreads_two_sides (group_rows : list Odds) :
  spreads_bucket group_rows = true ->
  (forall o, In o group_rows -> read_line o <> None) ->
  (forall k, In k (keys (_best_price_by_outcome group_rows)) ->
     k = "plus"%string \/ k = "minus"%string) /\
  (List.length (_best_price_by_outcome group_rows) <= 2)%nat.
Proof.
  intros Hs Hparse.
  destruct (best_price_inv group_rows) as (Hnd & Hin & _).
  assert (Hk : forall k, In k (keys (_best_price_by_outcome group_rows)) ->
                 k = "plus"%string \/ k = "minus"%string).
  { intros k Hk. unfold keys in Hk. apply in_map_iff in Hk.
    destruct Hk as ([k' o] & Hf & Ho). simpl in Hf. subst k'.
    destruct (Hin k o Ho) as [Hrow Hkey]. rewrite Hs in Hkey.
    unfold outcome_key, spread_side in Hkey.
    specialize (Hparse o Hrow). unfold read_line in Hparse.
    destruct (PyFloat.of_string (pystr (line o))) as [ln|]; [|contradiction].
    destruct (PyFloat.le 0 ln); auto. }
  split; [exact Hk|].
  assert (Hincl : incl (keys (_best_price_by_outcome group_rows))
                       ["plus"%string; "minus"%string]).
  { intros k H. destruct (Hk k H); subst; simpl; auto. }
  pose proof (NoDup_incl_length Hnd Hincl) as Hl.
  unfold keys in Hl. rewrite length_map in Hl. exact Hl.
Qed.

Lemma X8_witness :
  (List.length (_best_price_by_outcome
     [quote "B1" "E" "spreads" "A" (Some "-2.5"%string) 2;
      quote "B2" "E" "spreads" "B" (Some "+2.5"%string) 2;
      quote "B3" "E" "spreads" "C" (Some "2.5"%string) 3]) <= 2)%nat.
Proof.
  apply X8_spreads_two_sides.
  - reflexivity.
  - intros o [H|[H|[H|[]]]]; subst o; vm_compute; discriminate.
Defined.

(** ** Emitted opportunities *)

Lemma add_nan_l (x y : float) : is_nan x = true -> is_nan (x + y)%float = true.
Proof.
  rewrite !is_nan_spec, add_spec. destruct (Prim2SF x); try discriminate. reflexivity.
Qed.

Lemma add_nan_r (x y : float) : is_nan y = true -> is_nan (x + y)%float = true.
Proof.
  rewrite !is_nan_spec, add_spec.
  destruct (Prim2SF y); try discriminate. destruct (Prim2SF x); reflexivity.
Qed.

Lemma div_nan_r (x y : float) : is_nan y = true -> is_nan (x / y)%float = true.
Proof.
  rewrite !is_nan_spec, div_spec.
  destruct (Prim2SF y); try discriminate. destruct (Prim2SF x); reflexivity.
Qed.

Lemma inverse_sum_nan_acc (prices : list float) (acc : float) :
  is_nan acc = true ->
  is_nan (fold_left (fun s p => (s + 1 / p)%float) prices acc) = true.
Proof.
  revert acc. induction prices as [|p prices IH]; intros acc H; [exact H|].
  simpl. apply IH. now apply add_nan_l.
Qed.

Lemma inverse_sum_nan (prices : list float) (acc p : float) :
  In p prices -> is_nan p = true ->
  is_nan (fold_left (fun s p => (s + 1 / p)%float) prices acc) = true.
Proof.
  revert acc. induction prices as [|q prices IH]; intros acc Hin Hp; [destruct Hin|].
  simpl. destruct Hin as [Hq|Hin].
  - subst q. apply inverse_sum_nan_acc. apply add_nan_r. now apply div_nan_r.
  - now apply IH.
Qed.

(** A positive margin is computed from strictly positive prices only. *)
Lemma positive_margin_prices (best : dict string Odds) (m : float) :
  _calc_arb_margin best = Ok m -> PyFloat.lt 0 m = true ->
  forall o, In o (values best) -> PyFloat.lt 0 (price o) = true.
Proof.
  unfold _calc_arb_margin. intros Hm Hpos o Ho.
  destruct (guard_dec (values best)) as [Hg|Hb].
  - rewrite (calc_arb_margin_loop_guarded _ _ Hg) in Hm. cbv zeta in Hm.
    inversion Hm as [Hm']. clear Hm.
    destruct (PyFloat.lt (fold_left _ (map price (values best)) 0%float) 1) eqn:E.
    + destruct (is_nan (price o)) eqn:En.
      * pose proof (inverse_sum_nan (map price (values best)) 0%float (price o)
                      (in_map price _ _ Ho) En) as Hn.
        unfold PyFloat.lt in E. destruct (ltb_not_nan _ _ E) as [Hs _]. congruence.
      * unfold PyFloat.lt. rewrite (ltb_negb_leb 0 (price o) eq_refl En).
        fold (PyFloat.le (price o) 0). now rewrite (Hg o Ho).
    + subst m. discriminate.
  - rewrite (calc_arb_margin_loop_nonpos _ _ Hb) in Hm. inversion Hm. subst m.
    discriminate.
Qed.

Lemma best_list_outcomes (best : dict string Odds) :
  map bo_outcome (best_list best) = keys best.
Proof.
  unfold best_list, keys. rewrite map_map. apply map_ext. intros [k o]. reflexivity.
Qed.

(** X9: Every emitted opportunity lists at least two legs, under distinct
    outcome keys, and each leg is a row of the bucket with a strictly
    positive price. *)
Theorem X9_emitted_legs (min_margin : float) (key : group_key)
    (group_rows : list Odds) (opp : opportunity) :
  score_group min_margin key group_rows = Ok (Some opp) ->
  (2 <= List.length (best_odds opp))%nat /\
  NoDup (map bo_outcome (best_odds opp)) /\
  forall leg, In leg (best_odds opp) ->
    PyFloat.lt 0 (bo_odds_decimal leg) = true /\
    exists o, In o group_rows /\
      bo_sportsbook leg = sportsbook o /\ bo_odds_decimal leg = price o.
Proof.
  destruct key as [[ev mkt] line_norm]. unfold score_group.
  set (best := _best_price_by_outcome group_rows).
  destruct (List.length best <? 2)%nat eqn:El; [discriminate|].
  apply Nat.ltb_ge in El.
  destruct (_calc_arb_margin best) as [m|e] eqn:Hm; [|discriminate]. simpl bind.
  destruct (PyFloat.le m 0) eqn:Hle; [discriminate|]. simpl.
  destruct (PyFloat.lt m min_margin); [discriminate|].
  destruct group_rows as [|sample rest] eqn:Er; [discriminate|].
  intro H. inversion H. clear H. simpl. subst group_rows.
  assert (Hpos : PyFloat.lt 0 m = true).
  { unfold _calc_arb_margin in Hm.
    destruct (margin_le_zero_iff _ _ Hm) as [Hiff _]. rewrite Hle in Hiff.
    unfold PyFloat.gt in Hiff. unfold PyFloat.lt.
    destruct (0 <? m)%float; [reflexivity | discriminate]. }
  destruct (best_price_inv (sample :: rest)) as (Hnd & Hin & _). fold best in Hnd, Hin.
  split; [|split].
  - unfold best_list. now rewrite length_map.
  - now rewrite best_list_outcomes.
  - intros leg Hleg. unfold best_list in Hleg. apply in_map_iff in Hleg.
    destruct Hleg as ([k o] & Hl & Ho). subst leg. simpl. split.
    + apply (positive_margin_prices best m Hm Hpos).
      unfold values. change o with (snd (k, o)). now apply in_map.
    + exists o. split; [exact (proj1 (Hin k o Ho)) | auto].
Qed.

Lemma X9_witness :
  exists opp,
    score_group 0%float ("E", "h2h", None)%string
      [quote "B1" "E" "h2h" "A" None 4; quote "B2" "E" "h2h" "B" None 4] = Ok (Some opp) /\
    (2 <= List.length (best_odds opp))%nat.
Proof.
  destruct (score_group 0%float ("E", "h2h", None)%string
              [quote "B1" "E" "h2h" "A" None 4; quote "B2" "E" "h2h" "B" None 4])
    as [[opp|]|e] eqn:E.
  - exists opp. split; [reflexivity|].
    exact (proj1 (X9_emitted_legs _ _ _ _ E)).
  - vm_compute in E. discriminate.
  - vm_compute in E. discriminate.
Defined.

(** ** The books summary *)

Lemma of_Z_nonzero (n : Z) :
  0 < n < 9223372036854775808 -> (PyFloat.of_Z n =? 0)%float = false.
Proof.
  intros [H0 H1]. unfold PyFloat.of_Z.
  rewrite Z.abs_eq by lia.
  destruct (n <? 9223372036854775808) eqn:E; [|apply Z.ltb_ge in E; lia].
  destruct (n <? 0) eqn:E0; [apply Z.ltb_lt in E0; lia|].
  rewrite eqb_spec, of_uint63_spec, Uint63.of_Z_spec.
  assert (Hw : Uint63.wB = 9223372036854775808) by reflexivity.
  rewrite Hw, Z.mod_small by lia.
  assert (Hp : SFpos (binary_normalize prec emax n 0 false) = true).
  { apply binary_normalize_pos; [exact H0 | unfold SpecFloat.emin, prec, emax; lia]. }
  destruct (binary_normalize prec emax n 0 false) as [s|s| |s m e];
    try discriminate; destruct s; try discriminate; reflexivity.
Qed.

Lemma add_offer_empty (b : string) (acc : summary_acc) (o : Odds) :
  nonempty b = false ->
  dict_get String.eqb b (avg_odds_n (add_offer acc o)) =
    dict_get String.eqb b (avg_odds_n acc) /\
  dict_get String.eqb b (avg_odds_sum (add_offer acc o)) =
    dict_get String.eqb b (avg_odds_sum acc).
Proof.
  intro Hb. unfold add_offer.
  destruct (sportsbook o) as [c|]; [|auto].
  destruct (nonempty c) eqn:Ec; [|auto]. simpl.
  assert (c <> b) by (intro; subst; congruence).
  split; apply (dict_get_set_other String.eqb string_eqb_eq); assumption.
Qed.

Lemma summary_fold_empty (b : string) (groups : list (list Odds)) (acc : summary_acc) :
  nonempty b = false ->
  dict_get String.eqb b (avg_odds_n (fold_left summary_step groups acc)) =
    dict_get String.eqb b (avg_odds_n acc) /\
  dict_get String.eqb b (avg_odds_sum (fold_left summary_step groups acc)) =
    dict_get String.eqb b (avg_odds_sum acc).
Proof.
  intro Hb. revert acc. induction groups as [|lst groups IH]; intro acc; [auto|].
  simpl. destruct (IH (summary_step acc lst)) as [Hn Hs]. rewrite Hn, Hs.
  unfold summary_step. destruct (count_best_offers lst acc) as [Cn Cs].
  rewrite <- Cn, <- Cs. generalize (count_best lst acc). clear - Hb.
  induction lst as [|o lst IH]; intro acc; [auto|].
  simpl. destruct (IH (add_offer acc o)) as [Hn Hs]. rewrite Hn, Hs.
  now apply add_offer_empty.
Qed.

Lemma offers_of_length (b : string) (rows : list Odds) :
  (List.length (offers_of b rows) <= List.length rows)%nat.
Proof.
  unfold offers_of.
  rewrite (filter_perm_length (is_book b) _ _ (by_emo_perm rows)).
  induction rows as [|o rows IH]; simpl; [lia|].
  destruct (is_book b o); simpl; lia.
Qed.

(** No book of the summary is looked up in vain or divided by zero. *)
Lemma book_entry_returns (rows : list Odds) (b : string) :
  Z.of_nat (List.length rows) < 9223372036854775808 ->
  exists stats, book_entry (summary_totals rows) b = Ok (b, stats).
Proof.
  intro Hlen. unfold book_entry.
  destruct (nonempty b) eqn:Hb.
  - pose proof (summary_totals_tally b rows Hb) as Ht.
    pose proof (offers_of_length b rows) as Hl.
    destruct (offers_of b rows) as [|o offers].
    + destruct Ht as [Hn Hs]. rewrite Hn. simpl. eauto.
    + assert (Ht' : dict_get String.eqb b (avg_odds_n (summary_totals rows)) =
                      Some (Z.of_nat (List.length (o :: offers))) /\
                    dict_get String.eqb b (avg_odds_sum (summary_totals rows)) =
                      Some (price_sum (o :: offers) 0%float)) by exact Ht.
      destruct Ht' as [Hn Hs]. rewrite Hn, Hs.
      set (n := Z.of_nat (List.length (o :: offers))) in *.
      assert (Hn0 : 0 < n < 9223372036854775808) by (subst n; simpl List.length in *; lia).
      destruct (n =? 0) eqn:Ez; [apply Z.eqb_eq in Ez; lia|].
      unfold PyFloat.div. rewrite (of_Z_nonzero n Hn0). simpl. eauto.
  - destruct (summary_fold_empty b (values (by_emo rows))
                {| best_counts := []; avg_odds_sum := []; avg_odds_n := [] |} Hb) as [Hn _].
    fold (summary_totals rows) in Hn. simpl in Hn. rewrite Hn. simpl. eauto.
Qed.

Lemma map_result_keys {B : Type} (f : string -> result (string * B)) (l : list string) :
  (forall b, In b l -> exists y, f b = Ok (b, y)) ->
  exists r, map_result f l = Ok r /\ keys r = l.
Proof.
  induction l as [|b l IH]; intro H; simpl.
  - exists []. auto.
  - destruct (H b (or_introl eq_refl)) as (y & Hy). rewrite Hy. simpl.
    destruct IH as (r & Hr & Hk); [intros; apply H; simpl; auto|].
    rewrite Hr. simpl. exists ((b, y) :: r). split; [reflexivity|].
    simpl. now rewrite Hk.
Qed.

Lemma dedup_NoDup (l seen : list string) : NoDup (dedup seen l).
Proof.
  revert seen. induction l as [|x l IH]; intro seen; simpl; [constructor|].
  destruct (mem x seen); [apply IH|]. constructor; [|apply IH].
  rewrite dedup_In. intros [_ H]. simpl in H. now rewrite String.eqb_refl in H.
Qed.

Lemma pick_best_In (lst : list Odds) (init : option Odds) (best : Odds) :
  fold_left pick_best lst init = Some best -> init = Some best \/ In best lst.
Proof.
  revert init. induction lst as [|o lst IH]; intro init; simpl; [auto|].
  intro H. destruct (IH _ H) as [H1|H1]; [|auto].
  unfold pick_best in H1. destruct init as [b0|].
  - destruct (PyFloat.gt (price o) (price b0)); inversion H1; subst; auto.
  - inversion H1. auto.
Qed.

Lemma add_offers_best_counts (lst : list Odds) (acc : summary_acc) :
  best_counts (fold_left add_offer lst acc) = best_counts acc.
Proof.
  revert acc. induction lst as [|o lst IH]; intro acc; [reflexivity|].
  simpl. rewrite IH. unfold add_offer.
  destruct (sportsbook o) as [c|]; [|reflexivity]. destruct (nonempty c); reflexivity.
Qed.

Lemma dict_set_keys_In {V : Type} (k k' : string) (v : V) (d : dict string V) :
  In k' (keys (dict_set String.eqb k v d)) -> k' = k \/ In k' (keys d).
Proof.
  induction d as [|[k0 v0] d IH]; simpl.
  - intros [H|[]]; auto.
  - destruct (String.eqb k0 k); simpl; intros [H|H]; auto.
    destruct (IH H); auto.
Qed.

(** The books counted as best-priced are books of the rows. *)
Lemma best_counts_books (groups : list (list Odds)) (acc : summary_acc) (b : string) :
  In b (keys (best_counts (fold_left summary_step groups acc))) ->
  In b (keys (best_counts acc)) \/
  (nonempty b = true /\ exists o, In o (List.concat groups) /\ sportsbook o = Some b).
Proof.
  revert acc. induction groups as [|lst groups IH]; intro acc; simpl; [auto|].
  intro H. destruct (IH _ H) as [H1|(Hb & o & Ho & Hs)].
  - unfold summary_step in H1. rewrite add_offers_best_counts in H1.
    unfold count_best in H1.
    destruct (fold_left pick_best lst None) as [best|] eqn:Eb; [|auto].
    destruct (sportsbook best) as [c|] eqn:Ec; [|auto].
    destruct (nonempty c) eqn:En; [|auto]. simpl in H1.
    apply dict_set_keys_In in H1. destruct H1 as [H1|H1]; [|auto].
    subst c. right. split; [exact En|]. exists best. split; [|exact Ec].
    apply in_or_app. left.
    destruct (pick_best_In _ _ _ Eb) as [H0|H0]; [discriminate | exact H0].
  - right. split; [exact Hb|]. exists o. split; [|exact Hs].
    apply in_or_app. now right.
Qed.

(** X10: For a snapshot of fewer than [2^63] rows the books summary returns: no
    key is missing and no average divides by zero.  It has one entry for
    each distinct non-empty sportsbook name of the rows, and no other. *)
Theorem X10_books_summary_returns (rows : list Odds) :
  Z.of_nat (List.length rows) < 9223372036854775808 ->
  exists summary,
    _collect_books_summary rows = Ok summary /\
    NoDup (keys summary) /\
    forall b, In b (keys summary) <->
              nonempty b = true /\ exists o, In o rows /\ sportsbook o = Some b.
Proof.
  intro Hlen. unfold _collect_books_summary. cbv zeta.
  set (acc := summary_totals rows).
  set (books := dedup [] (keys (best_counts acc) ++ keys (avg_odds_sum acc))).
  destruct (map_result_keys (book_entry acc) books) as (summary & Hs & Hk).
  { intros b _. apply book_entry_returns. exact Hlen. }
  exists summary. split; [exact Hs|]. rewrite Hk. split; [apply dedup_NoDup|].
  intro b. unfold books. rewrite dedup_In. split.
  - intros [Hin _]. apply in_app_or in Hin. destruct Hin as [Hin|Hin].
    + unfold acc, summary_totals in Hin.
      apply best_counts_books in Hin. destruct Hin as [[]|(Hb & o & Ho & Hsb)].
      split; [exact Hb|]. exists o. split; [|exact Hsb].
      apply (Permutation_in _ (by_emo_perm rows)). exact Ho.
    + destruct (nonempty b) eqn:Hb.
      * split; [reflexivity|].
        pose proof (summary_totals_tally b rows Hb) as Ht. fold acc in Ht.
        destruct (offers_of b rows) as [|o offers] eqn:Eo.
        -- simpl in Ht. destruct Ht as [_ Hnone].
           apply (dict_get_None_keys String.eqb string_eqb_eq) in Hnone. contradiction.
        -- exists o. assert (Ho : In o (offers_of b rows)) by (rewrite Eo; simpl; auto).
           unfold offers_of in Ho. apply filter_In in Ho. destruct Ho as [Ho Hbk].
           split; [apply (Permutation_in _ (by_emo_perm rows)); exact Ho|].
           now apply is_book_true.
      * exfalso.
        destruct (summary_fold_empty b (values (by_emo rows))
                    {| best_counts := []; avg_odds_sum := []; avg_odds_n := [] |} Hb)
          as [_ Hnone].
        fold (summary_totals rows) in Hnone. fold acc in Hnone. simpl in Hnone.
        apply (dict_get_None_keys String.eqb string_eqb_eq) in Hnone. contradiction.
  - intros (Hb & o & Ho & Hsb). split; [|reflexivity]. apply in_or_app. right.
    pose proof (summary_totals_tally b rows Hb) as Ht. fold acc in Ht.
    assert (Hin : In o (offers_of b rows)).
    { unfold offers_of. apply filter_In. split; [|now apply is_book_true].
      apply (Permutation_in _ (Permutation_sym (by_emo_perm rows))). exact Ho. }
    destruct (offers_of b rows) as [|o' offers]; [destruct Hin|].
    simpl in Ht. destruct Ht as [_ Hsome].
    destruct (in_dec string_dec b (keys (avg_odds_sum acc))) as [Hi|Hi]; [exact Hi|].
    apply (dict_get_None_keys String.eqb string_eqb_eq) in Hi. congruence.
Qed.

Lemma X10_witness :
  exists summary,
    _collect_books_summary
      [quote "B1" "E" "h2h" "A" None 4; quote "B2" "E" "h2h" "B" None 4] = Ok summary /\
    NoDup (keys summary).
Proof.
  destruct (X10_books_summary_returns
              [quote "B1" "E" "h2h" "A" None 4; quote "B2" "E" "h2h" "B" None 4])
    as (summary & Hs & Hnd & _).
  - simpl. lia.
  - exists summary. split; [exact Hs | exact Hnd].
Defined.

(** ** Where the legs of a middle come from *)

Lemma totals_by_event_filter (rows : list Odds) (d : dict string (list Odds)) :
  fold_left (fun d o =>
    if String.eqb (lower (or_empty (market o))) "totals"
    then dict_append String.eqb (or_empty (event o)) o d
    else d) rows d =
  fold_left (group_step String.eqb (fun o => or_empty (event o)))
    (filter (fun o => String.eqb (lower (or_empty (market o))) "totals") rows) d.
Proof.
  revert d. induction rows as [|o rows IH]; intro d; [reflexivity|].
  cbn [fold_left filter].
  destruct (String.eqb (lower (or_empty (market o))) "totals"); cbn [fold_left]; apply IH.
Qed.

(** Each group of the detector holds totals rows of the input, of the
    event it is filed under. *)
Lemma totals_by_event_In (rows : list Odds) (ev : string) (lst : list Odds) (o : Odds) :
  In (ev, lst) (totals_by_event rows) -> In o lst ->
  In o rows /\ is_totals o /\ or_empty (event o) = ev.
Proof.
  unfold totals_by_event. rewrite totals_by_event_filter. intros Hg Ho.
  set (tot := filter (fun o => String.eqb (lower (or_empty (market o))) "totals") rows) in *.
  pose proof (group_fold_grouped String.eqb (fun o => or_empty (event o)) string_eqb_eq
                tot [] (grouped_nil _)) as [_ Hin].
  pose proof (group_fold_perm String.eqb (fun o => or_empty (event o)) tot []) as Hp.
  simpl in Hp.
  assert (Hc : In o tot).
  { apply (Permutation_in _ Hp). apply in_concat. exists lst. split; [|exact Ho].
    unfold values. change lst with (snd (ev, lst)). now apply in_map. }
  unfold tot in Hc. apply filter_In in Hc. destruct Hc as [Hr Hm].
  split; [exact Hr|]. split; [now apply String.eqb_eq|].
  exact (proj2 (Hin ev lst Hg) o Ho).
Qed.

Lemma under_candidates_In (ev : string) (min_width min_price lo : float)
    (over_row : Odds) (unders : list (float * Odds)) (m : middle) :
  In m (under_candidates ev min_width min_price lo over_row unders) ->
  exists lu under_row,
    In (lu, under_row) unders /\
    m = make_middle ev lo over_row lu under_row /\
    PyFloat.le lu lo = false /\
    PyFloat.lt (price under_row) min_price = false /\
    PyFloat.lt (lu - lo)%float min_width = false.
Proof.
  unfold under_candidates. intro H. apply in_flat_map in H.
  destruct H as ([lu under_row] & Hin & Hm).
  destruct (PyFloat.le lu lo) eqn:E1; [destruct Hm|].
  destruct (PyFloat.lt (price under_row) min_price) eqn:E2; [destruct Hm|].
  destruct (PyFloat.lt (lu - lo)%float min_width) eqn:E3; [destruct Hm|].
  destruct Hm as [Hm|[]]. exists lu, under_row. auto.
Qed.

Lemma pair_candidates_In (ev : string) (min_width min_price : float)
    (overs unders : list (float * Odds)) (m : middle) :
  In m (pair_candidates ev min_width min_price overs unders) ->
  exists lo over_row lu under_row,
    In (lo, over_row) overs /\ In (lu, under_row) unders /\
    m = make_middle ev lo over_row lu under_row /\
    PyFloat.lt (price over_row) min_price = false /\
    PyFloat.le lu lo = false /\
    PyFloat.lt (price under_row) min_price = false /\
    PyFloat.lt (lu - lo)%float min_width = false.
Proof.
  unfold pair_candidates. intro H. apply in_flat_map in H.
  destruct H as ([lo over_row] & Hin & Hm).
  destruct (PyFloat.lt (price over_row) min_price) eqn:E; [destruct Hm|].
  apply under_candidates_In in Hm. destruct Hm as (lu & under_row & Hu & Hm & H1 & H2 & H3).
  exists lo, over_row, lu, under_row. auto 10.
Qed.

Lemma event_middles_In (min_width min_price : float) (ev : string) (lst : list Odds)
    (m : middle) :
  In m (event_middles min_width min_price ev lst) ->
  exists lo over_row lu under_row,
    In (lo, over_row) (best_by_line (filter is_over lst)) /\
    In (lu, under_row) (best_by_line (filter is_under lst)) /\
    m = make_middle ev lo over_row lu under_row /\
    PyFloat.lt (price over_row) min_price = false /\
    PyFloat.le lu lo = false /\
    PyFloat.lt (price under_row) min_price = false /\
    PyFloat.lt (lu - lo)%float min_width = false.
Proof.
  unfold event_middles.
  destruct (filter is_over lst) as [|o1 overs]; [intros []|].
  destruct (filter is_under lst) as [|u1 unders]; [intros []|].
  destruct (best_by_line (o1 :: overs)) as [|e1 es]; [intros []|].
  destruct (best_by_line (u1 :: unders)) as [|f1 fs]; [intros []|].
  intro H. apply pair_candidates_In in H.
  destruct H as (lo & over_row & lu & under_row & Ho & Hu & Hrest).
  exists lo, over_row, lu, under_row.
  split; [exact (Permutation_in _ (sort_by_perm entry_lt _) Ho)|].
  split; [exact (Permutation_in _ (sort_by_perm entry_lt _) Hu)|].
  exact Hrest.
Qed.

(** What every candidate of the detector is made of. *)
Lemma detect_middles_In (rows : list Odds) (min_width min_price : float) (m : middle) :
  In m (_detect_middles_totals rows min_width min_price) ->
  exists lo over_row lu under_row,
    m = make_middle (mid_event m) lo over_row lu under_row /\
    (In over_row rows /\ is_totals over_row /\
     or_empty (event over_row) = mid_event m /\ is_over over_row = true) /\
    (In under_row rows /\ is_totals under_row /\
     or_empty (event under_row) = mid_event m /\ is_under under_row = true) /\
    (exists q, In q rows /\ is_totals q /\ or_empty (event q) = mid_event m /\
               is_over q = true /\ read_line q = Some lo) /\
    (exists q, In q rows /\ is_totals q /\ or_empty (event q) = mid_event m /\
               is_under q = true /\ read_line q = Some lu) /\
    PyFloat.lt (price over_row) min_price = false /\
    PyFloat.lt (price under_row) min_price = false /\
    PyFloat.le lu lo = false /\
    PyFloat.lt (lu - lo)%float min_width = false.
Proof.
  unfold _detect_middles_totals. intro H. apply in_flat_map in H.
  destruct H as ([ev lst] & Hg & Hm). apply event_middles_In in Hm.
  destruct Hm as (lo & over_row & lu & under_row & Ho & Hu & Hm & G1 & G2 & G3 & G4).
  apply best_by_line_In in Ho. destruct Ho as (Ho & qo & Hqo & Hlo).
  apply best_by_line_In in Hu. destruct Hu as (Hu & qu & Hqu & Hlu).
  apply filter_In in Ho, Hu, Hqo, Hqu.
  destruct Ho as [Ho Hoo], Hu as [Hu Huu], Hqo as [Hqo Hqoo], Hqu as [Hqu Hquu].
  assert (He : mid_event m = ev) by (subst m; reflexivity). rewrite He.
  exists lo, over_row, lu, under_row.
  split; [exact Hm|].
  split; [pose proof (totals_by_event_In rows ev lst over_row Hg Ho); tauto|].
  split; [pose proof (totals_by_event_In rows ev lst under_row Hg Hu); tauto|].
  split; [exists qo; pose proof (totals_by_event_In rows ev lst qo Hg Hqo); tauto|].
  split; [exists qu; pose proof (totals_by_event_In rows ev lst qu Hg Hqu); tauto|].
  auto.
Qed.

(** X11: Every middle candidate pairs an Over row with an Under row of the rows
    passed in; both are totals quotes of the candidate's event, their lines
    are lines read from an Over and an Under quote of that event, and none
    of the four guards of the loops held for the pair. *)
Theorem X11_middle_legs (rows : list Odds) (min_width min_price : float) (m : middle) :
  In m (_detect_middles_totals rows min_width min_price) ->
  exists lo over_row lu under_row,
    m = make_middle (mid_event m) lo over_row lu under_row /\
    (In over_row rows /\ is_totals over_row /\
     or_empty (event over_row) = mid_event m /\ is_over over_row = true) /\
    (In under_row rows /\ is_totals under_row /\
     or_empty (event under_row) = mid_event m /\ is_under under_row = true) /\
    (exists q, In q rows /\ is_totals q /\ or_empty (event q) = mid_event m /\
               is_over q = true /\ read_line q = Some lo) /\
    (exists q, In q rows /\ is_totals q /\ or_empty (event q) = mid_event m /\
               is_under q = true /\ read_line q = Some lu) /\
    PyFloat.lt (price over_row) min_price = false /\
    PyFloat.lt (price under_row) min_price = false /\
    PyFloat.le lu lo = false /\
    PyFloat.lt (lu - lo)%float min_width = false.
Proof. exact (detect_middles_In rows min_width min_price m). Qed.

Lemma X11_witness :
  exists m over_row under_row,
    In m (_detect_middles_totals
            [quote "B1" "E" "totals" "Over" (Some "47.5"%string) 1.91;
             quote "B2" "E" "totals" "Under" (Some "49.5"%string) 1.91]
            0.5%float 1.87%float) /\
    leg_sportsbook (mid_over m) = sportsbook over_row /\
    leg_sportsbook (mid_under m) = sportsbook under_row /\
    is_over over_row = true /\ is_under under_row = true.
Proof.
  assert (H : exists m,
            In m (_detect_middles_totals
                    [quote "B1" "E" "totals" "Over" (Some "47.5"%string) 1.91;
                     quote "B2" "E" "totals" "Under" (Some "49.5"%string) 1.91]
                    0.5%float 1.87%float)).
  { vm_compute. eexists. left. reflexivity. }
  destruct H as [m Hm].
  destruct (X11_middle_legs _ _ _ m Hm)
    as (lo & over_row & lu & under_row & Em & (_ & _ & _ & Ho) & (_ & _ & _ & Hu) & _).
  exists m, over_row, under_row. rewrite Em at 2 3. simpl. auto.
Defined.

(** ** The endpoint returns *)

Lemma score_group_returns (min_margin : float) (key : group_key) (group_rows : list Odds) :
  group_rows <> [] -> exists r, score_group min_margin key group_rows = Ok r.
Proof.
  intro Hne. destruct key as [[ev mkt] line_norm]. unfold score_group.
  destruct (List.length _ <? 2)%nat; [eauto|].
  unfold _calc_arb_margin.
  destruct (calc_arb_margin_loop_total (values (_best_price_by_outcome group_rows)) 0%float)
    as [m Hm].
  rewrite Hm. simpl bind.
  destruct (PyFloat.le m 0 || PyFloat.lt m min_margin); [eauto|].
  destruct group_rows; [contradiction | eauto].
Qed.

Lemma score_groups_returns (min_margin : float) (groups : dict group_key (list Odds)) :
  (forall k l, In (k, l) groups -> l <> []) ->
  exists found, score_groups min_margin groups = Ok found.
Proof.
  induction groups as [|[key group_rows] groups IH]; intro H; simpl; [eauto|].
  destruct (score_group_returns min_margin key group_rows) as [r Hr].
  { apply (H key). now left. }
  rewrite Hr. simpl bind.
  destruct IH as [found Hf]; [intros k l Hin; apply (H k); now right|].
  rewrite Hf. simpl. eauto.
Qed.

Lemma insert_sorted_m_returns {A : Type} (lt : A -> A -> result bool) (x : A) (l : list A) :
  (forall y, In y l -> exists b, lt x y = Ok b) ->
  exists r, insert_sorted_m lt x l = Ok r.
Proof.
  induction l as [|y l IH]; intro H; simpl; [eauto|].
  destruct (H y (or_introl eq_refl)) as [b Hb]. rewrite Hb. simpl.
  destruct b; [eauto|].
  destruct IH as [r Hr]; [intros z Hz; apply H; now right|].
  rewrite Hr. simpl. eauto.
Qed.

Lemma sort_fold_m_returns {A : Type} (lt : A -> A -> result bool) (l acc : list A) :
  (forall x y, In x (acc ++ l) -> In y (acc ++ l) -> exists b, lt x y = Ok b) ->
  exists r, fold_left (fun acc x => sorted <- acc ;; insert_sorted_m lt x sorted) l (Ok acc)
            = Ok r.
Proof.
  revert acc. induction l as [|x l IH]; intros acc H; simpl; [eauto|].
  destruct (insert_sorted_m_returns lt x acc) as [r Hr].
  { intros y Hy. apply H; apply in_or_app; simpl; auto. }
  rewrite Hr. apply IH. pose proof (insert_sorted_m_perm lt x acc r Hr) as Hp.
  assert (Hsub : forall z, In z (r ++ l) -> In z (acc ++ x :: l)).
  { intros z Hz. apply in_app_or in Hz. apply in_or_app. destruct Hz as [Hz|Hz].
    - apply (Permutation_in _ Hp) in Hz. destruct Hz as [Hz|Hz]; simpl; auto.
    - simpl. auto. }
  intros a b Ha Hb. apply H; apply Hsub; assumption.
Qed.

Lemma sort_dir_by_m_returns {A : Type} (lt : A -> A -> result bool) (reverse : bool)
    (l : list A) :
  (forall x y, In x l -> In y l -> exists b, lt x y = Ok b) ->
  exists r, sort_dir_by_m lt reverse l = Ok r.
Proof.
  intro H. unfold sort_dir_by_m, sort_by_m. destruct reverse.
  - destruct (sort_fold_m_returns lt (rev l) []) as [r Hr].
    { simpl. intros x y Hx Hy. apply H; now apply in_rev. }
    rewrite Hr. simpl. eauto.
  - apply (sort_fold_m_returns lt l []). exact H.
Qed.

Lemma middle_lt_returns (a b : middle) :
  mid_commence_time a <> None -> mid_commence_time b <> None ->
  exists r, middle_lt a b = Ok r.
Proof.
  intros Ha Hb. unfold middle_lt.
  destruct (negb _); [eauto|].
  destruct (mid_commence_time a), (mid_commence_time b); try contradiction; eauto.
Qed.

(** The rows the filter keeps have a commence time. *)
Lemma row_passes_commence (cutoff : Z) (leagues markets sportsbooks : option strset)
    (o : Odds) :
  row_passes cutoff leagues markets sportsbooks o = true -> commence_time o <> None.
Proof.
  unfold row_passes. destruct (commence_time o); [discriminate | discriminate].
Qed.

Lemma filter_length_le {A : Type} (f : A -> bool) (l : list A) :
  (List.length (filter f l) <= List.length l)%nat.
Proof. induction l as [|x l IH]; simpl; [lia|]. destruct (f x); simpl; lia. Qed.

Lemma collect_books_summary_returns (rows : list Odds) :
  Z.of_nat (List.length rows) < 9223372036854775808 ->
  exists summary, _collect_books_summary rows = Ok summary.
Proof.
  intro Hlen. unfold _collect_books_summary. cbv zeta.
  destruct (map_result_keys (book_entry (summary_totals rows))
              (dedup [] (keys (best_counts (summary_totals rows)) ++
                         keys (avg_odds_sum (summary_totals rows)))))
    as (summary & Hs & _).
  { intros b _. apply book_entry_returns. exact Hlen. }
  eauto.
Qed.

(** Sorting the middles of filtered rows never compares [None] with a
    text. *)
Lemma sorted_middles_return (rows : list Odds) (min_width min_price : float) :
  (forall o, In o rows -> commence_time o <> None) ->
  exists mids,
    sort_dir_by_m middle_lt true (_detect_middles_totals rows min_width min_price) = Ok mids.
Proof.
  intro Hct. apply sort_dir_by_m_returns.
  assert (Hm : forall m, In m (_detect_middles_totals rows min_width min_price) ->
                 mid_commence_time m <> None).
  { intros m Hm. apply detect_middles_In in Hm.
    destruct Hm as (lo & over_row & lu & under_row & Em & (Ho & _) & _).
    rewrite Em. simpl. specialize (Hct over_row Ho).
    destruct (commence_time over_row); [discriminate | contradiction]. }
  intros x y Hx Hy. apply middle_lt_returns; auto.
Qed.



(** ** Pages *)

(** For a start inside or past the list and a non-negative size, the slice
    is the plain chunk. *)
Lemma slice_chunk {A : Type} (l : list A) (start size : Z) :
  0 <= start -> 0 <= size ->
  slice l start (start + size) = firstn (Z.to_nat size) (skipn (Z.to_nat start) l).
Proof.
  intros H0 H1. unfold slice, clamp_index.
  destruct (start <? 0) eqn:E; [apply Z.ltb_lt in E; lia|].
  destruct (start + size <? 0) eqn:E'; [apply Z.ltb_lt in E'; lia|].
  set (len := Z.of_nat (List.length l)).
  destruct (Z.le_gt_cases len start) as [Hge|Hlt].
  - rewrite (Z.min_r start len Hge).
    rewrite !skipn_all2 by (unfold len in *; lia). now rewrite !firstn_nil.
  - rewrite (Z.min_l start len) by lia.
    destruct (Z.le_gt_cases (start + size) len) as [Hin|Hout].
    + rewrite (Z.min_l (start + size) len Hin). f_equal. lia.
    + rewrite (Z.min_r (start + size) len) by lia.
      rewrite !firstn_all2; [reflexivity | |]; rewrite length_skipn; unfold len in *; lia.
Qed.

(** X13: The pages of one query are consecutive chunks of one ordering of the
    scored opportunities: with [page >= 1] and [limit >= 1], page [page]
    holds the [limit] entries that follow the first [(page - 1) * limit]
    ones, so it has at most [limit] entries, and the ordering does not
    depend on the page requested. *)
Theorem X13_pages_are_chunks (now : Z) (db_rows : list Odds)
    (leagues markets sportsbooks : option string)
    (min_margin min_hours_ahead : float) (show_middles : bool)
    (middle_min_width middle_min_price : float) (sort_by sort_dir : string) :
  exists all,
    (forall found,
       scored_opportunities now db_rows leagues markets sportsbooks min_margin
         min_hours_ahead = Ok found -> Permutation all found) /\
    forall page limit r,
      1 <= page -> 1 <= limit ->
      get_arbitrage now db_rows leagues markets sportsbooks min_margin min_hours_ahead
        show_middles middle_min_width middle_min_price sort_by sort_dir page limit = Ok r ->
      opportunities r =
        firstn (Z.to_nat limit) (skipn (Z.to_nat ((page - 1) * limit)) all) /\
      Z.of_nat (List.length (opportunities r)) <= limit.
Proof.
  unfold scored_opportunities, get_arbitrage. cbv zeta.
  destruct (_apply_row_level_filters now db_rows (parse_set lower leagues)
              (parse_set lower markets) (parse_set (fun x => x) sportsbooks)
              min_hours_ahead) as [rows|e].
  2:{ exists []. split; intros; discriminate. }
  cbn [bind].
  destruct (score_groups min_margin (_group_by_event_market_line rows)) as [found|e].
  2:{ exists []. split; [intros; discriminate|].
      intros page limit r _ _. destruct (_collect_books_summary rows); discriminate. }
  exists (sort_dir_by (opportunity_lt sort_by) (String.eqb (lower sort_dir) "desc") found).
  split.
  - intros found' H. inversion H. subst found'. apply sort_dir_by_perm.
  - intros page limit r Hp Hl.
    destruct (_collect_books_summary rows) as [summary|e]; [|discriminate]. cbn [bind].
    destruct (if show_middles then _ else _) as [mids|e]; [|discriminate]. cbn [bind].
    intro H. inversion H. clear H. cbn [opportunities].
    assert (Hs : 0 <= (page - 1) * limit) by nia.
    rewrite slice_chunk by lia. split; [reflexivity|].
    rewrite length_firstn. lia.
Qed.

(** ** The order of floats *)

Lemma SFltb_irrefl (x : spec_float) : SFltb x x = false.
Proof.
  unfold SFltb. pose proof (SFcompare_antisym x x) as Ha.
  destruct (SFcompare x x) as [[]|]; try reflexivity. simpl in Ha. discriminate.
Qed.

Lemma SFltb_trans (x y z : spec_float) :
  SFltb x y = true -> SFltb y z = true -> SFltb x z = true.
Proof.
  unfold SFltb.
  destruct x as [s1|s1| |s1 m1 e1], y as [s2|s2| |s2 m2 e2], z as [s3|s3| |s3 m3 e3];
    simpl; try discriminate; try reflexivity;
    try (destruct s1; try discriminate; try reflexivity;
         destruct s2; try discriminate; try reflexivity;
         destruct s3; try discriminate; reflexivity);
    try (destruct s1; try discriminate; try reflexivity;
         destruct s3; try discriminate; reflexivity);
    try (destruct s1; try discriminate; try reflexivity;
         destruct s2; try discriminate; reflexivity);
    try (destruct s2; try discriminate; try reflexivity;
         destruct s3; try discriminate; reflexivity).
  change (Pos.compare_cont Eq m1 m2) with (Pos.compare m1 m2).
  change (Pos.compare_cont Eq m2 m3) with (Pos.compare m2 m3).
  change (Pos.compare_cont Eq m1 m3) with (Pos.compare m1 m3).
  destruct s1, s2, s3; try discriminate; try reflexivity;
    destruct (Z.compare_spec e1 e2), (Z.compare_spec e2 e3), (Z.compare_spec e1 e3);
    try discriminate; try reflexivity; try lia;
    destruct (Pos.compare_spec m1 m2), (Pos.compare_spec m2 m3), (Pos.compare_spec m1 m3);
    simpl; try discriminate; try reflexivity; lia.
Qed.

Lemma ltb_irrefl (x : float) : (x <? x)%float = false.
Proof. rewrite ltb_spec. apply SFltb_irrefl. Qed.

Lemma ltb_trans (x y z : float) :
  (x <? y)%float = true -> (y <? z)%float = true -> (x <? z)%float = true.
Proof. rewrite !ltb_spec. apply SFltb_trans. Qed.

(** ** The selected price is a maximum *)

Lemma best_fold_max (spreads : bool) (rows seen : list Odds) (acc : dict string Odds) :
  (forall x, In x seen ->
     exists o, dict_get String.eqb (outcome_key spreads x) acc = Some o /\
               PyFloat.lt (price o) (price x) = false) ->
  forall x, In x (seen ++ rows) ->
    exists o, dict_get String.eqb (outcome_key spreads x)
                (fold_left (best_step spreads) rows acc) = Some o /\
              PyFloat.lt (price o) (price x) = false.
Proof.
  revert seen acc. induction rows as [|r rows IH]; intros seen acc Hinv x Hx.
  - rewrite List.app_nil_r in Hx. simpl. now apply Hinv.
  - simpl. apply (IH (seen ++ [r])); [|rewrite <- List.app_assoc; exact Hx].
    clear x Hx. intros x Hx.
    unfold best_step. fold (outcome_key spreads r).
    assert (Hnew :
              (forall y, In y seen -> outcome_key spreads y = outcome_key spreads r ->
                 PyFloat.lt (price r) (price y) = false) ->
              exists o, dict_get String.eqb (outcome_key spreads x)
                          (dict_set String.eqb (outcome_key spreads r) r acc) = Some o /\
                        PyFloat.lt (price o) (price x) = false).
    { intro Hbeat. apply in_app_or in Hx.
      destruct (string_dec (outcome_key spreads x) (outcome_key spreads r)) as [Ek|Ek].
      - rewrite Ek, (dict_get_set_same String.eqb string_eqb_eq).
        exists r. split; [reflexivity|].
        destruct Hx as [Hx|[Hx|[]]]; [now apply Hbeat|].
        subst x. apply ltb_irrefl.
      - rewrite (dict_get_set_other String.eqb string_eqb_eq) by auto.
        destruct Hx as [Hx|[Hx|[]]]; [now apply Hinv | subst x; contradiction]. }
    destruct (dict_get String.eqb (outcome_key spreads r) acc) as [prev|] eqn:Eprev.
    + destruct (PyFloat.gt (price r) (price prev)) eqn:Egt.
      * apply Hnew. intros y Hy Hk.
        destruct (Hinv y Hy) as (o & Ho & Hlt). rewrite Hk, Eprev in Ho.
        inversion Ho. subst o.
        destruct (PyFloat.lt (price r) (price y)) eqn:E; [|reflexivity].
        unfold PyFloat.gt, PyFloat.lt in *.
        rewrite (ltb_trans _ _ _ Egt E) in Hlt. discriminate.
      * apply in_app_or in Hx. destruct Hx as [Hx|[Hx|[]]]; [now apply Hinv|].
        subst x. exists prev. split; [exact Eprev | exact Egt].
    + apply Hnew. intros y Hy Hk.
      destruct (Hinv y Hy) as (o & Ho & _). rewrite Hk, Eprev in Ho. discriminate.
Qed.

(** X14: Every row of a bucket has an entry under its outcome key, and no row
    filed under that key has a price above the price of the row selected
    for it. *)
Theorem X14_best_price_is_maximal (group_rows : list Odds) (x : Odds) :
  In x group_rows ->
  exists o,
    dict_get String.eqb (outcome_key (spreads_bucket group_rows) x)
      (_best_price_by_outcome group_rows) = Some o /\
    In o group_rows /\
    outcome_key (spreads_bucket group_rows) o = outcome_key (spreads_bucket group_rows) x /\
    PyFloat.lt (price o) (price x) = false.
Proof.
  intro Hx. rewrite best_price_unfold.
  destruct (best_fold_max (spreads_bucket group_rows) group_rows [] []
              (fun y (H : In y []) => match H with end) x Hx) as (o & Ho & Hlt).
  exists o. split; [exact Ho|].
  apply (dict_get_In String.eqb string_eqb_eq) in Ho.
  destruct (best_price_inv group_rows) as (_ & Hin & _).
  rewrite best_price_unfold in Hin. destruct (Hin _ _ Ho) as [Hr Hk].
  split; [exact Hr|]. split; [now rewrite <- Hk | exact Hlt].
Qed.

Lemma X14_witness :
  exists o,
    dict_get String.eqb "A"%string
      (_best_price_by_outcome
         [quote "B1" "E" "h2h" "A" None 2; quote "B2" "E" "h2h" "A" None 3]) = Some o /\
    PyFloat.lt (price o) 2 = false.
Proof.
  destruct (X14_best_price_is_maximal
              [quote "B1" "E" "h2h" "A" None 2; quote "B2" "E" "h2h" "A" None 3]
              (quote "B1" "E" "h2h" "A" None 2) (or_introl eq_refl))
    as (o & Ho & _ & _ & Hlt).
  exists o. split; [exact Ho | exact Hlt].
Defined.

(** ** The order of the listing *)

Section SortedFacts.
Context {A : Type} (lt : A -> A -> bool).
Hypothesis lt_irrefl : forall x, lt x x = false.
Hypothesis lt_trans : forall x y z, lt x y = true -> lt y z = true -> lt x z = true.

Lemma insert_sorted_sorted (x : A) (l : list A) :
  StronglySorted (fun a b => lt b a = false) l ->
  StronglySorted (fun a b => lt b a = false) (insert_sorted lt x l).
Proof.
  induction l as [|y l IH]; intro H; simpl.
  - constructor; constructor.
  - apply StronglySorted_inv in H. destruct H as [Hl Hy].
    destruct (lt x y) eqn:E.
    + constructor; [constructor; assumption|].
      constructor.
      * destruct (lt y x) eqn:E'; [|reflexivity].
        rewrite <- (lt_irrefl x). symmetry. exact (lt_trans _ _ _ E E').
      * rewrite Forall_forall in *. intros b Hb.
        destruct (lt b x) eqn:E'; [|reflexivity].
        rewrite <- (Hy b Hb). symmetry. exact (lt_trans _ _ _ E' E).
    + constructor; [now apply IH|].
      rewrite Forall_forall in *. intros b Hb.
      apply (Permutation_in _ (insert_sorted_perm lt x l)) in Hb.
      destruct Hb as [Hb|Hb]; [now subst | now apply Hy].
Qed.

Lemma sort_by_sorted (l : list A) :
  StronglySorted (fun a b => lt b a = false) (sort_by lt l).
Proof.
  unfold sort_by.
  assert (H : forall acc, StronglySorted (fun a b => lt b a = false) acc ->
                StronglySorted (fun a b => lt b a = false)
                  (fold_left (fun sorted x => insert_sorted lt x sorted) l acc)).
  { induction l as [|x l IH]; intros acc Hacc; simpl; [exact Hacc|].
    apply IH. now apply insert_sorted_sorted. }
  apply H. constructor.
Qed.
End SortedFacts.

Lemma StronglySorted_snoc {A : Type} (R : A -> A -> Prop) (l : list A) (x : A) :
  StronglySorted R l -> Forall (fun a => R a x) l -> StronglySorted R (l ++ [x]).
Proof.
  induction l as [|y l IH]; intros Hs Hf; simpl.
  - constructor; constructor.
  - apply StronglySorted_inv in Hs. destruct Hs as [Hl Hy].
    inversion Hf; subst. constructor; [now apply IH|].
    apply Forall_app. split; [exact Hy | constructor; [assumption | constructor]].
Qed.

Lemma StronglySorted_rev {A : Type} (R : A -> A -> Prop) (l : list A) :
  StronglySorted R l -> StronglySorted (fun a b => R b a) (rev l).
Proof.
  induction l as [|y l IH]; intro Hs; simpl; [constructor|].
  apply StronglySorted_inv in Hs. destruct Hs as [Hl Hy].
  apply StronglySorted_snoc; [now apply IH|].
  rewrite Forall_forall in *. intros a Ha. apply Hy. now apply in_rev.
Qed.

Lemma StronglySorted_skipn {A : Type} (R : A -> A -> Prop) (n : nat) (l : list A) :
  StronglySorted R l -> StronglySorted R (skipn n l).
Proof.
  revert l. induction n as [|n IH]; intros l Hs; [exact Hs|].
  destruct l as [|x l]; [exact Hs|]. simpl. apply IH.
  now apply StronglySorted_inv in Hs.
Qed.

Lemma StronglySorted_firstn {A : Type} (R : A -> A -> Prop) (n : nat) (l : list A) :
  StronglySorted R l -> StronglySorted R (firstn n l).
Proof.
  revert l. induction n as [|n IH]; intros l Hs; [constructor|].
  destruct l as [|x l]; [constructor|]. simpl.
  apply StronglySorted_inv in Hs. destruct Hs as [Hl Hx].
  constructor; [now apply IH|].
  rewrite Forall_forall in *. intros a Ha. apply Hx.
  rewrite <- (firstn_skipn n l). apply in_or_app. now left.
Qed.

Lemma chars_ltb_irrefl (a : list ascii) : chars_ltb a a = false.
Proof.
  induction a as [|x a IH]; [reflexivity|]. simpl.
  now rewrite N.ltb_irrefl.
Qed.

Lemma chars_ltb_trans (a b c : list ascii) :
  chars_ltb a b = true -> chars_ltb b c = true -> chars_ltb a c = true.
Proof.
  revert b c. induction a as [|x a IH]; intros [|y b] [|z c]; simpl;
    try discriminate; try reflexivity.
  destruct (N.ltb_spec (code x) (code y)), (N.ltb_spec (code y) (code x)),
           (N.ltb_spec (code y) (code z)), (N.ltb_spec (code z) (code y)),
           (N.ltb_spec (code x) (code z)), (N.ltb_spec (code z) (code x));
    try discriminate; try reflexivity; try lia.
  apply IH.
Qed.

Lemma opportunity_lt_irrefl (sort_by : string) (a : opportunity) :
  opportunity_lt sort_by a a = false.
Proof.
  unfold opportunity_lt.
  destruct (String.eqb sort_by "date").
  { unfold date_key_ltb. destruct (opp_commence_time a); [apply Z.ltb_irrefl | reflexivity]. }
  destruct (String.eqb sort_by "league"); [apply chars_ltb_irrefl|].
  destruct (String.eqb sort_by "event"); [apply chars_ltb_irrefl|].
  apply ltb_irrefl.
Qed.

Lemma opportunity_lt_trans (sort_by : string) (a b c : opportunity) :
  opportunity_lt sort_by a b = true -> opportunity_lt sort_by b c = true ->
  opportunity_lt sort_by a c = true.
Proof.
  unfold opportunity_lt.
  destruct (String.eqb sort_by "date").
  { unfold date_key_ltb.
    destruct (opp_commence_time a), (opp_commence_time b), (opp_commence_time c);
      try discriminate; try reflexivity.
    rewrite !Z.ltb_lt. lia. }
  destruct (String.eqb sort_by "league"); [apply chars_ltb_trans|].
  destruct (String.eqb sort_by "event"); [apply chars_ltb_trans|].
  apply ltb_trans.
Qed.

(** X15: The page is in the order asked for, whatever the sort key: ascending,
    no entry is followed by one whose key is strictly smaller; descending
    ([sort_dir] is [desc] in any letter case), no entry is followed by one
    whose key is strictly greater. *)
Theorem X15_page_is_ordered (now : Z) (db_rows : list Odds)
    (leagues markets sportsbooks : option string)
    (min_margin min_hours_ahead : float) (show_middles : bool)
    (middle_min_width middle_min_price : float) (sort_by sort_dir : string)
    (page limit : Z) (r : response) :
  get_arbitrage now db_rows leagues markets sportsbooks min_margin min_hours_ahead
    show_middles middle_min_width middle_min_price sort_by sort_dir page limit = Ok r ->
  StronglySorted
    (fun a b =>
       if String.eqb (lower sort_dir) "desc"
       then opportunity_lt sort_by a b = false
       else opportunity_lt sort_by b a = false)
    (opportunities r).
Proof.
  unfold get_arbitrage. cbv zeta.
  destruct (_apply_row_level_filters _ _ _ _ _ _) as [rows|e]; [|discriminate]. cbn [bind].
  destruct (_collect_books_summary rows) as [summary|e]; [|discriminate]. cbn [bind].
  destruct (score_groups min_margin _) as [found|e]; [|discriminate]. cbn [bind].
  destruct (if show_middles then _ else _) as [mids|e]; [|discriminate]. cbn [bind].
  intro H. inversion H. clear H. cbn [opportunities].
  unfold slice. apply StronglySorted_firstn, StronglySorted_skipn.
  unfold sort_dir_by. destruct (String.eqb (lower sort_dir) "desc").
  - apply (StronglySorted_rev (fun a b => opportunity_lt sort_by b a = false)).
    apply sort_by_sorted;
      [apply opportunity_lt_irrefl | apply opportunity_lt_trans].
  - apply sort_by_sorted;
      [apply opportunity_lt_irrefl | apply opportunity_lt_trans].
Qed.

Lemma X15_witness :
  exists r,
    get_arbitrage sample_now
      [quote "B1" "E" "h2h" "A" None 4; quote "B2" "E" "h2h" "B" None 4]
      None None None 0%float 0%float true 0.5%float 1.87%float "profit" "desc" 1 50 = Ok r /\
    StronglySorted (fun a b => PyFloat.lt (profit_margin a) (profit_margin b) = false)
      (opportunities r).
Proof.
  destruct (get_arbitrage sample_now
              [quote "B1" "E" "h2h" "A" None 4; quote "B2" "E" "h2h" "B" None 4]
              None None None 0%float 0%float true 0.5%float 1.87%float "profit" "desc" 1 50)
    as [r|e] eqn:E.
  - exists r. split; [reflexivity|].
    exact (X15_page_is_ordered _ _ _ _ _ _ _ _ _ _ _ _ _ _ r E).
  - vm_compute in E. discriminate.
Defined.

(** ** American odds *)

Lemma binary_round_aux_nonzero (sx : bool) (m : positive) (e : Z) (l : location) :
  emin < Zpos (digits2_pos m) + e ->
  SFeqb (binary_round_aux prec emax sx (Zpos m) e l) (S754_zero false) = false.
Proof.
  intro H. unfold binary_round_aux.
  pose proof (shr_fexp_pos m e l H) as [H1 H2].
  destruct (shr_fexp prec emax (Zpos m) e l) as [mrs' e'].
  simpl fst in H1; simpl snd in H2.
  pose proof (round_nearest_even_ge (shr_m mrs') (loc_of_shr_record mrs')) as Hr.
  destruct (round_nearest_even (shr_m mrs') (loc_of_shr_record mrs')) as [|p2|p2]; try lia.
  pose proof (shr_fexp_pos p2 e' loc_Exact) as H3.
  destruct (shr_fexp prec emax (Zpos p2) e' loc_Exact) as [mrs'' e''].
  simpl fst in H3; simpl snd in H3.
  destruct H3 as [H3 _].
  { pose proof (digits2_pos_bounds p2). lia. }
  destruct (shr_m mrs'') as [|p3|p3]; try lia.
  destruct (e'' <=? emax - prec); destruct sx; reflexivity.
Qed.

Lemma binary_round_nonzero (s : bool) (m : positive) (e : Z) :
  emin < Zpos (digits2_pos m) + e ->
  SFeqb (binary_round prec emax s m e) (S754_zero false) = false.
Proof.
  intro H. unfold binary_round, shl_align.
  destruct (fexp prec emax (Zpos (digits2_pos m) + e) - e) eqn:E.
  - now apply binary_round_aux_nonzero.
  - now apply binary_round_aux_nonzero.
  - apply binary_round_aux_nonzero. rewrite digits2_pos_iter_xO. lia.
Qed.

(** A difference is rounded to zero only when it is zero. *)
Lemma binary_normalize_zero_iff (v e : Z) :
  emin <= e ->
  SFeqb (binary_normalize prec emax v e false) (S754_zero false) = (v =? 0).
Proof.
  intro He. destruct v as [|p|p]; simpl; try reflexivity;
    apply binary_round_nonzero; pose proof (digits2_pos_bounds p); lia.
Qed.

Lemma SFsub_one_zero (x : spec_float) :
  valid_binary x = true ->
  SFeqb (SF64sub x SF_one) (S754_zero false) = SFeqb x SF_one.
Proof.
  intros Hv. destruct x as [s|s| |s m e].
  - destruct s; reflexivity.
  - destruct s; reflexivity.
  - reflexivity.
  - apply valid_finite in Hv as (He & Hd & Hn).
    pose proof (digits2_pos_bounds m) as [Hlo Hhi].
    assert (Hm53 : Zpos m < 9007199254740992).
    { eapply Z.lt_le_trans; [exact Hhi|]. apply (Z.pow_le_mono_r 2 _ 53); lia. }
    clear Hhi.
    unfold SF64sub, SF_one, SFsub.
    rewrite binary_normalize_zero_iff by (unfold SpecFloat.emin, prec, emax in *; lia).
    rewrite !shl_align_Z by lia.
    destruct s; unfold cond_Zopp.
    + assert (0 < 2 ^ (-52 - Z.min e (-52))) by (apply Z.pow_pos_nonneg; lia).
      assert (0 < 2 ^ (e - Z.min e (-52))) by (apply Z.pow_pos_nonneg; lia).
      assert (0 < 4503599627370496 * 2 ^ (-52 - Z.min e (-52))) by (apply Z.mul_pos_pos; lia).
      assert (0 < Zpos m * 2 ^ (e - Z.min e (-52))) by (apply Z.mul_pos_pos; lia).
      transitivity false; [apply Z.eqb_neq; lia | reflexivity].
    + unfold SFeqb, SFcompare.
      destruct (e ?= -52) eqn:Ec.
      * apply Z.compare_eq in Ec.
        replace (Z.min e (-52)) with e by lia.
        replace (-52 - e) with 0 by lia. replace (e - e) with 0 by lia.
        rewrite Z.pow_0_r.
        destruct (Pos.compare_cont Eq m 4503599627370496) eqn:Em.
        -- apply (Pos.compare_eq m 4503599627370496) in Em.
           assert (Em' : Zpos m = 4503599627370496) by (f_equal; exact Em). clear Em.
           apply Z.eqb_eq. lia.
        -- apply (proj1 (Pos.compare_lt_iff m 4503599627370496)) in Em.
           assert (Em' : Zpos m < 4503599627370496) by exact Em. clear Em.
           apply Z.eqb_neq. lia.
        -- apply (proj1 (Pos.compare_gt_iff m 4503599627370496)) in Em.
           assert (Em' : 4503599627370496 < Zpos m) by exact Em. clear Em.
           apply Z.eqb_neq. lia.
      * rewrite Z.compare_lt_iff in Ec.
        replace (Z.min e (-52)) with e by lia. replace (e - e) with 0 by lia.
        rewrite Z.pow_0_r.
        assert (2 <= 2 ^ (-52 - e)) by (apply (Z.pow_le_mono_r 2 1); lia).
        apply Z.eqb_neq. lia.
      * rewrite Z.compare_gt_iff in Ec.
        replace (Z.min e (-52)) with (-52) by lia.
        set (k := e - -52) in *.
        rewrite Hn in Hlo by (unfold SpecFloat.emin, prec, emax; lia).
        assert (Hm' : 4503599627370496 <= Zpos m) by exact Hlo. clear Hlo.
        assert (Hk : 2 <= 2 ^ k) by (apply (Z.pow_le_mono_r 2 1); subst k; lia).
        assert (H0 : 2 ^ (-52 - -52) = 1) by reflexivity. rewrite H0.
        apply Z.eqb_neq. nia.
Qed.

Lemma sub_one_eqb_zero (d : float) : (d - 1 =? 0)%float = (d =? 1)%float.
Proof.
  rewrite !eqb_spec, sub_spec.
  change (Prim2SF 0%float) with (S754_zero false).
  change (Prim2SF 1%float) with SF_one.
  apply SFsub_one_zero. apply Prim2SF_valid.
Qed.

Lemma eqb_one (d : float) : (d =? 1)%float = true -> d = 1%float.
Proof.
  rewrite eqb_spec. change (Prim2SF 1%float) with SF_one. intro H.
  apply Prim2SF_inj. change (Prim2SF 1%float) with SF_one.
  destruct (Prim2SF d) as [s|s| |s m e]; try discriminate.
  - destruct s; discriminate.
  - unfold SFeqb, SF_one, SFcompare in H.
    destruct s; [discriminate|].
    destruct (e ?= -52) eqn:Ec; try discriminate.
    apply Z.compare_eq in Ec.
    destruct (Pos.compare_cont Eq m 4503599627370496) eqn:Em; try discriminate.
    apply (Pos.compare_eq m 4503599627370496) in Em.
    unfold SF_one. now rewrite Ec, Em.
Qed.

Lemma int_of_float_exn (x : float) (e : exn) :
  int_of_float x = Raise e -> e = ValueError \/ e = OverflowError.
Proof.
  unfold int_of_float. destruct (Prim2SF x) as [s|s| |s m ex].
  - discriminate.
  - intro H. inversion H. auto.
  - intro H. inversion H. auto.
  - destruct (PyFloat.ratio m ex). discriminate.
Qed.

(** X16: [decimal_to_american] divides by zero exactly for the decimal price
    [1.0]; every other failure is the [ValueError] or [OverflowError] of
    [int] on a NaN or an infinity. *)
Theorem X16_american_zero_division (decimal : float) :
  (decimal_to_american decimal = Raise ZeroDivisionError <->
   PyFloat.eq decimal 1 = true) /\
  (forall e, decimal_to_american decimal = Raise e ->
     e = ZeroDivisionError \/ e = ValueError \/ e = OverflowError).
Proof.
  assert (Hexn : forall e, decimal_to_american decimal = Raise e ->
            (e = ZeroDivisionError /\ PyFloat.eq decimal 1 = true) \/
            e = ValueError \/ e = OverflowError).
  { intro e. unfold decimal_to_american.
    destruct (PyFloat.le 2 decimal).
    - destruct (int_of_float ((decimal - 1) * 100)%float) as [n|e'] eqn:En; [discriminate|].
      cbn [bind]. intro H. inversion H. subst e'. right. exact (int_of_float_exn _ _ En).
    - unfold PyFloat.div. destruct (decimal - 1 =? 0)%float eqn:Ez.
      + cbn [bind]. intro H. inversion H. left. split; [reflexivity|].
        unfold PyFloat.eq. now rewrite <- sub_one_eqb_zero.
      + cbn [bind].
        destruct (int_of_float (-100 / (decimal - 1))%float) as [n|e'] eqn:En;
          [discriminate|].
        cbn [bind]. intro H. inversion H. subst e'. right. exact (int_of_float_exn _ _ En). }
  split.
  - split.
    + intro H. destruct (Hexn _ H) as [[_ H1]|[H1|H1]]; [exact H1 | discriminate..].
    + intro H. apply eqb_one in H. subst decimal. reflexivity.
  - intros e H. destruct (Hexn e H) as [[H1 _]|H1]; tauto.
Qed.

(** ** One opportunity per bucket *)

Lemma score_group_key (min_margin : float) (key : group_key) (group_rows : list Odds)
    (opp : opportunity) :
  score_group min_margin key group_rows = Ok (Some opp) ->
  (opp_event opp, opp_market opp, opp_line opp) = key.
Proof.
  destruct key as [[ev mkt] line_norm]. unfold score_group.
  destruct (List.length _ <? 2)%nat; [discriminate|].
  destruct (_calc_arb_margin _) as [m|e]; [|discriminate]. cbn [bind].
  destruct (PyFloat.le m 0 || PyFloat.lt m min_margin); [discriminate|].
  destruct group_rows; [discriminate|].
  intro H. inversion H. reflexivity.
Qed.

Lemma score_groups_keys (min_margin : float) (groups : dict group_key (list Odds))
    (found : list opportunity) :
  score_groups min_margin groups = Ok found ->
  NoDup (keys groups) ->
  NoDup (map (fun opp => (opp_event opp, opp_market opp, opp_line opp)) found) /\
  forall opp, In opp found ->
    exists group_rows,
      In ((opp_event opp, opp_market opp, opp_line opp), group_rows) groups /\
      score_group min_margin (opp_event opp, opp_market opp, opp_line opp) group_rows
        = Ok (Some opp).
Proof.
  revert found. induction groups as [|[key group_rows] groups IH]; intros found H Hnd.
  - inversion H. split; [constructor | intros opp []].
  - simpl in H.
    destruct (score_group min_margin key group_rows) as [o|e] eqn:Es; [|discriminate].
    cbn [bind] in H.
    destruct (score_groups min_margin groups) as [os|e]; [|discriminate].
    cbn [bind] in H. inversion H. clear H.
    simpl in Hnd. apply NoDup_cons_iff in Hnd. destruct Hnd as [Hk Hnd].
    destruct (IH os eq_refl Hnd) as [IH1 IH2].
    assert (Hrest : forall opp, In opp os ->
              exists rows,
                In ((opp_event opp, opp_market opp, opp_line opp), rows)
                   ((key, group_rows) :: groups) /\
                score_group min_margin (opp_event opp, opp_market opp, opp_line opp) rows
                  = Ok (Some opp)).
    { intros opp Hin. destruct (IH2 opp Hin) as (rows & Hr & Hs).
      exists rows. split; [now right | exact Hs]. }
    destruct o as [opp0|]; [|split; assumption].
    pose proof (score_group_key _ _ _ _ Es) as Hkey.
    split.
    + simpl. constructor; [|exact IH1].
      rewrite Hkey. intro Hin. apply in_map_iff in Hin.
      destruct Hin as (opp & Ek & Hin). destruct (IH2 opp Hin) as (rows & Hr & _).
      apply Hk. rewrite <- Ek. unfold keys.
      change (opp_event opp, opp_market opp, opp_line opp)
        with (fst ((opp_event opp, opp_market opp, opp_line opp), rows)).
      now apply in_map.
    + intros opp [Hin|Hin]; [|now apply Hrest].
      subst opp0. exists group_rows. rewrite Hkey. split; [now left | exact Es].
Qed.

Lemma NoDup_firstn_skipn {A : Type} (n k : nat) (l : list A) :
  NoDup l -> NoDup (firstn n (skipn k l)).
Proof.
  intro H. rewrite <- (firstn_skipn k l) in H. apply NoDup_app_remove_l in H.
  rewrite <- (firstn_skipn n (skipn k l)) in H. now apply NoDup_app_remove_r in H.
Qed.

(** X17: No two opportunities of a response have the same (event, market, line):
    each bucket yields at most one. *)
Theorem X17_one_opportunity_per_bucket (now : Z) (db_rows : list Odds)
    (leagues markets sportsbooks : option string)
    (min_margin min_hours_ahead : float) (show_middles : bool)
    (middle_min_width middle_min_price : float) (sort_by sort_dir : string)
    (page limit : Z) (r : response) :
  get_arbitrage now db_rows leagues markets sportsbooks min_margin min_hours_ahead
    show_middles middle_min_width middle_min_price sort_by sort_dir page limit = Ok r ->
  NoDup (map (fun opp => (opp_event opp, opp_market opp, opp_line opp)) (opportunities r)).
Proof.
  unfold get_arbitrage. cbv zeta.
  destruct (_apply_row_level_filters _ _ _ _ _ _) as [rows|e]; [|discriminate]. cbn [bind].
  destruct (_collect_books_summary rows) as [summary|e]; [|discriminate]. cbn [bind].
  destruct (score_groups min_margin _) as [found|e] eqn:Ef; [|discriminate]. cbn [bind].
  destruct (if show_middles then _ else _) as [mids|e]; [|discriminate]. cbn [bind].
  intro H. inversion H. clear H. cbn [opportunities].
  unfold slice. rewrite <- firstn_map, <- skipn_map.
  apply NoDup_firstn_skipn.
  destruct (score_groups_keys _ _ _ Ef (proj1 (group_by_grouped rows))) as [Hnd _].
  apply (Permutation_NoDup
           (l := map (fun opp => (opp_event opp, opp_market opp, opp_line opp)) found));
    [|exact Hnd].
  apply Permutation_map. symmetry. apply sort_dir_by_perm.
Qed.

Lemma X17_witness :
  exists r,
    get_arbitrage sample_now
      [quote "B1" "E" "h2h" "A" None 4; quote "B2" "E" "h2h" "B" None 4]
      None None None 0%float 0%float true 0.5%float 1.87%float "profit" "desc" 1 50 = Ok r /\
    NoDup (map (fun opp => (opp_event opp, opp_market opp, opp_line opp)) (opportunities r)).
Proof.
  destruct (get_arbitrage sample_now
              [quote "B1" "E" "h2h" "A" None 4; quote "B2" "E" "h2h" "B" None 4]
              None None None 0%float 0%float true 0.5%float 1.87%float "profit" "desc" 1 50)
    as [r|e] eqn:E.
  - exists r. split; [reflexivity|].
    exact (X17_one_opportunity_per_bucket _ _ _ _ _ _ _ _ _ _ _ _ _ _ r E).
  - vm_compute in E. discriminate.
Defined.

(** ** Raising the threshold *)

Lemma SFltb_leb_trans (x y z : spec_float) :
  SFltb x y = true -> SFleb y z = true -> SFltb x z = true.
Proof.
  unfold SFltb, SFleb.
  destruct x as [s1|s1| |s1 m1 e1], y as [s2|s2| |s2 m2 e2], z as [s3|s3| |s3 m3 e3];
    simpl; try discriminate; try reflexivity;
    try (destruct s1; try discriminate; try reflexivity;
         destruct s2; try discriminate; try reflexivity;
         destruct s3; try discriminate; reflexivity);
    try (destruct s1; try discriminate; try reflexivity;
         destruct s3; try discriminate; reflexivity);
    try (destruct s1; try discriminate; try reflexivity;
         destruct s2; try discriminate; reflexivity);
    try (destruct s2; try discriminate; try reflexivity;
         destruct s3; try discriminate; reflexivity).
  change (Pos.compare_cont Eq m1 m2) with (Pos.compare m1 m2).
  change (Pos.compare_cont Eq m2 m3) with (Pos.compare m2 m3).
  change (Pos.compare_cont Eq m1 m3) with (Pos.compare m1 m3).
  destruct s1, s2, s3; try discriminate; try reflexivity;
    destruct (Z.compare_spec e1 e2), (Z.compare_spec e2 e3), (Z.compare_spec e1 e3);
    try discriminate; try reflexivity; try lia;
    destruct (Pos.compare_spec m1 m2), (Pos.compare_spec m2 m3), (Pos.compare_spec m1 m3);
    simpl; try discriminate; try reflexivity; lia.
Qed.

Lemma ltb_leb_trans (x y z : float) :
  (x <? y)%float = true -> (y <=? z)%float = true -> (x <? z)%float = true.
Proof. rewrite !ltb_spec, leb_spec. apply SFltb_leb_trans. Qed.

Lemma score_group_mono (m1 m2 : float) (key : group_key) (group_rows : list Odds)
    (o2 : option opportunity) :
  PyFloat.le m1 m2 = true ->
  score_group m2 key group_rows = Ok o2 ->
  exists o1, score_group m1 key group_rows = Ok o1 /\
             forall opp, o2 = Some opp -> o1 = Some opp.
Proof.
  intro Hle. destruct key as [[ev mkt] line_norm].
  destruct group_rows as [|sample rest].
  { intro H. inversion H. exists None. split; [reflexivity | discriminate]. }
  unfold score_group.
  destruct (List.length _ <? 2)%nat.
  { intro H. inversion H. exists None. split; [reflexivity | discriminate]. }
  destruct (_calc_arb_margin _) as [m|e]; [|discriminate]. cbn [bind].
  destruct (PyFloat.le m 0); cbn [orb].
  { intro H. inversion H. exists None. split; [reflexivity | discriminate]. }
  destruct (PyFloat.lt m m2) eqn:E2.
  - intro H. inversion H. destruct (PyFloat.lt m m1); eexists; (split; [reflexivity|]);
      discriminate.
  - destruct (PyFloat.lt m m1) eqn:E1.
    + unfold PyFloat.lt, PyFloat.le in *.
      rewrite (ltb_leb_trans _ _ _ E1 Hle) in E2. discriminate.
    + intro H. exists o2. split; [exact H | auto].
Qed.

Lemma score_groups_mono (m1 m2 : float) (groups : dict group_key (list Odds))
    (found2 : list opportunity) :
  PyFloat.le m1 m2 = true ->
  score_groups m2 groups = Ok found2 ->
  exists found1, score_groups m1 groups = Ok found1 /\ incl found2 found1.
Proof.
  intro Hle. revert found2.
  induction groups as [|[key group_rows] groups IH]; intros found2 H.
  - inversion H. exists []. split; [reflexivity | apply incl_refl].
  - simpl in H.
    destruct (score_group m2 key group_rows) as [o2|e] eqn:Es; [|discriminate].
    cbn [bind] in H.
    destruct (score_groups m2 groups) as [os2|e]; [|discriminate].
    cbn [bind] in H. inversion H. clear H.
    destruct (score_group_mono m1 m2 key group_rows o2 Hle Es) as (o1 & Ho1 & Hsame).
    destruct (IH os2 eq_refl) as (os1 & Hos1 & Hincl).
    simpl. rewrite Ho1, Hos1. cbn [bind]. eexists. split; [reflexivity|].
    destruct o2 as [opp|].
    + rewrite (Hsame opp eq_refl). intros x [Hx|Hx]; [now left | right; now apply Hincl].
    + destruct o1; [apply incl_tl|]; exact Hincl.
Qed.

Lemma map_NoDup_inv {A B : Type} (f : A -> B) (l : list A) : NoDup (map f l) -> NoDup l.
Proof.
  induction l as [|x l IH]; intro H; [constructor|].
  simpl in H. apply NoDup_cons_iff in H. destruct H as [Hx Hl].
  constructor; [|now apply IH]. intro Hin. apply Hx. now apply in_map.
Qed.



(** ** Padding of a line *)

Lemma chars_str (cs : list ascii) : chars (str cs) = cs.
Proof. apply list_ascii_of_string_of_list_ascii. Qed.

Lemma str_chars (s : string) : str (chars s) = s.
Proof. apply string_of_list_ascii_of_string. Qed.

Lemma lstrip_by_app (sp : ascii -> bool) (cs post : list ascii) :
  lstrip_by sp (cs ++ post) =
  match lstrip_by sp cs with
  | [] => lstrip_by sp post
  | l => l ++ post
  end.
Proof.
  induction cs as [|c cs IH]; [reflexivity|].
  simpl. destruct (sp c); [exact IH | reflexivity].
Qed.

Lemma lstrip_by_all (sp : ascii -> bool) (cs : list ascii) :
  Forall (fun c => sp c = true) cs -> lstrip_by sp cs = [].
Proof.
  induction 1 as [|c cs Hc _ IH]; [reflexivity|]. simpl. now rewrite Hc.
Qed.

Lemma lstrip_by_pad (sp : ascii -> bool) (pre cs : list ascii) :
  Forall (fun c => sp c = true) pre -> lstrip_by sp (pre ++ cs) = lstrip_by sp cs.
Proof.
  intro H. rewrite lstrip_by_app, (lstrip_by_all sp pre H). reflexivity.
Qed.

Lemma lstrip_by_head (sp : ascii -> bool) (cs : list ascii) (c : ascii) (rest : list ascii) :
  lstrip_by sp cs = c :: rest -> sp c = false.
Proof.
  induction cs as [|x cs IH]; [discriminate|].
  simpl. destruct (sp x) eqn:E; [exact IH|]. intro H. inversion H. now subst.
Qed.

Lemma lstrip_by_suffix (sp : ascii -> bool) (cs : list ascii) :
  exists pre, cs = pre ++ lstrip_by sp cs.
Proof.
  induction cs as [|x cs [pre IH]]; [exists []; reflexivity|].
  simpl. destruct (sp x).
  - exists (x :: pre). simpl. now rewrite <- IH.
  - exists []. reflexivity.
Qed.

Lemma lstrip_by_fixed (sp : ascii -> bool) (cs : list ascii) :
  match cs with [] => True | c :: _ => sp c = false end -> lstrip_by sp cs = cs.
Proof. destruct cs as [|c cs]; [reflexivity|]. simpl. now intros ->. Qed.

Lemma strip_by_pad (sp : ascii -> bool) (pre cs post : list ascii) :
  Forall (fun c => sp c = true) pre -> Forall (fun c => sp c = true) post ->
  strip_by sp (pre ++ cs ++ post) = strip_by sp cs.
Proof.
  intros Hpre Hpost. unfold strip_by.
  rewrite (lstrip_by_pad sp pre _ Hpre), lstrip_by_app.
  destruct (lstrip_by sp cs) as [|c l] eqn:E.
  - now rewrite (lstrip_by_all sp post Hpost).
  - rewrite rev_app_distr. rewrite lstrip_by_pad; [reflexivity|].
    apply Forall_rev. exact Hpost.
Qed.

(** What [strip] returns starts and ends with a character that is not
    white space, so stripping it again changes nothing. *)
Lemma strip_by_idem (sp : ascii -> bool) (cs : list ascii) :
  strip_by sp (strip_by sp cs) = strip_by sp cs.
Proof.
  unfold strip_by.
  set (L := lstrip_by sp cs).
  set (M := lstrip_by sp (rev L)).
  assert (HM : lstrip_by sp M = M).
  { apply lstrip_by_fixed. destruct M as [|c M'] eqn:E; [exact I|].
    exact (lstrip_by_head sp (rev L) c M' E). }
  assert (HS : lstrip_by sp (rev M) = rev M).
  { apply lstrip_by_fixed.
    destruct (lstrip_by_suffix sp (rev L)) as [pre Hpre]. fold M in Hpre.
    assert (HL : L = rev M ++ rev pre).
    { rewrite <- (rev_involutive L), Hpre, rev_app_distr. reflexivity. }
    destruct (rev M) as [|c S'] eqn:ES; [exact I|].
    destruct L as [|c0 L'] eqn:EL; [discriminate|].
    simpl in HL. inversion HL. subst c0.
    exact (lstrip_by_head sp cs c L' EL). }
  rewrite HS, rev_involutive, HM. reflexivity.
Qed.

Lemma nonempty_str (cs : list ascii) :
  nonempty (str cs) = match cs with [] => false | _ => true end.
Proof. destruct cs; reflexivity. Qed.

(** X19: [_coerce_line] gives the same line whatever white space surrounds it,
    and normalising a normalised line changes nothing. *)
Theorem X19_coerce_line_padding :
  (forall pre post s,
     Forall (fun c => isspace c = true) pre ->
     Forall (fun c => isspace c = true) post ->
     _coerce_line (Some (str (pre ++ chars s ++ post))) = _coerce_line (Some s)) /\
  (forall v, _coerce_line (_coerce_line v) = _coerce_line v).
Proof.
  split.
  - intros pre post s Hpre Hpost. unfold _coerce_line, strip.
    now rewrite chars_str, (strip_by_pad isspace pre (chars s) post Hpre Hpost).
  - intros [v|]; [|reflexivity].
    assert (Hv : _coerce_line (Some v) =
                 if nonempty (strip v) then Some (strip v) else None) by reflexivity.
    rewrite Hv. destruct (nonempty (strip v)) eqn:E; [|reflexivity].
    unfold _coerce_line. cbv zeta.
    assert (Hs : strip (strip v) = strip v).
    { unfold strip. now rewrite chars_str, strip_by_idem. }
    now rewrite Hs, E.
Qed.

Lemma X19_witness :
  _coerce_line (Some " 48.5  "%string) = _coerce_line (Some "48.5"%string).
Proof.
  apply (proj1 X19_coerce_line_padding [" "%char] [" "%char; " "%char] "48.5"%string);
    repeat constructor.
Defined.
